(** * connect-eaas-core: the extension-project validators

  A shallow embedding of [connect/eaas/core/validations.py] and of the
  tests of the capability accessors in
  [tests/connect/eaas/core/test_extension.py], followed by the properties
  proved about them.

  Python values are a small universe [pyval]; a function that can raise
  returns in the error monad [py]; dictionaries whose iteration order is
  observable are association lists in insertion order, the event-definition
  table is stdpp's [gmap]; a Python [set] that is iterated is the list of
  its elements in an order the collaborators [Externals] give and of which
  nothing but its elements is known.  The project loader
  [validate_pyproject_toml] threads [sys.path], which it extends, as
  explicit state. *)

From stdpp Require Import base option list strings gmap.
From Stdlib Require Import ZArith Ascii String Lia.
From Equations.Prop Require Import Equations Logic.

Open Scope string_scope.
Open Scope list_scope.

(** ** Python values, exceptions and built-ins *)

Module Py.

(** The exceptions that can leave the validators. *)
Inductive exn : Type :=
| TypeError
| KeyError
| IndexError
| AttributeError.

(** A computation that returns a value or raises. *)
Definition py (A : Type) : Type := exn + A.

Definition ret {A} (a : A) : py A := inr a.
Definition raise {A} (e : exn) : py A := inl e.
Definition bind {A B} (m : py A) (k : A -> py B) : py B :=
  match m with
  | inl e => inl e
  | inr a => k a
  end.

(** The values [json.load], [yaml.safe_load] and the capability decorators
    hand to the validators.  A [VDict] keeps its items in insertion order. *)
#[local] Unset Elimination Schemes.
Inductive pyval : Type :=
| VNone
| VBool (b : bool)
| VInt (n : Z)
| VStr (s : string)
| VList (l : list pyval)
| VDict (d : list (pyval * pyval)).
#[local] Set Elimination Schemes.

(** A dictionary with [str] keys, items in insertion order. *)
Definition dict : Type := list (string * pyval).

(** [d.get(k)] on a [str]-keyed dictionary. *)
Fixpoint dict_get (k : string) (d : dict) : option pyval :=
  match d with
  | [] => None
  | (k', v) :: d' => if String.eqb k k' then Some v else dict_get k d'
  end.

(** Equality of two dictionary keys.  Python compares [bool] and [int] keys
    by value ([True == 1]); keys of different kinds are otherwise distinct. *)
Definition key_eqb (a b : pyval) : bool :=
  match a, b with
  | VNone, VNone => true
  | VBool x, VBool y => Bool.eqb x y
  | VInt x, VInt y => Z.eqb x y
  | VBool x, VInt y | VInt y, VBool x => Z.eqb (Z.b2z x) y
  | VStr x, VStr y => String.eqb x y
  | _, _ => false
  end.

(** Lists and dictionaries cannot be hashed, so they are no keys. *)
Definition hashable (v : pyval) : bool :=
  match v with
  | VList _ | VDict _ => false
  | _ => true
  end.

(** The value stored under [k] in the items of a [VDict]. *)
Fixpoint items_get (k : pyval) (d : list (pyval * pyval)) : option pyval :=
  match d with
  | [] => None
  | (k', v) :: d' => if key_eqb k k' then Some v else items_get k d'
  end.

(** [type(v)] as an f-string prints it. *)
Definition type_repr (v : pyval) : string :=
  match v with
  | VNone => "<class 'NoneType'>"
  | VBool _ => "<class 'bool'>"
  | VInt _ => "<class 'int'>"
  | VStr _ => "<class 'str'>"
  | VList _ => "<class 'list'>"
  | VDict _ => "<class 'dict'>"
  end.

(** [isinstance(v, str)] and [isinstance(v, bool)] *)
Definition is_str (v : pyval) : bool :=
  match v with VStr _ => true | _ => false end.
Definition is_bool (v : pyval) : bool :=
  match v with VBool _ => true | _ => false end.

(** The one-character strings of [s], as iterating a [str] yields them. *)
Fixpoint chars (s : string) : list pyval :=
  match s with
  | EmptyString => []
  | String c s' => VStr (String c EmptyString) :: chars s'
  end.

(** [l[i]] on a sequence, negative indices counting from its end. *)
Definition index {A} (l : list A) (i : Z) : py A :=
  let n := Z.of_nat (List.length l) in
  let j := if (i <? 0)%Z then (n + i)%Z else i in
  if ((j <? 0) || (n <=? j))%Z then raise IndexError
  else
    match nth_error l (Z.to_nat j) with
    | Some x => ret x
    | None => raise IndexError
    end.

(** [v[k]]: a missing key of a dictionary is a [KeyError]; lists and strings
    take integer indices only; the other values are not subscriptable. *)
Definition getitem (v k : pyval) : py pyval :=
  match v with
  | VDict d =>
      if hashable k then
        match items_get k d with
        | Some x => ret x
        | None => raise KeyError
        end
      else raise TypeError
  | VList l =>
      match k with
      | VInt i => index l i
      | VBool b => index l (Z.b2z b)
      | _ => raise TypeError
      end
  | VStr s =>
      match k with
      | VInt i => index (chars s) i
      | VBool b => index (chars s) (Z.b2z b)
      | _ => raise TypeError
      end
  | _ => raise TypeError
  end.

(** [v.get(k)] for a [str] key: only dictionaries have the method. *)
Definition get_method (v : pyval) (k : string) : py (option pyval) :=
  match v with
  | VDict d => ret (items_get (VStr k) d)
  | _ => raise AttributeError
  end.

(** [v.items()], here its values in order. *)
Definition values (v : pyval) : py (list pyval) :=
  match v with
  | VDict d => ret (map snd d)
  | _ => raise AttributeError
  end.

(** [sub in s] on strings. *)
Definition substring_of (sub s : string) : bool :=
  match String.index 0%nat sub s with
  | Some _ => true
  | None => false
  end.

(** [k in v] for a [str] [k]: a key of a dictionary, an element of a list, a
    substring of a string. *)
Definition contains (v : pyval) (k : string) : py bool :=
  match v with
  | VDict d => ret (match items_get (VStr k) d with Some _ => true | None => false end)
  | VList l => ret (existsb (key_eqb (VStr k)) l)
  | VStr s => ret (substring_of k s)
  | _ => raise TypeError
  end.

(** [for x in v]: the elements of a list, the keys of a dictionary, the
    characters of a string; the other values are not iterable. *)
Definition iter (v : pyval) : py (list pyval) :=
  match v with
  | VList l => ret l
  | VDict d => ret (map fst d)
  | VStr s => ret (chars s)
  | _ => raise TypeError
  end.

(** [sep.join(l)] *)
Definition join (sep : string) (l : list string) : string :=
  String.concat sep l.

(** [s.startswith(p)] *)
Definition startswith (p s : string) : bool := String.prefix p s.

(** The ASCII characters [str.strip()] removes. *)
Definition is_space (c : ascii) : bool :=
  let n := nat_of_ascii c in
  (((9 <=? n) && (n <=? 13)) || ((28 <=? n) && (n <=? 32)))%nat.

Fixpoint lstrip (s : string) : string :=
  match s with
  | String c s' => if is_space c then lstrip s' else s
  | EmptyString => EmptyString
  end.

(** [rstrip], right to left: a character goes when it is a space and all
    that follows it went. *)
Fixpoint rstrip (s : string) : string :=
  match s with
  | String c s' =>
      match rstrip s' with
      | EmptyString => if is_space c then EmptyString else String c EmptyString
      | t => String c t
      end
  | EmptyString => EmptyString
  end.

Definition strip (s : string) : string := rstrip (lstrip s).

(** [s.split(sep)[-1]] for a one-character separator: what follows the
    last separator, the whole string when it has none. *)
Fixpoint last_segment (sep : ascii) (s : string) : string :=
  match s with
  | EmptyString => EmptyString
  | String c s' =>
      if Ascii.eqb c sep then last_segment sep s'
      else
        match String.index 0%nat (String sep EmptyString) s' with
        | Some _ => last_segment sep s'
        | None => s
        end
  end.

(** [a == b].  Two dictionaries are equal when they hold the same keys with
    equal values, in whatever order. *)
Fixpoint py_eqb (a b : pyval) : bool :=
  match a, b with
  | VList l1, VList l2 =>
      (fix all2 (l1 l2 : list pyval) : bool :=
         match l1, l2 with
         | [], [] => true
         | x :: l1', y :: l2' => py_eqb x y && all2 l1' l2'
         | _, _ => false
         end) l1 l2
  | VDict d1, VDict d2 =>
      (List.length d1 =? List.length d2)%nat
      && forallb (fun kv =>
                    match items_get (fst kv) d2 with
                    | Some v' => py_eqb (snd kv) v'
                    | None => false
                    end) d1
  | _, _ => key_eqb a b
  end.

(** A [str]-keyed dictionary as a value. *)
Definition of_dict (d : dict) : pyval :=
  VDict (map (fun kv => (VStr (fst kv), snd kv)) d).

(** *** [os.path] on POSIX paths *)

Definition sep : ascii := "/"%char.

Definition has_sep (s : string) : bool :=
  substring_of (String sep EmptyString) s.

(** [p[:p.rfind('/') + 1]] *)
Fixpoint head_of_path (p : string) : string :=
  match p with
  | EmptyString => EmptyString
  | String c p' =>
      if Ascii.eqb c sep || has_sep p' then String c (head_of_path p')
      else EmptyString
  end.

Fixpoint all_sep (s : string) : bool :=
  match s with
  | EmptyString => true
  | String c s' => Ascii.eqb c sep && all_sep s'
  end.

(** [s.rstrip('/')] *)
Fixpoint rstrip_sep (s : string) : string :=
  match s with
  | EmptyString => EmptyString
  | String c s' =>
      match rstrip_sep s' with
      | EmptyString => if Ascii.eqb c sep then EmptyString else String c EmptyString
      | t => String c t
      end
  end.

(** [os.path.dirname(p)] *)
Definition dirname (p : string) : string :=
  let head := head_of_path p in
  if negb (String.eqb head EmptyString) && negb (all_sep head)
  then rstrip_sep head
  else head.

Fixpoint endswith_sep (s : string) : bool :=
  match s with
  | EmptyString => false
  | String c EmptyString => Ascii.eqb c sep
  | String _ s' => endswith_sep s'
  end.

(** One step of [os.path.join]: an absolute component restarts the path. *)
Definition join_step (path b : string) : string :=
  if startswith (String sep EmptyString) b then b
  else if String.eqb path EmptyString || endswith_sep path then path +:+ b
  else path +:+ String sep EmptyString +:+ b.

(** [os.path.join(a, *p)] *)
Definition path_join (a : string) (p : list string) : string :=
  fold_left join_step p a.

End Py.

(** ** Regular expressions: the fragment of Python's [re] the validators use *)

Module Re.

(** A compiled pattern.  A character class is a list of inclusive ranges (a
    single character [c] is the range [c-c]). *)
Inductive regex : Type :=
| Eps
| Bol
| Eol
| Class (ranges : list (ascii * ascii))
| Seq (r1 r2 : regex)
| Star (r : regex)
| Plus (r : regex).

Definition in_range (c : ascii) (range : ascii * ascii) : bool :=
  ((nat_of_ascii (fst range) <=? nat_of_ascii c)
   && (nat_of_ascii c <=? nat_of_ascii (snd range)))%nat.

Definition in_class (c : ascii) (ranges : list (ascii * ascii)) : bool :=
  existsb (in_range c) ranges.

Definition newline : ascii := ascii_of_nat 10.

(** Where [$] matches without the MULTILINE flag: at the end of the string
    and just before a newline that ends the string. *)
Definition at_end (s : string) : bool :=
  match s with
  | EmptyString => true
  | String c EmptyString => Ascii.eqb c newline
  | _ => false
  end.

(** The iterations of [r*]: leave the loop, or run the body once more.  An
    iteration that consumes nothing is not repeated. *)
Fixpoint star_loop (body : bool -> string -> (bool -> string -> bool) -> bool)
    (fuel : nat) (bol : bool) (s : string) (k : bool -> string -> bool) : bool :=
  k bol s
  || match fuel with
     | O => false
     | S fuel' =>
         body bol s (fun bol' s' =>
           (String.length s' <? String.length s)%nat
           && star_loop body fuel' bol' s' k)
     end.

(** The backtracking matcher: [run r bol s k] tries every way in which [r]
    matches at the head of [s] and hands what remains to the continuation
    [k]; [bol] tells whether [s] is still the whole subject string. *)
Fixpoint run (r : regex) (bol : bool) (s : string)
    (k : bool -> string -> bool) : bool :=
  match r with
  | Eps => k bol s
  | Bol => bol && k bol s
  | Eol => at_end s && k bol s
  | Class ranges =>
      match s with
      | String c s' => in_class c ranges && k false s'
      | EmptyString => false
      end
  | Seq r1 r2 => run r1 bol s (fun bol' s' => run r2 bol' s' k)
  | Star r1 => star_loop (run r1) (String.length s) bol s k
  | Plus r1 =>
      run r1 bol s (fun bol' s' =>
        star_loop (run r1) (String.length s') bol' s' k)
  end.

(** [re.match(r, s)] is not [None]: the pattern matches at the start of [s]
    (it need not reach its end). *)
Definition re_match (r : regex) (s : string) : bool :=
  run r true s (fun _ _ => true).

(** *** Compiling a pattern string *)

Definition is_alnum (c : ascii) : bool :=
  in_class c [("0", "9"); ("A", "Z"); ("a", "z")]%char.

(** The inside of a bracket expression, up to its closing bracket: ranges,
    single characters and escaped punctuation. *)
Fixpoint parse_class (s : string) (acc : list (ascii * ascii))
    : option (list (ascii * ascii) * string) :=
  match s with
  | EmptyString => None
  | String c rest =>
      if Ascii.eqb c "]" then Some (acc, rest)
      else if Ascii.eqb c "\" then
        match rest with
        | String e rest' =>
            if is_alnum e then None else parse_class rest' (acc ++ [(e, e)])
        | EmptyString => None
        end
      else
        match rest with
        | String d (String hi rest') =>
            if Ascii.eqb d "-" && negb (Ascii.eqb hi "]") then
              if Ascii.eqb hi "\" then None
              else parse_class rest' (acc ++ [(c, hi)])
            else parse_class rest (acc ++ [(c, c)])
        | _ => parse_class rest (acc ++ [(c, c)])
        end
  end.

Definition mk_seq (r1 r2 : regex) : regex :=
  match r2 with
  | Eps => r1
  | _ => Seq r1 r2
  end.

(** A quantifier after an atom: [*] and [+]; the other quantifiers are
    outside the fragment. *)
Definition parse_postfix (atom : regex) (s : string) : option (regex * string) :=
  match s with
  | String c rest =>
      if Ascii.eqb c "*" then Some (Star atom, rest)
      else if Ascii.eqb c "+" then Some (Plus atom, rest)
      else if Ascii.eqb c "?" || Ascii.eqb c "{" then None
      else Some (atom, s)
  | EmptyString => Some (atom, s)
  end.

Definition quantified (atom : regex) (s : string) : option (regex * string) :=
  match parse_postfix atom s with
  | Some (q, rest) =>
      match rest with
      | String c _ =>
          if Ascii.eqb c "*" || Ascii.eqb c "+" || Ascii.eqb c "?" then None
          else Some (q, rest)
      | EmptyString => Some (q, rest)
      end
  | None => None
  end.

(** A sequence of quantified atoms, up to the end of the pattern or to the
    parenthesis that closes the enclosing group. *)
Fixpoint parse_seq (fuel : nat) (s : string) : option (regex * string) :=
  match fuel with
  | O => None
  | S fuel' =>
      match s with
      | EmptyString => Some (Eps, s)
      | String c rest =>
          if Ascii.eqb c ")" then Some (Eps, s)
          else
            let atom :=
              if Ascii.eqb c "^" then Some (Bol, rest)
              else if Ascii.eqb c "$" then Some (Eol, rest)
              else if Ascii.eqb c "[" then
                match rest with
                | String n _ =>
                    if Ascii.eqb n "^" then None
                    else
                      match parse_class rest [] with
                      | Some (ranges, rest') => Some (Class ranges, rest')
                      | None => None
                      end
                | EmptyString => None
                end
              else if Ascii.eqb c "(" then
                match rest with
                | String q (String n rest') =>
                    if Ascii.eqb q "?" && Ascii.eqb n ":" then
                      match parse_seq fuel' rest' with
                      | Some (r, String p rest'') =>
                          if Ascii.eqb p ")" then Some (r, rest'') else None
                      | _ => None
                      end
                    else None
                | _ => None
                end
              else if Ascii.eqb c "\" then
                match rest with
                | String e rest' =>
                    if is_alnum e then None else Some (Class [(e, e)], rest')
                | EmptyString => None
                end
              else if Ascii.eqb c "*" || Ascii.eqb c "+" || Ascii.eqb c "?"
                      || Ascii.eqb c "{" || Ascii.eqb c "|" || Ascii.eqb c "." then None
              else Some (Class [(c, c)], rest)
            in
            match atom with
            | Some (a, rest1) =>
                match quantified a rest1 with
                | Some (q, rest2) =>
                    match parse_seq fuel' rest2 with
                    | Some (r, rest3) => Some (mk_seq q r, rest3)
                    | None => None
                    end
                | None => None
                end
            | None => None
            end
      end
  end.

(** [re.compile(pattern)] on the fragment; [None] for a pattern outside it. *)
Definition compile (pattern : string) : option regex :=
  match parse_seq (S (String.length pattern)) pattern with
  | Some (r, EmptyString) => Some r
  | _ => None
  end.

(** *** The language of a pattern

    [matches r bol s bol' s']: the pattern [r] matches a prefix of [s] and
    leaves [s'], [bol] and [bol'] telling whether the position before and
    after the match is the start of the subject string. *)
Inductive matches : regex -> bool -> string -> bool -> string -> Prop :=
| M_Eps bol s :
    matches Eps bol s bol s
| M_Bol s :
    matches Bol true s true s
| M_Eol bol s :
    at_end s = true ->
    matches Eol bol s bol s
| M_Class ranges c bol s :
    in_class c ranges = true ->
    matches (Class ranges) bol (String c s) false s
| M_Seq r1 r2 bol s bol1 s1 bol2 s2 :
    matches r1 bol s bol1 s1 ->
    matches r2 bol1 s1 bol2 s2 ->
    matches (Seq r1 r2) bol s bol2 s2
| M_Star_done r bol s :
    matches (Star r) bol s bol s
| M_Star_more r bol s bol1 s1 bol2 s2 :
    matches r bol s bol1 s1 ->
    matches (Star r) bol1 s1 bol2 s2 ->
    matches (Star r) bol s bol2 s2
| M_Plus r bol s bol1 s1 bol2 s2 :
    matches r bol s bol1 s1 ->
    matches (Star r) bol1 s1 bol2 s2 ->
    matches (Plus r) bol s bol2 s2.

(** The subject strings on which [re.match] finds a match. *)
Definition language (r : regex) (s : string) : Prop :=
  exists bol' s', matches r true s bol' s'.

(** Every character of [w] is in the class. *)
Fixpoint all_in (ranges : list (ascii * ascii)) (w : string) : bool :=
  match w with
  | EmptyString => true
  | String c w' => in_class c ranges && all_in ranges w'
  end.

(** What the matcher is proved to be: it finds a match whenever the pattern
    has one ([complete_at]), and only then ([sound_at]). *)
Definition sound_at (r : regex) : Prop :=
  forall bol s k, run r bol s k = true ->
    exists bol' s', matches r bol s bol' s' /\ k bol' s' = true.

Definition complete_at (r : regex) : Prop :=
  forall bol s bol' s' k, matches r bol s bol' s' -> k bol' s' = true ->
    run r bol s k = true.

End Re.

(** ** The validators of [connect/eaas/core/validations.py] *)

Module Validations.
Import Py.

#[export] Instance py_ret : MRet py := @ret.
#[export] Instance py_bind : MBind py := fun A B k m => bind m k.

(** *** Findings and results ([connect.eaas.core.proto]) *)

Inductive level : Type := ERROR | WARNING.

(** Where a finding points: the file, and the lines when the code-context
    locator resolves them. *)
Record location : Type := Location {
  file : option string;
  start_line : option Z;
  lineno : option Z;
}.

(** A finding created with the file as its third positional argument. *)
Definition in_file (f : string) : location := Location (Some f) None None.

Record ValidationItem : Type := Item {
  item_level : level;
  message : string;
  item_location : location;
}.

(** *** What the validators read off a loaded extension class *)

Inductive base_class : Type :=
| Extension
| EventsExtension
| WebAppExtension
| AnvilExtension.

(** A member of a class as [inspect] shows it: a plain function with the
    names of its parameters and its source text, or anything else. *)
Inductive member : Type :=
| Function (parameters : list string) (source : string)
| Attribute.

Module Event.
(** An entry of [get_events()]; [statuses] is [None] when the decorator was
    given none. *)
Record t : Type := Make {
  method : string;
  event_type : string;
  statuses : option (list string);
}.
End Event.

Module Schedulable.
(** An entry of [get_schedulables()]. *)
Record t : Type := Make {
  method : string;
  name : string;
  description : string;
}.
End Schedulable.

Record ext_class : Type := ExtensionClass {
  class_name : string;                      (* [cls.__name__] *)
  getsourcefile : string;                   (* [inspect.getsourcefile(cls)] *)
  getsource : string;                       (* [inspect.getsource(cls)] *)
  issubclass : base_class -> bool;          (* [issubclass(cls, B)] *)
  getmembers : list (string * member);      (* [inspect.getmembers(cls)] *)
  get_events : list Event.t;
  get_schedulables : list Schedulable.t;
  get_variables : list dict;
  get_anvil_key_variable : option string;
  get_descriptor : option pyval;            (* [None]: FileNotFoundError *)
}.

(** [getattr(cls, name)] *)
Definition getattr (cls : ext_class) (name : string) : py member :=
  match List.find (fun m => String.eqb name (fst m)) (getmembers cls) with
  | Some m => mret (snd m)
  | None => raise AttributeError
  end.

(** The parameter names of [inspect.signature(m)]. *)
Definition signature (m : member) : py (list string) :=
  match m with
  | Function parameters _ => mret parameters
  | Attribute => raise TypeError
  end.

(** A record of the event schema: an event type and the statuses of its
    object, [None] or empty when it has none. *)
Record event_definition : Type := EventDefinition {
  type : string;
  object_statuses : option (list string);
}.

(** What [get_code_context] is asked about: a class or one of its members. *)
Inductive code_object : Type :=
| OfClass (cls : ext_class)
| OfMember (cls : ext_class) (name : string).

(** The collaborators the validators call and this file does not define:
    the loader of the event schema, the code-context locator, the text
    Python prints for a value that is not a string, and the order in which
    Python goes through a set.  The language leaves that order open:
    [set_order members excluded] lists [set(members) - set(excluded)]
    ([set(members)] when nothing is excluded) as a [for] or a [join] goes
    through it, and all that is known of it is that it has each element of
    the set once. *)
Class Externals : Type := {
  config : Type;
  get_event_definitions : config -> list event_definition;
  get_code_context : code_object -> string -> location;
  repr : pyval -> string;
  set_order : list string -> list string -> list string;
  set_order_NoDup : forall members excluded, NoDup (set_order members excluded);
  set_order_elem_of : forall members excluded status,
    status ∈ set_order members excluded <-> status ∈ members /\ status ∉ excluded;
}.

(** The files a run looks at. *)
Record filesystem : Type := Filesystem {
  isfile : string -> bool;                  (* [os.path.isfile] *)
  path_exists : string -> bool;             (* [os.path.exists] *)
  safe_load : string -> option pyval;       (* [yaml.safe_load(open(path))];
                                               [None]: yaml.YAMLError *)
}.

(** The shared context: a dictionary with these keys, each present or not. *)
Record context : Type := Context {
  extension_classes : option (list (string * ext_class));
  descriptor : option pyval;
  runner_version : option string;
}.

Record ValidationResult : Type := Result {
  messages : list ValidationItem;
  must_halt : bool;
  context_patch : option context;
}.

(** The finding of [validate_anvil_extension]: where the other validators
    give [ValidationItem] a file name as its third positional argument, this
    one gives it the class object. *)
Record AnvilItem : Type := AnvilValidationItem {
  anvil_item_level : level;
  anvil_item_message : string;
  anvil_item_file : ext_class;
}.

Record AnvilResult : Type := AnvilValidationResult {
  anvil_messages : list AnvilItem;
  anvil_must_halt : bool;
  anvil_context : option context;
}.

(** [context[key]]: a missing key is a [KeyError]. *)
Definition lookup_key {A} (field : option A) : py A :=
  match field with
  | Some a => mret a
  | None => raise KeyError
  end.

(** [classes.get(extension_type)] *)
Definition classes_get (extension_type : string)
    (classes : list (string * ext_class)) : option ext_class :=
  match List.find (fun c => String.eqb extension_type (fst c)) classes with
  | Some c => Some (snd c)
  | None => None
  end.

Section Validators.
Context `{Externals}.

(** What an f-string prints for a value. *)
Definition str (v : pyval) : string :=
  match v with
  | VStr s => s
  | VNone => "None"
  | VBool true => "True"
  | VBool false => "False"
  | _ => repr v
  end.

Definition str_opt (v : option pyval) : string :=
  match v with
  | Some x => str x
  | None => "None"
  end.

(** *** [validate_extension_class] (validations.py, lines 143-203) *)

Definition class_mapping (extension_type : string) : string :=
  if String.eqb extension_type "extension" then "connect.eaas.core.extension.[Events]Extension"
  else if String.eqb extension_type "webapp" then "connect.eaas.core.extension.WebAppExtension"
  else "connect.eaas.core.extension.AnvilExtension".

(** The test of the loop of [validate_extension_class]: the class is not a
    subclass of the base its extension type asks for. *)
Definition wrong_base (extension_type : string) (extension_class : ext_class) : bool :=
  (String.eqb extension_type "extension"
   && negb (issubclass extension_class Extension || issubclass extension_class EventsExtension))
  || (String.eqb extension_type "webapp" && negb (issubclass extension_class WebAppExtension))
  || (String.eqb extension_type "anvil" && negb (issubclass extension_class AnvilExtension)).

(** [not extension_json_file] *)
Definition unset (extension_json_file : option string) : bool :=
  match extension_json_file with
  | None => true
  | Some f => String.eqb f EmptyString
  end.

(** The loop over [context['extension_classes'].items()].  Its state is the
    pair ([ext_class], [extension_json_file]); it leaves with the halting
    finding of the first class of a wrong base, or with its final state. *)
Fixpoint class_loop (classes : list (string * ext_class))
    (ext_class_ : option ext_class) (extension_json_file : option string)
    : ValidationItem + (option ext_class * option string) :=
  match classes with
  | [] => inr (ext_class_, extension_json_file)
  | (extension_type, extension_class) :: rest =>
      let extension_class_file := getsourcefile extension_class in
      if wrong_base extension_type extension_class then
        inl (Item ERROR
               ("The extension class *" +:+ class_name extension_class
                +:+ "* is not a subclass of *" +:+ class_mapping extension_type +:+ "*.")
               (in_file extension_class_file))
      else if unset extension_json_file then
        class_loop rest (Some extension_class)
          (Some (path_join (dirname extension_class_file) ["extension.json"]))
      else class_loop rest ext_class_ extension_json_file
  end.

Definition decorator_of (description : string) : string :=
  if String.eqb description "schedulables" then "event" else description.

(** The loop over the three keys a descriptor should not carry. *)
Fixpoint descriptor_loop (descriptions : list string) (descriptor_ : pyval)
    (extension_json_file : option string) (messages_ : list ValidationItem)
    : py (list ValidationItem) :=
  match descriptions with
  | [] => mret messages_
  | description :: rest =>
      present ← contains descriptor_ description;
      descriptor_loop rest descriptor_ extension_json_file
        (if present : bool then
           messages_ ++
           [Item WARNING
              ("Extension " +:+ description +:+ " must be declared using the "
               +:+ "*connect.eaas.core.decorators." +:+ decorator_of description
               +:+ "* decorator.")
              (Location extension_json_file None None)]
         else messages_)
  end.

Definition validate_extension_class (ctx : context) : py ValidationResult :=
  classes ← lookup_key (extension_classes ctx);
  match class_loop classes None None with
  | inl item => mret (Result [item] true None)
  | inr (ext_class_, extension_json_file) =>
      match ext_class_ with
      | None => raise AttributeError
      | Some cls =>
          match get_descriptor cls with
          | None =>
              mret (Result
                      [Item ERROR "The extension descriptor *extension.json* cannot be loaded."
                         (Location extension_json_file None None)]
                      true None)
          | Some descriptor_ =>
              messages_ ← descriptor_loop ["variables"; "capabilities"; "schedulables"]
                            descriptor_ extension_json_file [];
              mret (Result messages_ false
                      (Some (Context None (Some descriptor_) None)))
          end
      end
  end.

(** *** [validate_events] (lines 206-257) *)

(** [{definition['type']: definition for definition in ...}]: a later
    record of a type replaces an earlier one. *)
Definition definitions_of (l : list event_definition) : gmap string event_definition :=
  foldl (fun m definition => <[type definition := definition]> m) ∅ l.

(** [name(p1, p2, ...)] *)
Definition sig_str (name : string) (parameters : list string) : string :=
  name +:+ "(" +:+ join ", " parameters +:+ ")".

(** The statuses of an event entry that its event type does not allow: a
    set, given here as the list of its elements in the order Python goes
    through it.  The first branch builds [set(event['statuses'])], which
    raises on [None]; the second guards with [or []]. *)
Definition invalid_statuses_of (allowed : option (list string))
    (declared : option (list string)) : py (list string) :=
  match allowed with
  | Some (s :: l) =>
      match declared with
      | Some d => mret (set_order d (s :: l))
      | None => raise TypeError
      end
  | _ => mret (set_order (default [] declared) [])
  end.

(** The body of the loop over [get_events()]. *)
Definition event_step (extension_class : ext_class)
    (definitions : gmap string event_definition)
    (messages_ : list ValidationItem) (event : Event.t)
    : py (list ValidationItem) :=
  method ← getattr extension_class (Event.method event);
  let here := get_code_context (OfMember extension_class (Event.method event)) in
  match definitions !! Event.event_type event with
  | None =>
      mret (messages_ ++
            [Item ERROR ("The event type *" +:+ Event.event_type event +:+ "* is not valid.")
               (here "@event")])
  | Some definition =>
      invalid_statuses ← invalid_statuses_of (object_statuses definition)
                           (Event.statuses event);
      let messages1 :=
        match invalid_statuses with
        | [] => messages_
        | _ :: _ =>
            messages_ ++
            [Item ERROR
               ("The status/es *" +:+ join ", " invalid_statuses
                +:+ "* are invalid for the event *" +:+ Event.event_type event +:+ "*.")
               (here "@event")]
        end in
      parameters ← signature method;
      if (List.length parameters =? 2)%nat then mret messages1
      else
        let sig := sig_str (Event.method event) parameters in
        mret (messages1 ++
              [Item ERROR
                 ("The handler for the event *" +:+ Event.event_type event
                  +:+ "* has an invalid signature: *" +:+ sig +:+ "*")
                 (here sig)])
  end.

Fixpoint events_loop (extension_class : ext_class)
    (definitions : gmap string event_definition)
    (events : list Event.t) (messages_ : list ValidationItem)
    : py (list ValidationItem) :=
  match events with
  | [] => mret messages_
  | event :: rest =>
      messages' ← event_step extension_class definitions messages_ event;
      events_loop extension_class definitions rest messages'
  end.

Definition validate_events (cfg : config) (ctx : context) : py ValidationResult :=
  classes ← lookup_key (extension_classes ctx);
  match classes_get "extension" classes with
  | None => mret (Result [] false (Some ctx))
  | Some extension_class =>
      let definitions := definitions_of (get_event_definitions cfg) in
      messages_ ← events_loop extension_class definitions (get_events extension_class) [];
      mret (Result messages_ false (Some ctx))
  end.

(** *** [validate_schedulables] (lines 260-285) *)

Definition schedulable_step (extension_class : ext_class)
    (messages_ : list ValidationItem) (schedulable : Schedulable.t)
    : py (list ValidationItem) :=
  method ← getattr extension_class (Schedulable.method schedulable);
  parameters ← signature method;
  if (List.length parameters =? 2)%nat then mret messages_
  else
    let sig := sig_str (Schedulable.method schedulable) parameters in
    mret (messages_ ++
          [Item ERROR
             ("The schedulable method *" +:+ Schedulable.method schedulable
              +:+ "* has an invalid signature: *" +:+ sig +:+ "*")
             (get_code_context
                (OfMember extension_class (Schedulable.method schedulable)) sig)]).

Fixpoint schedulables_loop (extension_class : ext_class)
    (schedulables : list Schedulable.t) (messages_ : list ValidationItem)
    : py (list ValidationItem) :=
  match schedulables with
  | [] => mret messages_
  | schedulable :: rest =>
      messages' ← schedulable_step extension_class messages_ schedulable;
      schedulables_loop extension_class rest messages'
  end.

Definition validate_schedulables (ctx : context) : py ValidationResult :=
  classes ← lookup_key (extension_classes ctx);
  match classes_get "extension" classes with
  | None => mret (Result [] false (Some ctx))
  | Some extension_class =>
      messages_ ← schedulables_loop extension_class (get_schedulables extension_class) [];
      mret (Result messages_ false (Some ctx))
  end.

(** *** [validate_variables] (lines 288-352) *)

Definition variable_name_pattern : string := "^[A-Za-z](?:[A-Za-z0-9_\-.]+)*$".

(** [re.compile(variable_name_pattern)] *)
Definition variable_name_regex : Re.regex :=
  default Re.Eps (Re.compile variable_name_pattern).

(** The pattern as the spec writes it, for comparison with the one the
    validator compiles. *)
Definition spec_name_pattern : string := "^[A-Za-z][A-Za-z0-9_\-.]*$".
Definition spec_name_regex : Re.regex :=
  default Re.Eps (Re.compile spec_name_pattern).

(** The two character classes of the pattern. *)
Definition letters : list (ascii * ascii) := [("A", "Z"); ("a", "z")]%char.
Definition name_chars : list (ascii * ascii) :=
  [("A", "Z"); ("a", "z"); ("0", "9"); ("_", "_"); ("-", "-"); (".", ".")]%char.

(** The names the pattern describes: a letter, then letters, digits,
    underscores, hyphens and dots; [$] also lets one newline end the name. *)
Definition valid_name (s : string) : Prop :=
  exists c w,
    Re.in_class c letters = true /\ Re.all_in name_chars w = true
    /\ (s = String c w \/ s = String c (w +:+ String Re.newline EmptyString)).

Definition mandatory_name_message : string :=
  "Invalid variable declaration: the *name* attribute is mandatory.".

Definition duplicate_name_message (name : string) : string :=
  "Duplicate variable name: the variable with name *" +:+ name
  +:+ "* has already been declared.".

Definition invalid_name_message (name : string) : string :=
  "Invalid variable name: the value *" +:+ name
  +:+ "* does not match the pattern *" +:+ variable_name_pattern +:+ "*.".

Definition invalid_initial_value_message (name : string) (v : pyval) : string :=
  "Invalid *initial_value* attribute for variable *" +:+ name
  +:+ "*: must be a non-null string not *" +:+ type_repr v +:+ "*.".

Definition invalid_secure_message (name : string) (v : pyval) : string :=
  "Invalid *secure* attribute for variable *" +:+ name
  +:+ "*: must be a boolean not *" +:+ type_repr v +:+ "*.".

(** [messages.append(ValidationItem('ERROR', text, **get_code_context(cls, '@variables')))]
    when [test] holds. *)
Definition append_if (test : bool) (extension_class : ext_class) (text : string)
    (messages_ : list ValidationItem) : list ValidationItem :=
  if test then
    messages_ ++ [Item ERROR text (get_code_context (OfClass extension_class) "@variables")]
  else messages_.

(** The body of the loop over [get_variables()]; its state is the list
    [names] and the messages.  [regex.match] raises on a name that is not a
    string. *)
Definition variable_step (extension_class : ext_class)
    (state : list string * list ValidationItem) (variable : dict)
    : py (list string * list ValidationItem) :=
  let (names, messages_) := state in
  match dict_get "name" variable with
  | None =>
      mret (names, append_if true extension_class mandatory_name_message messages_)
  | Some (VStr name) =>
      let messages1 :=
        append_if (existsb (String.eqb name) names) extension_class
          (duplicate_name_message name) messages_ in
      let names' := names ++ [name] in
      let messages2 :=
        append_if (negb (Re.re_match variable_name_regex name)) extension_class
          (invalid_name_message name) messages1 in
      let messages3 :=
        match dict_get "initial_value" variable with
        | Some v =>
            append_if (negb (is_str v)) extension_class
              (invalid_initial_value_message name v) messages2
        | None => messages2
        end in
      let messages4 :=
        match dict_get "secure" variable with
        | Some v =>
            append_if (negb (is_bool v)) extension_class
              (invalid_secure_message name v) messages3
        | None => messages3
        end in
      mret (names', messages4)
  | Some _ => raise TypeError
  end.

Fixpoint variables_loop (extension_class : ext_class) (variables : list dict)
    (state : list string * list ValidationItem)
    : py (list string * list ValidationItem) :=
  match variables with
  | [] => mret state
  | variable :: rest =>
      state' ← variable_step extension_class state variable;
      variables_loop extension_class rest state'
  end.

(** The loop over the loaded classes: [names] starts empty for each. *)
Fixpoint variables_of_classes (classes : list (string * ext_class))
    (messages_ : list ValidationItem) : py (list ValidationItem) :=
  match classes with
  | [] => mret messages_
  | (_, extension_class) :: rest =>
      state ← variables_loop extension_class (get_variables extension_class) ([], messages_);
      variables_of_classes rest (snd state)
  end.

Definition validate_variables (ctx : context) : py ValidationResult :=
  classes ← lookup_key (extension_classes ctx);
  messages_ ← variables_of_classes classes [];
  mret (Result messages_ false (Some ctx)).

(** *** [validate_webapp_extension] (lines 355-440) *)

Definition dquote : string := String (ascii_of_nat 34) EmptyString.

Definition is_router_function (m : string * member) : bool :=
  match snd m with
  | Function _ source => startswith "@router." (strip source)
  | Attribute => false
  end.

(** What the loop over the [ui] items does with one item: it stops at an
    item without a [url], or it records the [url] when its static file is
    missing and hands over the children of the item. *)
Inductive ui_outcome : Type :=
| NoUrl (item : ValidationItem)
| Visited (missed : option string) (children : list pyval).

Definition ui_visit (fs : filesystem) (extension_class_file extension_json_file : string)
    (ui_item : pyval) : py ui_outcome :=
  match getitem ui_item (VStr "url") with
  | inl KeyError =>
      label ← get_method ui_item "label";
      mret (NoUrl (Item ERROR
                     ("The extension descriptor contains incorrect ui item"
                      +:+ "*" +:+ str_opt label +:+ "*, url is not presented.")
                     (in_file extension_json_file)))
  | inl e => raise e
  | inr (VStr url) =>
      let path := path_join (dirname extension_class_file)
                    ["static_root"; last_segment sep url] in
      children ← get_method ui_item "children";
      kids ← iter (default (VList []) children);
      mret (Visited (if path_exists fs path then None else Some url) kids)
  | inr _ => raise AttributeError
  end.

(** The measure under which the loop ends: a container weighs its size, and
    anything else is visited once. *)
Fixpoint size (v : pyval) : nat :=
  match v with
  | VList l => S (list_sum (map size l))
  | VDict d => S (list_sum (map (fun kv => size (fst kv) + size (snd kv))%nat d))
  | VStr s => S (String.length s)
  | _ => 1
  end.

Definition cost (v : pyval) : nat :=
  match v with
  | VList _ | VDict _ => size v
  | _ => 1%nat
  end.

Definition stack_cost (l : list pyval) : nat := list_sum (map cost l).

(** [while ui_items:] with the deque as a list whose head is its right end:
    [pop()] takes the head, and appending the children one by one leaves the
    last child on top.  The loop returns the halting finding of an item
    without [url], or the list [missed_files]. *)
Equations? ui_loop (fs : filesystem) (extension_class_file extension_json_file : string)
    (ui_items : list pyval) (missed_files : list string)
    : py (ValidationItem + list string) by wf (stack_cost ui_items) lt :=
  ui_loop fs extension_class_file extension_json_file [] missed_files :=
    mret (inr missed_files);
  ui_loop fs extension_class_file extension_json_file (ui_item :: rest) missed_files
    with inspect (ui_visit fs extension_class_file extension_json_file ui_item) := {
    | exist _ (inl e) _ => raise e
    | exist _ (inr (NoUrl item)) _ => mret (inl item)
    | exist _ (inr (Visited missed children)) visited =>
        ui_loop fs extension_class_file extension_json_file
          (rev children ++ rest) (missed_files ++ option_list missed)
  }.
Proof.
  assert (Hcost : forall v, cost v <= size v) by (intros []; simpl; lia).
  assert (Hsum : forall l, list_sum (map cost l) <= list_sum (map size l)).
  { induction l as [|v l IH]; simpl; [lia | specialize (Hcost v); lia]. }
  assert (Hget : forall k d v, items_get k d = Some v ->
                   size v < S (list_sum (map (fun kv => size (fst kv) + size (snd kv))%nat d))).
  { intros k d v. induction d as [|[k' v'] d IH]; simpl; [discriminate|].
    destruct (key_eqb k k'); [intros [= ->]; lia | intros Hd; specialize (IH Hd); lia]. }
  assert (Hiter : forall c kids, iter c = inr kids -> stack_cost kids < size c).
  { intros [] kids; simpl; try discriminate; intros [= <-]; unfold stack_cost.
    - induction s as [|a s IH]; simpl in *; lia.
    - specialize (Hsum l); lia.
    - induction d as [|[k v] d IH]; simpl in *; [lia|].
      specialize (Hcost k); lia. }
  assert (Hrev : forall l : list nat, list_sum (rev l) = list_sum l).
  { induction l as [|n l IH]; simpl; [reflexivity|]. rewrite list_sum_app; simpl; lia. }
  unfold stack_cost in *. rewrite map_app, list_sum_app, map_rev, Hrev. simpl.
  enough (list_sum (map cost children) < cost ui_item) by lia.
  clear - visited Hget Hiter. unfold ui_visit in visited.
  destruct ui_item as [| | | |l|d]; simpl in visited; try discriminate.
  destruct (items_get (VStr "url") d) as [[]|] eqn:Hurl; simpl in visited; try discriminate.
  destruct (items_get (VStr "children") d) as [c|] eqn:Hc; simpl in visited.
  - destruct (iter c) as [|kids] eqn:Hkids; simpl in visited; [discriminate|].
    injection visited as _ <-. apply Hiter in Hkids. apply Hget in Hc. simpl. lia.
  - injection visited as _ <-. simpl. lia.
Qed.

Definition validate_webapp_extension (fs : filesystem) (ctx : context)
    : py ValidationResult :=
  classes ← lookup_key (extension_classes ctx);
  match classes_get "webapp" classes with
  | None => mret (Result [] false (Some ctx))
  | Some extension_class =>
      let extension_class_file := getsourcefile extension_class in
      if negb (startswith "@web_app(router)" (strip (getsource extension_class))) then
        mret (Result
                [Item ERROR "The Web app extension class must be wrapped in *@web_app(router)*."
                   (in_file extension_class_file)]
                true None)
      else if negb (existsb is_router_function (getmembers extension_class)) then
        mret (Result
                [Item ERROR
                   ("The Web app extension class must contain at least one router "
                    +:+ "implementation function wrapped in *@router.your_method("
                    +:+ dquote +:+ "/your_path" +:+ dquote +:+ ")*.")
                   (in_file extension_class_file)]
                true None)
      else
        descriptor_ ← lookup_key (descriptor ctx);
        has_ui ← contains descriptor_ "ui";
        if has_ui : bool then
          let extension_json_file :=
            path_join (dirname extension_class_file) ["extension.json"] in
          ui ← getitem descriptor_ (VStr "ui");
          ui_values ← values ui;
          outcome ← ui_loop fs extension_class_file extension_json_file (rev ui_values) [];
          match outcome with
          | inl item => mret (Result [item] true None)
          | inr [] => mret (Result [] false (Some ctx))
          | inr missed_files =>
              mret (Result
                      [Item ERROR
                         ("The extension descriptor contains missing static files: "
                          +:+ join ", " missed_files +:+ ".")
                         (in_file extension_json_file)]
                      true None)
          end
        else mret (Result [] false (Some ctx))
  end.

(** *** [validate_docker_compose_yml] (lines 470-512) *)

(** [image != runner_image], [image] being [None] when the service has no
    such key. *)
Definition image_differs (image : option pyval) (runner_image : string) : bool :=
  match image with
  | Some (VStr s) => negb (String.eqb s runner_image)
  | _ => true
  end.

Definition invalid_image_message (service : pyval) (runner_image : string)
    (image : option pyval) : string :=
  "Invalid image for service *" +:+ str service +:+ "*: expected *" +:+ runner_image
  +:+ "* got *" +:+ str_opt image +:+ "*.".

(** The loop [for service in data['services']] over what iterating the
    services yields. *)
Fixpoint services_loop (compose_file runner_image : string) (data : pyval)
    (services : list pyval) (messages_ : list ValidationItem)
    : py (list ValidationItem) :=
  match services with
  | [] => mret messages_
  | service :: rest =>
      declared ← getitem data (VStr "services");
      entry ← getitem declared service;
      image ← get_method entry "image";
      services_loop compose_file runner_image data rest
        (if image_differs image runner_image then
           messages_ ++
           [Item ERROR (invalid_image_message service runner_image image)
              (in_file compose_file)]
         else messages_)
  end.

Definition validate_docker_compose_yml (fs : filesystem) (project_dir : string)
    (ctx : context) : py ValidationResult :=
  let compose_file := path_join project_dir ["docker-compose.yml"] in
  if negb (isfile fs compose_file) then
    mret (Result
            [Item WARNING
               ("The directory *" +:+ project_dir
                +:+ "* does not look like an extension project "
                +:+ "directory, the file *docker-compose.yml* is not present.")
               (in_file compose_file)]
            false None)
  else
    match safe_load fs compose_file with
    | None =>
        mret (Result
                [Item ERROR "The file *docker-compose.yml* is not valid."
                   (in_file compose_file)]
                false None)
    | Some data =>
        version ← lookup_key (runner_version ctx);
        let runner_image := "cloudblueconnect/connect-extension-runner:" +:+ version in
        declared ← getitem data (VStr "services");
        services ← iter declared;
        messages_ ← services_loop compose_file runner_image data services [];
        mret (Result messages_ false None)
    end.

(** *** [validate_anvil_extension] (lines 443-467) *)

Definition invalid_anvil_key_message (anvil_key_var : string) : string :=
  "Invalid Anvil key variable name: the value *" +:+ anvil_key_var
  +:+ "* does not match the pattern *" +:+ variable_name_pattern +:+ "*.".

(** The validator compiles the same pattern text as [validate_variables]
    (line 454 repeats line 295).  [if anvil_key_var:] is false on [None] and
    on the empty string. *)
Definition validate_anvil_extension (ctx : context) : py AnvilResult :=
  classes ← lookup_key (extension_classes ctx);
  match classes_get "anvil" classes with
  | None => mret (AnvilValidationResult [] false (Some ctx))
  | Some extension_class =>
      let messages_ :=
        match get_anvil_key_variable extension_class with
        | Some anvil_key_var =>
            if negb (String.eqb anvil_key_var EmptyString) then
              if negb (Re.re_match variable_name_regex anvil_key_var) then
                [AnvilValidationItem ERROR (invalid_anvil_key_message anvil_key_var)
                   extension_class]
              else []
            else []
        | None => []
        end in
      mret (AnvilValidationResult messages_ false (Some ctx))
  end.

End Validators.

End Validations.

(** ** The project loader: [validate_pyproject_toml] (validations.py, lines 33-140) *)

Module Project.
Import Py Validations.

(** What can leave the validator beside the exceptions of the built-ins: the
    [ValueError] of an unpacking that finds one value where it wants two, and
    whatever the import of a module raises that is no [ImportError]. *)
Inductive error : Type :=
| Builtin (e : exn)
| ValueError
| Uncaught (exception : string).

(** [s.rsplit(sep, 1)] when it splits: what precedes the last separator and
    what follows it.  [None] when [s] holds no separator and the result is
    the one-element list [[s]]. *)
Fixpoint rsplit (sep : ascii) (s : string) : option (string * string) :=
  match s with
  | EmptyString => None
  | String c s' =>
      match rsplit sep s' with
      | Some (before, after) => Some (String c before, after)
      | None => if Ascii.eqb c sep then Some (EmptyString, s') else None
      end
  end.

(** [d[k] = v] on a dictionary in insertion order: a key that is there keeps
    its place. *)
Fixpoint setitem {A} (k : string) (v : A) (d : list (string * A)) : list (string * A) :=
  match d with
  | [] => [(k, v)]
  | (k', v') :: d' =>
      if String.eqb k k' then (k', v) :: d' else (k', v') :: setitem k v d'
  end.

(** The four response classes of [connect.eaas.core.responses] the validator
    looks for, told apart from every other class. *)
Inductive response_class : Type :=
| CustomEventResponse
| ProcessingResponse
| ProductActionResponse
| ValidationResponse.

(** [deprecated_cls.__name__] *)
Definition response_name (r : response_class) : string :=
  match r with
  | CustomEventResponse => "CustomEventResponse"
  | ProcessingResponse => "ProcessingResponse"
  | ProductActionResponse => "ProductActionResponse"
  | ValidationResponse => "ValidationResponse"
  end.

(** A class a module defines or imports: one of the four, or another one. *)
Inductive class_object : Type :=
| Response (r : response_class)
| Other (cls : ext_class).

(** [deprecated_cls == c] *)
Definition is_response (deprecated_cls : response_class) (c : class_object) : bool :=
  match c, deprecated_cls with
  | Response CustomEventResponse, CustomEventResponse
  | Response ProcessingResponse, ProcessingResponse
  | Response ProductActionResponse, ProductActionResponse
  | Response ValidationResponse, ValidationResponse => true
  | _, _ => false
  end.

(** An imported module, as the validator looks at it. *)
Record py_module : Type := PyModule {
  class_members : list (string * class_object);
                                  (* [inspect.getmembers(m, predicate=inspect.isclass)] *)
  attribute : string -> option ext_class;
                                  (* [getattr(m, name)]; [None]: AttributeError *)
}.

(** What [importlib.import_module] does. *)
Inductive import_outcome : Type :=
| Imported (extension_module : py_module)
| ImportError (err : string)              (* [str(err)] *)
| Raises (e : error).

(** The collaborators of the loader: the reader of [pyproject.toml], which
    returns the parsed document or a result of its own; the import system,
    which sees [sys.path]; and the code-context locator on a module. *)
Class Loader : Type := {
  load_project_toml_file : string -> ValidationResult + pyval;
  import_module : list string -> string -> import_outcome;
  get_module_context : py_module -> string -> location;
}.

Section Loading.
Context `{Loader}.

Definition quoted (s : string) : string := dquote +:+ s +:+ dquote.

Definition runner_dependency_message : string :=
  "Extensions must depend on *connect-eaas-core* library not "
  +:+ "*connect-extension-runner*.".

Definition no_dependency_message : string :=
  "No dependency on *connect-eaas-core* has been found.".

Definition no_declaration_message : string :=
  "No extension declaration has been found."
  +:+ "The extension must be declared in the "
  +:+ "*[tool.poetry.plugins." +:+ quoted "connect.eaas.ext" +:+ "]* section.".

Definition cannot_load_message (reference err : string) : string :=
  "The extension class *" +:+ reference +:+ "* cannot be loaded: " +:+ err +:+ ".".

Definition deprecated_message (deprecated_cls : response_class) (cls_name : string)
    : string :=
  "The response class *" +:+ response_name deprecated_cls
  +:+ "* has been deprecated in favor of *" +:+ cls_name +:+ "*.".

Definition invalid_declaration_message : string :=
  "Invalid extension declaration in *[tool.poetry.plugins."
  +:+ quoted "connect.eaas.ext" +:+ "]*: "
  +:+ "The extension must be declared as: *" +:+ quoted "extension" +:+ " = "
  +:+ quoted "your_package.extension:YourExtension" +:+ "* "
  +:+ "for Fulfillment automation or Hub integration. "
  +:+ "For Multi account installation must be "
  +:+ "declared at least one the following: *" +:+ quoted "extension" +:+ " = "
  +:+ quoted "your_package.events:YourEventsExtension" +:+ "*, "
  +:+ "*" +:+ quoted "webapp" +:+ " = "
  +:+ quoted "your_package.webapp:YourWebAppExtension" +:+ "*, "
  +:+ "*" +:+ quoted "anvil" +:+ " = "
  +:+ quoted "your_package.anvil:YourAnvilExtension" +:+ "*.".

(** The check of the dependencies (lines 43-61): the deprecated runner takes
    precedence over the library. *)
Definition dependency_check (descriptor_file : string) (dependencies : pyval)
    (messages_ : list ValidationItem) : py (list ValidationItem) :=
  runner ← contains dependencies "connect-extension-runner";
  if runner : bool then
    mret (messages_ ++ [Item WARNING runner_dependency_message (in_file descriptor_file)])
  else
    core ← contains dependencies "connect-eaas-core";
    if negb core then
      mret (messages_ ++ [Item ERROR no_dependency_message (in_file descriptor_file)])
    else mret messages_.

(** The deprecated classes and what replaces each (lines 102-107). *)
Definition deprecated_classes : list (response_class * string) :=
  [(CustomEventResponse, "InteractiveResponse");
   (ProcessingResponse, "BackgroundResponse");
   (ProductActionResponse, "InteractiveResponse");
   (ValidationResponse, "InteractiveResponse")].

(** The loop over the deprecated classes (lines 102-116). *)
Fixpoint deprecated_loop (extension_module : py_module)
    (defined_classes : list class_object) (pairs : list (response_class * string))
    (messages_ : list ValidationItem) : list ValidationItem :=
  match pairs with
  | [] => messages_
  | (deprecated_cls, cls_name) :: rest =>
      deprecated_loop extension_module defined_classes rest
        (if existsb (is_response deprecated_cls) defined_classes then
           messages_ ++
           [Item WARNING (deprecated_message deprecated_cls cls_name)
              (get_module_context extension_module (response_name deprecated_cls))]
         else messages_)
  end.

(** The loop over the possible extension types (lines 81-118).  It leaves
    with the halting result of an import that fails, or with the messages
    and the dictionary [extensions]. *)
Fixpoint extensions_loop (sys_path : list string) (descriptor_file : string)
    (extension_dict : list (pyval * pyval)) (possible_extensions : list string)
    (messages_ : list ValidationItem) (extensions : list (string * ext_class))
    : error + (ValidationResult + list ValidationItem * list (string * ext_class)) :=
  match possible_extensions with
  | [] => inr (inr (messages_, extensions))
  | extension_type :: rest =>
      match items_get (VStr extension_type) extension_dict with
      | None =>
          extensions_loop sys_path descriptor_file extension_dict rest messages_ extensions
      | Some (VStr reference) =>
          match rsplit ":" reference with
          | None => inl ValueError
          | Some (package, class_name_) =>
              match import_module sys_path package with
              | ImportError err =>
                  inr (inl (Result
                              (messages_ ++
                               [Item ERROR (cannot_load_message reference err)
                                  (in_file descriptor_file)])
                              true None))
              | Raises e => inl e
              | Imported extension_module =>
                  let defined_classes := map snd (class_members extension_module) in
                  let messages' :=
                    deprecated_loop extension_module defined_classes deprecated_classes
                      messages_ in
                  match attribute extension_module class_name_ with
                  | None => inl (Builtin AttributeError)
                  | Some extension_class =>
                      extensions_loop sys_path descriptor_file extension_dict rest messages'
                        (setitem extension_type extension_class extensions)
                  end
              end
          end
      | Some _ => inl (Builtin AttributeError)
      end
  end.

(** Lines 36-63, up to the test of [extension_dict]: the messages about the
    dependencies, and what the plugin table holds under [connect.eaas.ext].
    The source evaluates [data['tool']['poetry']] twice; it is bound once
    here. *)
Definition read_manifest (descriptor_file : string) (data : pyval)
    : py (list ValidationItem * option pyval) :=
  tool ← getitem data (VStr "tool");
  poetry ← getitem tool (VStr "poetry");
  dependencies ← getitem poetry (VStr "dependencies");
  messages_ ← dependency_check descriptor_file dependencies [];
  plugins ← get_method poetry "plugins";
  extension_dict ← get_method (default (VDict []) plugins) "connect.eaas.ext";
  mret (messages_, extension_dict).

(** The validator with [sys.path] as its state: it returns its outcome and
    the [sys.path] it leaves, [cwd] being what [os.getcwd()] returns. *)
Definition validate_pyproject_toml (cwd : string) (sys_path : list string)
    (project_dir : string) : (error + ValidationResult) * list string :=
  match load_project_toml_file project_dir with
  | inl result => (inr result, sys_path)
  | inr data =>
      let descriptor_file := path_join project_dir ["pyproject.toml"] in
      match read_manifest descriptor_file data with
      | inl e => (inl (Builtin e), sys_path)
      | inr (messages_, Some (VDict extension_dict)) =>
          let sys_path' := sys_path ++ [path_join cwd [project_dir]] in
          (match extensions_loop sys_path' descriptor_file extension_dict
                   ["extension"; "webapp"; "anvil"] messages_ [] with
           | inl e => inl e
           | inr (inl result) => inr result
           | inr (inr (messages', [])) =>
               inr (Result
                      (messages' ++
                       [Item ERROR invalid_declaration_message (in_file descriptor_file)])
                      true None)
           | inr (inr (messages', extensions)) =>
               inr (Result messages' false (Some (Context (Some extensions) None None)))
           end,
           sys_path')
      | inr (messages_, _) =>
          (inr (Result
                  (messages_ ++
                   [Item ERROR no_declaration_message (in_file descriptor_file)])
                  true None),
           sys_path)
      end
  end.

End Loading.

End Project.

(** ** The capability annotations and the accessor [get_variables] *)

Module Decorators.
Import Py.

(** The annotations of [connect/eaas/core/decorators.py] and the accessors of
    [connect/eaas/core/extension.py] are not among the sources; the tests of
    the accessors are.  What follows takes from the tests the two capability
    annotations they stack on a class and the entries each contributes, and
    leaves the accessor under test a parameter of the tests. *)
Inductive annotation : Type :=
| variables (vars : list dict)
| anvil_key_variable (name : string).

(** The name of a declared entry, when it has one that is a string. *)
Definition entry_name (v : dict) : option string :=
  match dict_get "name" v with
  | Some (VStr n) => Some n
  | _ => None
  end.

Definition names_of (l : list dict) : list string := omap entry_name l.

Definition declares (declared : list string) (v : dict) : bool :=
  match entry_name v with
  | Some n => existsb (String.eqb n) declared
  | None => false
  end.

(** The entry [anvil_key_variable] declares
    ([test_get_anvil_key_variable]). *)
Definition anvil_entry (name : string) : dict :=
  [("name", VStr name); ("initial_value", VStr "changeme!"); ("secure", VBool true)].

(** The entries an annotation contributes ([test_get_variables],
    [test_get_anvil_key_variable]). *)
Definition contributed (a : annotation) : list dict :=
  match a with
  | variables vars => vars
  | anvil_key_variable name => [anvil_entry name]
  end.

(** Modelled from the spec (its sections 3 and 4.1), for comparison with the
    tests: the list of [get_variables()] is built by going through the
    annotations from the outermost to the innermost, and of two entries of
    one name that two annotations contribute, the one of the outer
    annotation stays.  The entries of one annotation are all kept. *)
Definition merge_outermost_first (merged : list dict) (a : annotation) : list dict :=
  merged ++ filter (fun v => negb (declares (names_of merged) v)) (contributed a).

(** Modelled from the spec: the accessor on a class under a stack of
    annotations, written top to bottom, the outermost first. *)
Definition get_variables_outermost_first (annotations : list annotation) : list dict :=
  foldl merge_outermost_first [] annotations.

(** *** The tests of [tests/connect/eaas/core/test_extension.py] *)

(** [{v['name']: v for v in l}[name]]: the last entry of that name. *)
Definition vars_dict (l : list dict) (name : string) : option dict :=
  last (filter (fun v => bool_decide (entry_name v = Some name)) l).

(** [vars_dict[var['name']] == var] *)
Definition same_entry (l : list dict) (var : dict) : bool :=
  match entry_name var with
  | Some n =>
      match vars_dict l n with
      | Some v => py_eqb (of_dict v) (of_dict var)
      | None => false
      end
  | None => false
  end.

(** The three parameter sets of both tests. *)
Definition my_var : dict := [("name", VStr "MY_VAR"); ("initial_value", VStr "my_val")].

Definition test_vars : list (list dict) :=
  [ [my_var];
    [my_var;
     [("name", VStr "ANVIL_API_KEY"); ("initial_value", VStr "changeme!"); ("secure", VBool true)]];
    [my_var;
     [("name", VStr "ANVIL_API_KEY"); ("initial_value", VStr "test!"); ("secure", VBool false)]] ].

(** The tests take the accessor under test as the function from a stack of
    annotations to the variables of the class under it. *)
Definition test_get_anvil_key_variable_with_variables_after
    (variables_under : list annotation -> list dict) (vars : list dict) : bool :=
  let got := variables_under [anvil_key_variable "ANVIL_API_KEY"; variables vars] in
  forallb (same_entry got) vars.

Definition test_get_anvil_key_variable_with_variables_before
    (variables_under : list annotation -> list dict) (vars : list dict) : bool :=
  let got := variables_under [variables vars; anvil_key_variable "ANVIL_API_KEY"] in
  forallb (fun var =>
             bool_decide (entry_name var = Some "ANVIL_API_KEY") || same_entry got var) vars
  && same_entry got (anvil_entry "ANVIL_API_KEY").

End Decorators.

(** ** The vocabulary of the properties *)

Module Spec.
Import Py Validations.

#[export] Instance level_eq_dec : EqDecision level.
Proof. solve_decision. Defined.

Section Vocabulary.
Context `{Externals}.

(** The finding [validate_variables] appends for a class. *)
Definition variable_error (extension_class : ext_class) (text : string) : ValidationItem :=
  Item ERROR text (get_code_context (OfClass extension_class) "@variables").

(** A naming ERROR, and the duplicate-name ERROR about the name [n]. *)
Definition naming_error (i : ValidationItem) : bool :=
  bool_decide (item_level i = ERROR) && startswith "Invalid variable name: " (message i).

Definition duplicate_error_for (n : string) (i : ValidationItem) : bool :=
  bool_decide (item_level i = ERROR) && String.eqb (message i) (duplicate_name_message n).

(** The names an accessor result declares, entry by entry. *)
Definition declared_name (variable : dict) : option string :=
  match dict_get "name" variable with
  | Some (VStr n) => Some n
  | _ => None
  end.

Definition declared_names (variables : list dict) : list string :=
  omap declared_name variables.

(** How often the name [n] is declared. *)
Definition occurrences (n : string) (names : list string) : nat :=
  List.length (List.filter (String.eqb n) names).

(** An entry whose name, when it has one, is a string. *)
Definition well_named (variable : dict) : Prop :=
  match dict_get "name" variable with
  | Some (VStr _) | None => True
  | Some _ => False
  end.

(** What the loop of [validate_variables] appends for one entry named
    [name], the names seen before it being [names]. *)
Definition duplicate_part (extension_class : ext_class) (names : list string)
    (name : string) : list ValidationItem :=
  if existsb (String.eqb name) names
  then [variable_error extension_class (duplicate_name_message name)] else [].

Definition naming_part (extension_class : ext_class) (name : string)
    : list ValidationItem :=
  if Re.re_match variable_name_regex name then []
  else [variable_error extension_class (invalid_name_message name)].

Definition initial_value_part (extension_class : ext_class) (variable : dict)
    (name : string) : list ValidationItem :=
  match dict_get "initial_value" variable with
  | Some v =>
      if is_str v then []
      else [variable_error extension_class (invalid_initial_value_message name v)]
  | None => []
  end.

Definition secure_part (extension_class : ext_class) (variable : dict)
    (name : string) : list ValidationItem :=
  match dict_get "secure" variable with
  | Some v =>
      if is_bool v then []
      else [variable_error extension_class (invalid_secure_message name v)]
  | None => []
  end.

Definition entry_messages (extension_class : ext_class) (names : list string)
    (variable : dict) (name : string) : list ValidationItem :=
  duplicate_part extension_class names name ++ naming_part extension_class name
  ++ initial_value_part extension_class variable name
  ++ secure_part extension_class variable name.

(** The findings of [validate_events] for one entry: about the statuses the
    event type does not allow, and about the signature of the handler. *)
Definition status_error (extension_class : ext_class) (event : Event.t)
    (invalid_statuses : list string) : ValidationItem :=
  Item ERROR
    ("The status/es *" +:+ join ", " invalid_statuses
     +:+ "* are invalid for the event *" +:+ Event.event_type event +:+ "*.")
    (get_code_context (OfMember extension_class (Event.method event)) "@event").

Definition event_signature_error (extension_class : ext_class) (event : Event.t)
    (parameters : list string) : ValidationItem :=
  Item ERROR
    ("The handler for the event *" +:+ Event.event_type event
     +:+ "* has an invalid signature: *"
     +:+ sig_str (Event.method event) parameters +:+ "*")
    (get_code_context (OfMember extension_class (Event.method event))
       (sig_str (Event.method event) parameters)).

Definition schedulable_signature_error (extension_class : ext_class)
    (schedulable : Schedulable.t) (parameters : list string) : ValidationItem :=
  Item ERROR
    ("The schedulable method *" +:+ Schedulable.method schedulable
     +:+ "* has an invalid signature: *"
     +:+ sig_str (Schedulable.method schedulable) parameters +:+ "*")
    (get_code_context (OfMember extension_class (Schedulable.method schedulable))
       (sig_str (Schedulable.method schedulable) parameters)).

(** The event type restricts the statuses of its object. *)
Definition restricts (definition : event_definition) : bool :=
  match object_statuses definition with
  | Some (_ :: _) => true
  | _ => false
  end.

(** The declared statuses the event type does not allow: those outside its
    list when it restricts them, all of them when it allows none; each once,
    in the order Python goes through the set of them. *)
Definition disallowed (definition : event_definition) (declared : list string)
    : list string :=
  if restricts definition
  then set_order declared (default [] (object_statuses definition))
  else set_order declared [].

(** The finding about these statuses, when there is one of them. *)
Definition status_errors_of (extension_class : ext_class) (event : Event.t)
    (invalid_statuses : list string) : list ValidationItem :=
  match invalid_statuses with
  | [] => []
  | _ :: _ => [status_error extension_class event invalid_statuses]
  end.

(** The items of a mapping have pairwise distinct keys, as those of a
    Python dictionary do. *)
Fixpoint unique_keys (d : list (pyval * pyval)) : Prop :=
  match d with
  | [] => True
  | (k, _) :: d' => items_get k d' = None /\ unique_keys d'
  end.

(** The services of a composition file as Docker Compose reads it: each has
    a name that can be a key and is declared by a mapping. *)
Definition service_entry (kv : pyval * pyval) : Prop :=
  hashable (fst kv) = true /\ exists entry, snd kv = VDict entry.

(** The [image] of a service. *)
Definition image_of (entry : pyval) : option pyval :=
  match entry with
  | VDict e => items_get (VStr "image") e
  | _ => None
  end.

(** The findings of [validate_docker_compose_yml] for the services: one for
    each service whose image differs from the runner image. *)
Definition image_errors (compose_file runner_image : string)
    (services : list (pyval * pyval)) : list ValidationItem :=
  flat_map (fun kv =>
              if image_differs (image_of (snd kv)) runner_image
              then [Item ERROR (invalid_image_message (fst kv) runner_image (image_of (snd kv)))
                      (in_file compose_file)]
              else []) services.

(** The class [cls] with another outcome of [get_descriptor()]. *)
Definition with_descriptor (outcome : option pyval) (cls : ext_class) : ext_class :=
  ExtensionClass (class_name cls) (getsourcefile cls) (getsource cls) (issubclass cls)
    (getmembers cls) (get_events cls) (get_schedulables cls) (get_variables cls)
    (get_anvil_key_variable cls) outcome.

(** The loaded classes, the descriptor of the class at position [i] replaced
    by [outcomes i]. *)
Definition with_descriptors (outcomes : nat -> option pyval)
    (classes : list (string * ext_class)) : list (string * ext_class) :=
  imap (fun i c => (fst c, with_descriptor (outcomes i) (snd c))) classes.

(** The context with other loaded classes. *)
Definition with_classes (classes : list (string * ext_class)) (ctx : context) : context :=
  Context (Some classes) (descriptor ctx) (runner_version ctx).

(** The descriptor file [validate_extension_class] names for a class. *)
Definition extension_json_of (cls : ext_class) : string :=
  path_join (dirname (getsourcefile cls)) ["extension.json"].

(** *** The [ui] section of a descriptor

    A ui item as the spec describes it: a mapping with an optional [label],
    a [url] and an optional list [children] of items of the same shape. *)
#[local] Unset Elimination Schemes.
Inductive ui_node : Type :=
| UiNode (label : option pyval) (url : option string) (children : list ui_node).
#[local] Set Elimination Schemes.

Definition url_of (n : ui_node) : option string :=
  match n with UiNode _ url _ => url end.

Definition label_of (n : ui_node) : option pyval :=
  match n with UiNode label _ _ => label end.

(** The value [v] of the descriptor is the ui item [n]: a mapping whose
    [label], [url] and [children] are those of [n], in whatever order and
    beside whatever other keys. *)
Inductive represents : ui_node -> pyval -> Prop :=
| Represents label url children d :
    items_get (VStr "label") d = label ->
    items_get (VStr "url") d = VStr <$> url ->
    children_are children (items_get (VStr "children") d) ->
    represents (UiNode label url children) (VDict d)
with children_are : list ui_node -> option pyval -> Prop :=
| No_children :
    children_are [] None
| Some_children children l :
    all_represent children l ->
    children_are children (Some (VList l))
with all_represent : list ui_node -> list pyval -> Prop :=
| Represent_nil :
    all_represent [] []
| Represent_cons n v nodes l :
    represents n v ->
    all_represent nodes l ->
    all_represent (n :: nodes) (v :: l).

(** The order in which the loop visits an item and what lies below it: the
    item, then its children from the last to the first, each with what lies
    below it. *)
Fixpoint walk (n : ui_node) : list ui_node :=
  match n with
  | UiNode _ _ children =>
      n :: (fix later (cs : list ui_node) : list ui_node :=
              match cs with
              | [] => []
              | c :: cs' => later cs' ++ walk c
              end) children
  end.

(** The number of items in a tree, and on a stack of trees. *)
Fixpoint node_count (n : ui_node) : nat :=
  match n with
  | UiNode _ _ children =>
      S ((fix total (cs : list ui_node) : nat :=
            match cs with
            | [] => 0%nat
            | c :: cs' => (node_count c + total cs')%nat
            end) children)
  end.

Definition stack_count (stack : list ui_node) : nat := list_sum (map node_count stack).

Definition without_url (n : ui_node) : bool :=
  match url_of n with
  | None => true
  | Some _ => false
  end.

(** Where the static file of a [url] is looked for. *)
Definition static_path (extension_class : ext_class) (url : string) : string :=
  path_join (dirname (getsourcefile extension_class))
    ["static_root"; last_segment sep url].

(** The [url] of an item when its static file is missing. *)
Definition missing (fs : filesystem) (extension_class : ext_class) (n : ui_node)
    : option string :=
  match url_of n with
  | Some url => if path_exists fs (static_path extension_class url) then None else Some url
  | None => None
  end.

(** The finding about an item without [url]. *)
Definition no_url_error (extension_class : ext_class) (n : ui_node) : ValidationItem :=
  Item ERROR
    ("The extension descriptor contains incorrect ui item"
     +:+ "*" +:+ str_opt (label_of n) +:+ "*, url is not presented.")
    (in_file (extension_json_of extension_class)).

(** The finding about the static files that are missing. *)
Definition missing_files_error (extension_class : ext_class) (missed_files : list string)
    : ValidationItem :=
  Item ERROR
    ("The extension descriptor contains missing static files: "
     +:+ join ", " missed_files +:+ ".")
    (in_file (extension_json_of extension_class)).

(** What the loop makes of the items in the order it visits them. *)
Fixpoint visit_all (fs : filesystem) (extension_class : ext_class)
    (order : list ui_node) (missed_files : list string)
    : ValidationItem + list string :=
  match order with
  | [] => inr missed_files
  | n :: rest =>
      match url_of n with
      | None => inl (no_url_error extension_class n)
      | Some _ =>
          visit_all fs extension_class rest
            (missed_files ++ option_list (missing fs extension_class n))
      end
  end.

(** What [validate_webapp_extension] returns on the context [ctx] for a [ui]
    section whose items it visits in the given order. *)
Definition ui_result (fs : filesystem) (ctx : context) (extension_class : ext_class)
    (order : list ui_node) : ValidationResult :=
  match List.find without_url order with
  | Some n => Result [no_url_error extension_class n] true None
  | None =>
      match omap (missing fs extension_class) order with
      | [] => Result [] false (Some ctx)
      | missed_files => Result [missing_files_error extension_class missed_files] true None
      end
  end.

(** *** Whole runs of the validators *)

(** A member of the class that is a function of the given parameters. *)
Definition handler_of (cls : ext_class) (name : string) (parameters : list string) : Prop :=
  exists source, getattr cls name = inr (Function parameters source).

(** The member of that name is a function of two parameters. *)
Definition takes_two (cls : ext_class) (name : string) : Prop :=
  exists parameters, handler_of cls name parameters /\ List.length parameters = 2%nat.

(** What [validate_schedulables] finds about one entry. *)
Definition schedulable_findings (cls : ext_class) (schedulable : Schedulable.t)
    : list ValidationItem :=
  match getattr cls (Schedulable.method schedulable) with
  | inr (Function parameters _) =>
      if (List.length parameters =? 2)%nat then []
      else [schedulable_signature_error cls schedulable parameters]
  | _ => []
  end.

(** The finding about an event type that the schema does not list. *)
Definition unknown_type_error (cls : ext_class) (event : Event.t) : ValidationItem :=
  Item ERROR ("The event type *" +:+ Event.event_type event +:+ "* is not valid.")
    (get_code_context (OfMember cls (Event.method event)) "@event").

(** The statuses an entry declares, none when it declares no list. *)
Definition declared_statuses (event : Event.t) : list string :=
  default [] (Event.statuses event).

(** The status check can read the statuses of the entry: it declares a list,
    or its event type does not restrict them. *)
Definition readable (definitions : gmap string event_definition) (event : Event.t) : Prop :=
  forall definition, definitions !! Event.event_type event = Some definition ->
    restricts definition = true -> Event.statuses event <> None.

(** What [validate_events] finds about one entry. *)
Definition event_findings (cls : ext_class) (definitions : gmap string event_definition)
    (event : Event.t) : list ValidationItem :=
  match definitions !! Event.event_type event with
  | None => [unknown_type_error cls event]
  | Some definition =>
      status_errors_of cls event (disallowed definition (declared_statuses event))
      ++ match getattr cls (Event.method event) with
         | inr (Function parameters _) =>
             if (List.length parameters =? 2)%nat then []
             else [event_signature_error cls event parameters]
         | _ => []
         end
  end.

(** The entry passes: its event type is in the schema, which allows each of
    its statuses, and its handler takes two parameters. *)
Definition event_passes (cls : ext_class) (definitions : gmap string event_definition)
    (event : Event.t) : Prop :=
  exists definition,
    definitions !! Event.event_type event = Some definition
    /\ (if restricts definition
        then forall status, status ∈ declared_statuses event ->
               status ∈ default [] (object_statuses definition)
        else declared_statuses event = [])
    /\ takes_two cls (Event.method event).

(** An entry about which [validate_variables] has nothing to say, a repeated
    name apart: it has a name of the accepted form, and its [initial_value]
    and its [secure], when given, are a string and a boolean. *)
Definition clean (variable : dict) : Prop :=
  (exists name, dict_get "name" variable = Some (VStr name) /\ valid_name name)
  /\ (forall v, dict_get "initial_value" variable = Some v -> is_str v = true)
  /\ (forall v, dict_get "secure" variable = Some v -> is_bool v = true).

(** What the loop of [validate_variables] appends for the entries of a
    class, [names] being the names it has seen. *)
Fixpoint class_findings (cls : ext_class) (names : list string) (variables : list dict)
    : list ValidationItem :=
  match variables with
  | [] => []
  | variable :: rest =>
      match dict_get "name" variable with
      | Some (VStr name) =>
          entry_messages cls names variable name
          ++ class_findings cls (names ++ [name]) rest
      | _ => variable_error cls mandatory_name_message :: class_findings cls names rest
      end
  end.

(** The finding about a class that has not the base its type asks for. *)
Definition wrong_base_error (c : string * ext_class) : ValidationItem :=
  Item ERROR
    ("The extension class *" +:+ class_name (snd c)
     +:+ "* is not a subclass of *" +:+ class_mapping (fst c) +:+ "*.")
    (in_file (getsourcefile (snd c))).

(** The first loaded class that has not the base its type asks for. *)
Definition first_wrong_base (classes : list (string * ext_class))
    : option (string * ext_class) :=
  List.find (fun c => wrong_base (fst c) (snd c)) classes.

(** The WARNING about a key the descriptor should not carry. *)
Definition descriptor_warning (extension_json_file description : string) : ValidationItem :=
  Item WARNING
    ("Extension " +:+ description +:+ " must be declared using the "
     +:+ "*connect.eaas.core.decorators." +:+ decorator_of description +:+ "* decorator.")
    (in_file extension_json_file).

(** The mapping has the key [k]. *)
Definition has_key (k : string) (d : list (pyval * pyval)) : bool :=
  match items_get (VStr k) d with
  | Some _ => true
  | None => false
  end.

(** The WARNINGs about the keys of a descriptor that is a mapping. *)
Definition descriptor_warnings (extension_json_file : string) (d : list (pyval * pyval))
    : list ValidationItem :=
  flat_map (fun description =>
              if has_key description d
              then [descriptor_warning extension_json_file description]
              else [])
    ["variables"; "capabilities"; "schedulables"].

(** A descriptor that is no container: JSON [null], a number, a boolean. *)
Definition scalar (v : pyval) : bool :=
  match v with
  | VNone | VBool _ | VInt _ => true
  | _ => false
  end.

(** The class is wrapped and has a route: the two tests that come before
    the [ui] section is looked at. *)
Definition wired (cls : ext_class) : Prop :=
  startswith "@web_app(router)" (strip (getsource cls)) = true
  /\ existsb is_router_function (getmembers cls) = true.

(** A directory as [os.path.dirname] returns it: slashes only, or no slash
    at its end. *)
Definition directory (p : string) : Prop :=
  all_sep p = true \/ endswith_sep p = false.

End Vocabulary.

(** *** The project loader *)

Section Loading.
Import Project.
Context `{Loader}.

(** The parsed [pyproject.toml] holds the table [tool.poetry] with the
    [dependencies] given, and [extension_dict] is what its plugin table
    holds under [connect.eaas.ext], if anything. *)
Definition manifest_of (data : pyval) (dependencies : list (pyval * pyval))
    (extension_dict : option pyval) : Prop :=
  exists tool poetry,
    getitem data (VStr "tool") = inr tool
    /\ getitem tool (VStr "poetry") = inr (VDict poetry)
    /\ items_get (VStr "dependencies") poetry = Some (VDict dependencies)
    /\ get_method (default (VDict []) (items_get (VStr "plugins") poetry)) "connect.eaas.ext"
       = inr extension_dict.

(** The finding about the dependencies. *)
Definition dependency_findings (descriptor_file : string)
    (dependencies : list (pyval * pyval)) : list ValidationItem :=
  if has_key "connect-extension-runner" dependencies then
    [Item WARNING runner_dependency_message (in_file descriptor_file)]
  else if has_key "connect-eaas-core" dependencies then []
  else [Item ERROR no_dependency_message (in_file descriptor_file)].

(** The character [c] occurs in [s]. *)
Fixpoint occurs (c : ascii) (s : string) : bool :=
  match s with
  | EmptyString => false
  | String d s' => Ascii.eqb d c || occurs c s'
  end.

(** The three extension types, in the order in which the loader takes them. *)
Definition extension_types : list string := ["extension"; "webapp"; "anvil"].

(** The types among the three that the plugin table declares. *)
Definition declared_types (extension_dict : list (pyval * pyval)) : list string :=
  List.filter (fun t => has_key t extension_dict) extension_types.

(** The plugin table refers for [extension_type] to the class [cls] of the
    module [m]: its reference splits at its last colon into a package that
    imports as [m] and a name that [m] binds to [cls]. *)
Definition loads (sys_path : list string) (extension_dict : list (pyval * pyval))
    (extension_type : string) (m : py_module) (cls : ext_class) : Prop :=
  exists reference package name,
    items_get (VStr extension_type) extension_dict = Some (VStr reference)
    /\ rsplit ":" reference = Some (package, name)
    /\ import_module sys_path package = Imported m
    /\ attribute m name = Some cls.

(** [found] lists, for those of the [types] that the plugin table declares,
    the module and the class it refers to. *)
Inductive loaded (sys_path : list string) (extension_dict : list (pyval * pyval))
    : list string -> list (string * (py_module * ext_class)) -> Prop :=
| Loaded_nil :
    loaded sys_path extension_dict [] []
| Loaded_skip t types found :
    items_get (VStr t) extension_dict = None ->
    loaded sys_path extension_dict types found ->
    loaded sys_path extension_dict (t :: types) found
| Loaded_take t types m cls found :
    loads sys_path extension_dict t m cls ->
    loaded sys_path extension_dict types found ->
    loaded sys_path extension_dict (t :: types) ((t, (m, cls)) :: found).

(** The WARNINGs about the deprecated response classes among the classes of
    a module, in the order of the table of the validator. *)
Definition deprecated_warnings (m : py_module) : list ValidationItem :=
  flat_map (fun pair =>
              if existsb (is_response (fst pair)) (map snd (class_members m))
              then [Item WARNING (deprecated_message (fst pair) (snd pair))
                      (get_module_context m (response_name (fst pair)))]
              else [])
    deprecated_classes.

Definition warnings_of (found : list (string * (py_module * ext_class)))
    : list ValidationItem :=
  flat_map (fun x => deprecated_warnings (fst (snd x))) found.

Definition classes_of (found : list (string * (py_module * ext_class)))
    : list (string * ext_class) :=
  map (fun x => (fst x, snd (snd x))) found.

End Loading.

(** *** A tactic for the results a validator can return

    It destructs the computation a bind or a match waits for, and closes
    the cases in which the validator raised. *)
Ltac step_returned :=
  cbn [lookup_key mret py_ret ret mbind py_bind bind negb];
  match goal with
  | |- inl _ = inr _ -> _ => discriminate
  | |- inr _ = inr _ -> _ => intros [= <-]; simpl; auto
  | |- mret _ = inr _ -> _ => intros [= <-]; simpl; auto
  | |- (?m ≫= _) = inr _ -> _ => destruct m eqn:?
  | |- context [match ?m with _ => _ end] => destruct m eqn:?
  end.

End Spec.

(** ** Sample projects *)

Module Samples.
Import Py Validations.

(** One order of a set, for the samples: that of its elements as a finite
    set of strings lists them. *)
Definition sample_order (members excluded : list string) : list string :=
  elements (list_to_set members ∖ list_to_set excluded : gset string).

(** Collaborators for the samples: the schema is given as the list of its
    records, no code context is resolved, and a set is gone through in the
    order above. *)
#[export] Instance sample_externals : Externals.
Proof.
  refine {|
    config := list event_definition;
    get_event_definitions := fun cfg => cfg;
    get_code_context := fun _ _ => Location None None None;
    repr := fun _ => "<object>";
    set_order := sample_order;
  |}.
  - intros members excluded. apply NoDup_elements.
  - intros members excluded status. unfold sample_order.
    rewrite elem_of_elements, elem_of_difference, !elem_of_list_to_set. reflexivity.
Defined.

(** The same collaborators, a set being gone through the other way round. *)
Definition reversed_externals : Externals.
Proof.
  refine {|
    config := list event_definition;
    get_event_definitions := fun cfg => cfg;
    get_code_context := fun _ _ => Location None None None;
    repr := fun _ => "<object>";
    set_order := fun members excluded => reverse (sample_order members excluded);
  |}.
  - intros members excluded. rewrite reverse_Permutation. apply NoDup_elements.
  - intros members excluded status. unfold sample_order.
    rewrite elem_of_reverse, elem_of_elements, elem_of_difference, !elem_of_list_to_set. reflexivity.
Defined.

Definition purchase_schema : list event_definition :=
  [EventDefinition "asset_purchase_request_processing" (Some ["pending"; "inquiring"])].

Definition events_base (b : base_class) : bool :=
  match b with
  | EventsExtension => true
  | _ => false
  end.

Definition webapp_base (b : base_class) : bool :=
  match b with
  | WebAppExtension => true
  | _ => false
  end.

(** An events extension with one handler and one declared event. *)
Definition events_class (parameters : list string) (event : Event.t) : ext_class :=
  ExtensionClass "MyExtension" "project/events.py" "class MyExtension(EventsApplicationBase):"
    events_base
    [(Event.method event, Function parameters "def process(self, request):")]
    [event] [] [] None (Some (VDict [])).

Definition purchase_event (statuses : option (list string)) : Event.t :=
  Event.Make "process_purchase" "asset_purchase_request_processing" statuses.

(** An extension whose accessor returns the given variables. *)
Definition variables_class (vars : list dict) : ext_class :=
  ExtensionClass "MyExtension" "project/events.py" "class MyExtension(EventsApplicationBase):"
    events_base [] [] [] vars None (Some (VDict [])).

(** An extension with one schedulable method. *)
Definition schedulable_class (parameters : list string) : ext_class :=
  ExtensionClass "MyExtension" "project/events.py" "class MyExtension(EventsApplicationBase):"
    events_base
    [("refresh", Function parameters "def refresh(self, schedule):")]
    [] [Schedulable.Make "refresh" "Refresh" "Refreshes the cache"] [] None (Some (VDict [])).

(** A context holding the given classes, after the first validators ran. *)
Definition context_of (classes : list (string * ext_class)) : context :=
  Context (Some classes) None (Some "24.1").

Definition extension_context (cls : ext_class) : context :=
  context_of [("extension", cls)].

(** A project directory whose composition file holds [data]. *)
Definition project_with_compose (data : option pyval) : filesystem :=
  Filesystem (fun path => String.eqb path "project/docker-compose.yml")
             (fun path => String.eqb path "project/docker-compose.yml")
             (fun _ => data).

Definition compose_of (services : list (pyval * pyval)) : pyval :=
  VDict [(VStr "version", VStr "3"); (VStr "services", VDict services)].

(** A web application with one route and a descriptor whose [ui] section
    has a settings page and a module page with one child page. *)
Definition newline_string : string := String (ascii_of_nat 10) EmptyString.

Definition webapp_class (descriptor_ : pyval) : ext_class :=
  ExtensionClass "MyWebApp" "project/webapp.py"
    ("@web_app(router)" +:+ newline_string +:+ "class MyWebApp(WebApplicationBase):")
    webapp_base
    [("retrieve_settings",
      Function ["self"] ("    @router.get('/settings')" +:+ newline_string
                         +:+ "    def retrieve_settings(self):"))]
    [] [] [] None (Some descriptor_).

Definition page (label url : string) (more : list (pyval * pyval)) : pyval :=
  VDict ([(VStr "label", VStr label); (VStr "url", VStr url)] ++ more).

Definition sample_ui : list (pyval * pyval) :=
  [(VStr "settings", page "Settings" "/static/settings.html" []);
   (VStr "modules",
    page "Main" "/static/main.html"
      [(VStr "children", VList [page "Child" "/static/child.html" []])])].

Definition sample_descriptor : pyval :=
  VDict [(VStr "name", VStr "My extension"); (VStr "ui", VDict sample_ui)].

Definition webapp_context : context :=
  Context (Some [("webapp", webapp_class sample_descriptor)])
    (Some sample_descriptor) (Some "24.1").

(** A project in which only the settings page has its static file. *)
Definition settings_only : filesystem :=
  Filesystem (fun _ => false)
             (fun path => String.eqb path "project/static_root/settings.html")
             (fun _ => None).

(** An Anvil application that declares the given key variable. *)
Definition anvil_base (b : base_class) : bool :=
  match b with
  | AnvilExtension => true
  | _ => false
  end.

Definition anvil_class (key : option string) : ext_class :=
  ExtensionClass "MyAnvilApp" "project/anvil.py" "class MyAnvilApp(AnvilApplicationBase):"
    anvil_base [] [] [] [] key (Some (VDict [])).

(** An events extension with two handlers and the events it declares. *)
Definition two_handlers (events : list Event.t) : ext_class :=
  ExtensionClass "MyExtension" "project/events.py" "class MyExtension(EventsApplicationBase):"
    events_base
    [("process_change", Function ["self"] "def process_change(self):");
     ("process_purchase", Function ["self"; "request"] "def process_purchase(self, request):")]
    events [] [] None (Some (VDict [])).

(** An extension with two schedulable methods. *)
Definition two_schedulables : ext_class :=
  ExtensionClass "MyExtension" "project/events.py" "class MyExtension(EventsApplicationBase):"
    events_base
    [("cleanup", Function ["self"] "def cleanup(self):");
     ("refresh", Function ["self"; "schedule"] "def refresh(self, schedule):")]
    []
    [Schedulable.Make "refresh" "Refresh" "Refreshes the cache";
     Schedulable.Make "cleanup" "Cleanup" "Removes old files"]
    [] None (Some (VDict [])).

(** An extension with the given descriptor. *)
Definition described_class (descriptor_ : option pyval) : ext_class :=
  ExtensionClass "MyExtension" "project/events.py" "class MyExtension(EventsApplicationBase):"
    events_base [] [] [] [] None descriptor_.

(** A class that is declared as a web application and is none. *)
Definition misdeclared : list (string * ext_class) :=
  [("extension", described_class (Some (VDict [])));
   ("webapp", described_class (Some (VDict [])))].

(** A web application whose descriptor lists its administration pages, as
    [admin_pages] declares them, after its settings page. *)
Definition admin_ui : list (pyval * pyval) :=
  [(VStr "admins", VList [page "Admin page" "/static/admin.html" []]);
   (VStr "settings", page "Settings" "/static/settings.html" [])].

Definition admin_descriptor : pyval := VDict [(VStr "ui", VDict admin_ui)].

Definition admin_context : context :=
  Context (Some [("webapp", webapp_class admin_descriptor)])
    (Some admin_descriptor) (Some "24.1").

(** A project whose classes live in packages of their own, each beside a
    descriptor of its own: the events extension, which is loaded first, has
    a descriptor without [ui] section; the descriptor of the web application
    has one, whose settings page has no [url]. *)
Definition packaged_extension (descriptor_ : option pyval) : ext_class :=
  ExtensionClass "MyExtension" "project/events/extension.py"
    "class MyExtension(EventsApplicationBase):"
    events_base [] [] [] [] None descriptor_.

Definition packaged_webapp (descriptor_ : pyval) : ext_class :=
  ExtensionClass "MyWebApp" "project/web/webapp.py"
    ("@web_app(router)" +:+ newline_string +:+ "class MyWebApp(WebApplicationBase):")
    webapp_base
    [("retrieve_settings",
      Function ["self"] ("    @router.get('/settings')" +:+ newline_string
                         +:+ "    def retrieve_settings(self):"))]
    [] [] [] None (Some descriptor_).

Definition plain_descriptor : pyval := VDict [(VStr "name", VStr "My extension")].

Definition urlless_ui : list (pyval * pyval) :=
  [(VStr "settings", VDict [(VStr "label", VStr "Settings")])].

Definition urlless_descriptor : pyval :=
  VDict [(VStr "name", VStr "My web application"); (VStr "ui", VDict urlless_ui)].

Definition packaged_classes : list (string * ext_class) :=
  [("extension", packaged_extension (Some plain_descriptor));
   ("webapp", packaged_webapp urlless_descriptor)].

(** An accessor for the samples.  Nothing is known of the accessor of the
    repository beyond its tests; this one lists the entries of the
    annotations as they are written, top to bottom, and merges nothing. *)
Definition listed_accessor (annotations : list Decorators.annotation) : list dict :=
  flat_map Decorators.contributed annotations.

(** The project loader on sample projects.  The manifest of [project]
    declares a web application and an events extension, in this order;
    that of [broken] an Anvil application whose module is missing; that of
    [malformed] a reference without a colon; that of [undeclared] no plugin
    table; any other directory has no manifest. *)
Definition manifest (dependencies : list (pyval * pyval)) (plugins : list (pyval * pyval))
    : pyval :=
  VDict
    [(VStr "tool",
      VDict
        [(VStr "poetry",
          VDict ([(VStr "name", VStr "my-extension");
                  (VStr "dependencies", VDict dependencies)] ++ plugins))])].

Definition plugin_table (extension_dict : list (pyval * pyval)) : list (pyval * pyval) :=
  [(VStr "plugins", VDict [(VStr "connect.eaas.ext", VDict extension_dict)])].

Definition core_dependency : list (pyval * pyval) :=
  [(VStr "python", VStr "^3.8"); (VStr "connect-eaas-core", VStr "^26.0")].

Definition runner_dependency : list (pyval * pyval) :=
  [(VStr "python", VStr "^3.8"); (VStr "connect-extension-runner", VStr "^24.0")].

Definition project_plugins : list (pyval * pyval) :=
  [(VStr "webapp", VStr "my_ext.webapp:MyWebApp");
   (VStr "extension", VStr "my_ext.events:MyExtension")].

Definition broken_plugins : list (pyval * pyval) :=
  [(VStr "anvil", VStr "my_ext.anvil:MyAnvilApp");
   (VStr "extension", VStr "my_ext.events:MyExtension")].

Definition malformed_plugins : list (pyval * pyval) :=
  [(VStr "extension", VStr "my_ext.events.MyExtension")].

Definition no_manifest : ValidationResult :=
  Result
    [Item ERROR "The mandatory *pyproject.toml* project descriptor file is not present."
       (in_file "elsewhere/pyproject.toml")]
    true None.

Definition events_module : Project.py_module :=
  Project.PyModule
    [("MyExtension", Project.Other (described_class (Some (VDict []))));
     ("ProcessingResponse", Project.Response Project.ProcessingResponse)]
    (fun name =>
       if String.eqb name "MyExtension" then Some (described_class (Some (VDict [])))
       else None).

Definition webapp_module : Project.py_module :=
  Project.PyModule
    [("MyWebApp", Project.Other (webapp_class sample_descriptor))]
    (fun name =>
       if String.eqb name "MyWebApp" then Some (webapp_class sample_descriptor) else None).

#[export] Instance sample_loader : Project.Loader := {
  Project.load_project_toml_file := fun project_dir =>
    if String.eqb project_dir "project" then inr (manifest core_dependency (plugin_table project_plugins))
    else if String.eqb project_dir "broken" then inr (manifest runner_dependency (plugin_table broken_plugins))
    else if String.eqb project_dir "malformed" then inr (manifest core_dependency (plugin_table malformed_plugins))
    else if String.eqb project_dir "undeclared" then inr (manifest [] [])
    else inl no_manifest;
  Project.import_module := fun _ package =>
    if String.eqb package "my_ext.events" then Project.Imported events_module
    else if String.eqb package "my_ext.webapp" then Project.Imported webapp_module
    else Project.ImportError ("No module named '" +:+ package +:+ "'");
  Project.get_module_context := fun _ _ => Location None None None;
}.

End Samples.

(** * Properties *)

Import Py Re Validations Spec Samples.

(** ** The matcher finds a match exactly when the pattern has one *)

Section Matcher.

Lemma matches_consumes r bol s bol' s' :
  matches r bol s bol' s' ->
  (String.length s' <= String.length s)%nat
  /\ (String.length s' = String.length s -> s' = s /\ bol' = bol).
Proof.
  induction 1 as
    [ bol s | s | bol s _ | ranges c bol s _
    | r1 r2 bol s bol1 s1 bol2 s2 _ [IH1 IH1'] _ [IH2 IH2']
    | r bol s
    | r bol s bol1 s1 bol2 s2 _ [IH1 IH1'] _ [IH2 IH2']
    | r bol s bol1 s1 bol2 s2 _ [IH1 IH1'] _ [IH2 IH2'] ];
    simpl; try (split; [lia | tauto || (intros; lia)]).
  all: split; [lia|]; intros Hlen.
  all: destruct IH1' as [-> ->]; [lia|]; apply IH2'; lia.
Qed.

Lemma star_loop_sound r : sound_at r ->
  forall fuel bol s k, star_loop (run r) fuel bol s k = true ->
    exists bol' s', matches (Star r) bol s bol' s' /\ k bol' s' = true.
Proof.
  intros Hr fuel. induction fuel as [|fuel IH]; intros bol s k; simpl.
  - rewrite orb_false_r. intros Hk. exists bol, s. split; [constructor | exact Hk].
  - intros [Hk | Hbody]%orb_true_iff.
    + exists bol, s. split; [constructor | exact Hk].
    + apply Hr in Hbody as (bol1 & s1 & Hm & [_ Hloop]%andb_true_iff).
      apply IH in Hloop as (bol2 & s2 & Hm' & Hk).
      exists bol2, s2. split; [econstructor; eassumption | exact Hk].
Qed.

Lemma star_loop_complete r : complete_at r ->
  forall bol s bol' s', matches (Star r) bol s bol' s' ->
  forall fuel k, (String.length s <= fuel)%nat -> k bol' s' = true ->
    star_loop (run r) fuel bol s k = true.
Proof.
  intros Hr bol s bol' s' Hm. remember (Star r) as r' eqn:Er.
  induction Hm as
    [ | | | | | r0 bol s
    | r0 bol s bol1 s1 bol2 s2 Hm1 _ Hm2 IH | ]; try discriminate.
  - intros [|fuel] k _ Hk; simpl; rewrite Hk; reflexivity.
  - injection Er as ->. specialize (IH eq_refl).
    intros fuel k Hfuel Hk.
    destruct (matches_consumes _ _ _ _ _ Hm1) as [Hle Heq].
    destruct (decide (String.length s1 = String.length s)) as [Hsame|Hless].
    + destruct (Heq Hsame) as [-> ->]. apply IH; assumption.
    + destruct fuel as [|fuel]; [lia|]. simpl. apply orb_true_iff. right.
      apply (Hr _ _ _ _ _ Hm1). apply andb_true_iff. split.
      * apply Nat.ltb_lt. lia.
      * apply IH; [lia | exact Hk].
Qed.

Lemma run_sound r : sound_at r.
Proof.
  induction r as [| | |ranges|r1 IH1 r2 IH2|r IH|r IH]; intros bol s k; simpl.
  - intros Hk. exists bol, s. split; [constructor | exact Hk].
  - intros [-> Hk]%andb_true_iff. exists true, s. split; [constructor | exact Hk].
  - intros [He Hk]%andb_true_iff. exists bol, s. split; [constructor; exact He | exact Hk].
  - destruct s as [|c s]; [discriminate|].
    intros [Hc Hk]%andb_true_iff. exists false, s. split; [constructor; exact Hc | exact Hk].
  - intros H1. apply IH1 in H1 as (bol1 & s1 & Hm1 & H2).
    apply IH2 in H2 as (bol2 & s2 & Hm2 & Hk).
    exists bol2, s2. split; [econstructor; eassumption | exact Hk].
  - apply star_loop_sound, IH.
  - intros H1. apply IH in H1 as (bol1 & s1 & Hm1 & Hloop).
    apply (star_loop_sound r IH) in Hloop as (bol2 & s2 & Hm2 & Hk).
    exists bol2, s2. split; [econstructor; eassumption | exact Hk].
Qed.

Lemma run_complete r : complete_at r.
Proof.
  induction r as [| | |ranges|r1 IH1 r2 IH2|r IH|r IH];
    intros bol s bol' s' k Hm Hk; inversion Hm; subst; simpl.
  - exact Hk.
  - exact Hk.
  - rewrite Hk. match goal with E : at_end _ = true |- _ => rewrite E end. reflexivity.
  - rewrite Hk. match goal with E : in_class _ _ = true |- _ => rewrite E end. reflexivity.
  - eapply IH1; [eassumption|]. eapply IH2; eassumption.
  - eapply (star_loop_complete r IH); [exact Hm | lia | exact Hk].
  - eapply (star_loop_complete r IH); [exact Hm | lia | exact Hk].
  - eapply IH; [eassumption|].
    eapply (star_loop_complete r IH); [eassumption | lia | exact Hk].
Qed.

(** [re.match] succeeds exactly on the language of the pattern. *)
Lemma re_match_language r s : re_match r s = true <-> language r s.
Proof.
  unfold re_match, language. split.
  - intros Hrun. apply run_sound in Hrun as (bol' & s' & Hm & _). eauto.
  - intros (bol' & s' & Hm). eapply run_complete; [exact Hm | reflexivity].
Qed.

End Matcher.

(** ** The language of the variable-name pattern *)

Section NamePattern.

Lemma all_in_app ranges w1 w2 :
  all_in ranges (w1 +:+ w2) = all_in ranges w1 && all_in ranges w2.
Proof.
  induction w1 as [|c w1 IH]; simpl; [reflexivity|].
  rewrite IH, andb_assoc. reflexivity.
Qed.

Lemma append_cons (c : ascii) (a b : string) : String c a +:+ b = String c (a +:+ b).
Proof. reflexivity. Qed.

Lemma append_nil_r (a : string) : a +:+ EmptyString = a.
Proof.
  induction a as [|x a IH]; [reflexivity|]. rewrite append_cons, IH. reflexivity.
Qed.

Lemma string_app_assoc (a b c : string) : (a +:+ b) +:+ c = a +:+ (b +:+ c).
Proof.
  induction a as [|x a IH]; [reflexivity|]. rewrite !append_cons, IH. reflexivity.
Qed.

(** [[...]*] takes any run of characters of the class. *)
Lemma star_class_elim ranges bol s bol' s' :
  matches (Star (Class ranges)) bol s bol' s' ->
  exists w, s = w +:+ s' /\ all_in ranges w = true.
Proof.
  intros Hm. remember (Star (Class ranges)) as r eqn:Er.
  induction Hm as [ | | | | | r0 bol s | r0 bol s bol1 s1 bol2 s2 Hm1 _ _ IH | ];
    try discriminate.
  - exists EmptyString. split; reflexivity.
  - injection Er as ->. destruct (IH eq_refl) as (w & -> & Hw).
    inversion Hm1; subst. exists (String c w). split; [reflexivity|].
    simpl. rewrite Hw. apply andb_true_iff. split; [assumption | reflexivity].
Qed.

Lemma star_class_intro ranges w : all_in ranges w = true ->
  forall bol s', exists bol', matches (Star (Class ranges)) bol (w +:+ s') bol' s'.
Proof.
  induction w as [|c w IH]; simpl; intros Hw bol s'.
  - exists bol. constructor.
  - apply andb_true_iff in Hw as [Hc Hw].
    destruct (IH Hw false s') as (bol' & Hm).
    exists bol'. econstructor; [constructor; exact Hc | exact Hm].
Qed.

(** And so does [(?:[...]+)*]. *)
Lemma star_plus_class_elim ranges bol s bol' s' :
  matches (Star (Plus (Class ranges))) bol s bol' s' ->
  exists w, s = w +:+ s' /\ all_in ranges w = true.
Proof.
  intros Hm. remember (Star (Plus (Class ranges))) as r eqn:Er.
  induction Hm as [ | | | | | r0 bol s | r0 bol s bol1 s1 bol2 s2 Hm1 _ _ IH | ];
    try discriminate.
  - exists EmptyString. split; reflexivity.
  - injection Er as ->. destruct (IH eq_refl) as (w2 & -> & Hw2).
    inversion Hm1 as [ | | | | | | | r1 b0 t0 b1 t1 b2 t2 Hc Hs ]; subst.
    inversion Hc; subst.
    apply star_class_elim in Hs as (w1 & -> & Hw1).
    exists (String c (w1 +:+ w2)). split.
    + rewrite !append_cons, string_app_assoc. reflexivity.
    + simpl. rewrite all_in_app, Hw1, Hw2.
      apply andb_true_iff. split; [assumption | reflexivity].
Qed.

Lemma star_plus_class_intro ranges w : all_in ranges w = true ->
  forall bol s', exists bol', matches (Star (Plus (Class ranges))) bol (w +:+ s') bol' s'.
Proof.
  intros Hw bol s'. destruct w as [|c w]; simpl in *.
  - exists bol. constructor.
  - apply andb_true_iff in Hw as [Hc Hw].
    destruct (star_class_intro ranges w Hw false s') as (bol' & Hm).
    exists bol'. eapply M_Star_more; [|apply M_Star_done].
    econstructor; [constructor; exact Hc | exact Hm].
Qed.

Lemma at_end_cases s :
  at_end s = true <-> s = EmptyString \/ s = String newline EmptyString.
Proof.
  destruct s as [|c [|d s]]; simpl; split; try tauto; try discriminate.
  - intros Hc%Ascii.eqb_eq. right. congruence.
  - intros [|[= ->]]; [discriminate | apply Ascii.eqb_refl].
  - intros [|]; discriminate.
Qed.

(** A pattern of the shape [^[A-Za-z]<body>$] whose body takes any run of
    name characters describes the valid names. *)
Lemma name_language body :
  (forall bol s bol' s', matches body bol s bol' s' ->
     exists w, s = w +:+ s' /\ all_in name_chars w = true) ->
  (forall w, all_in name_chars w = true ->
     forall bol s', exists bol', matches body bol (w +:+ s') bol' s') ->
  forall s, language (Seq Bol (Seq (Class letters) (Seq body Eol))) s <-> valid_name s.
Proof.
  intros Helim Hintro s. unfold language, valid_name. split.
  - intros (bol' & s' & Hm).
    repeat match goal with
           | H : matches (Seq _ _) _ _ _ _ |- _ => inversion H; subst; clear H
           | H : matches Bol _ _ _ _ |- _ => inversion H; subst; clear H
           | H : matches (Class _) _ _ _ _ |- _ => inversion H; subst; clear H
           | H : matches Eol _ _ _ _ |- _ => inversion H; subst; clear H
           end.
    match goal with
    | H : matches body _ _ _ _ |- _ => apply Helim in H as (w & -> & Hw)
    end.
    match goal with E : at_end _ = true |- _ => apply at_end_cases in E as [->| ->] end.
    + exists c, w. split; [assumption|]. split; [assumption|]. left.
      rewrite append_nil_r. reflexivity.
    + exists c, w. auto.
  - intros (c & w & Hc & Hw & [-> | ->]).
    + destruct (Hintro w Hw false EmptyString) as (bol' & Hm).
      rewrite append_nil_r in Hm.
      exists bol', EmptyString.
      repeat (econstructor; try eassumption).
    + destruct (Hintro w Hw false (String newline EmptyString)) as (bol' & Hm).
      exists bol', (String newline EmptyString).
      repeat (econstructor; try eassumption).
Qed.

Lemma variable_name_regex_eq :
  variable_name_regex
  = Seq Bol (Seq (Class letters) (Seq (Star (Plus (Class name_chars))) Eol)).
Proof. reflexivity. Qed.

Lemma spec_name_regex_eq :
  spec_name_regex
  = Seq Bol (Seq (Class letters) (Seq (Star (Class name_chars)) Eol)).
Proof. reflexivity. Qed.

(** The names the validator accepts. *)
Lemma variable_name_regex_valid s :
  re_match variable_name_regex s = true <-> valid_name s.
Proof.
  rewrite re_match_language, variable_name_regex_eq.
  apply name_language.
  - intros bol t bol' t'. apply star_plus_class_elim.
  - intros w Hw. apply star_plus_class_intro, Hw.
Qed.

(** The names the pattern of the spec describes. *)
Lemma spec_name_regex_valid s :
  re_match spec_name_regex s = true <-> valid_name s.
Proof.
  rewrite re_match_language, spec_name_regex_eq.
  apply name_language.
  - intros bol t bol' t'. apply star_class_elim.
  - intros w Hw. apply star_class_intro, Hw.
Qed.

(** Both patterns accept the same names. *)
Lemma variable_name_regex_refines_spec s :
  re_match variable_name_regex s = re_match spec_name_regex s.
Proof.
  apply eq_true_iff_eq.
  rewrite variable_name_regex_valid, spec_name_regex_valid. reflexivity.
Qed.

(** X3.  The names the validator accepts: a letter, then letters, digits,
    underscores, hyphens and dots, and possibly one newline at the end. *)
Theorem accepted_variable_names s :
  re_match variable_name_regex s = true
  <-> exists c w,
        in_class c letters = true /\ all_in name_chars w = true
        /\ (s = String c w \/ s = String c (w +:+ String newline EmptyString)).
Proof. apply variable_name_regex_valid. Qed.

End NamePattern.

(** ** [validate_variables] *)

Section Variables.
Context `{Externals}.

Lemma append_if_app test cls text (msgs : list ValidationItem) :
  append_if test cls text msgs
  = msgs ++ (if test then [variable_error cls text] else []).
Proof. destruct test; simpl; [reflexivity | rewrite app_nil_r; reflexivity]. Qed.

(** One turn of the loop, entry by entry. *)
Lemma variable_step_named cls names msgs variable name :
  dict_get "name" variable = Some (VStr name) ->
  variable_step cls (names, msgs) variable
  = inr (names ++ [name], msgs ++ entry_messages cls names variable name).
Proof.
  intros Hname. unfold variable_step, entry_messages. rewrite Hname.
  unfold duplicate_part, naming_part, initial_value_part, secure_part.
  destruct (dict_get "initial_value" variable) as [iv|];
    destruct (dict_get "secure" variable) as [sec|];
    rewrite ?append_if_app;
    repeat match goal with |- context [negb ?b] => destruct b; simpl end;
    rewrite ?app_nil_r, <- ?app_assoc; reflexivity.
Qed.

(** X4.  One turn of the loop on a named entry: the name joins [names], and
    the findings about the entry follow the messages in the order of the
    checks (duplicate name, pattern, [initial_value], [secure]). *)
Theorem named_entry_findings cls names msgs variable name :
  dict_get "name" variable = Some (VStr name) ->
  variable_step cls (names, msgs) variable
  = inr (names ++ [name],
         msgs
         ++ duplicate_part cls names name ++ naming_part cls name
         ++ initial_value_part cls variable name ++ secure_part cls variable name).
Proof. apply variable_step_named. Qed.

Lemma variable_step_unnamed cls names msgs variable :
  dict_get "name" variable = None ->
  variable_step cls (names, msgs) variable
  = inr (names, msgs ++ [variable_error cls mandatory_name_message]).
Proof. intros Hname. unfold variable_step. rewrite Hname. reflexivity. Qed.

Lemma naming_error_parts cls names variable name :
  List.filter naming_error (entry_messages cls names variable name)
  = naming_part cls name.
Proof.
  unfold entry_messages. rewrite !List.filter_app.
  assert (List.filter naming_error (duplicate_part cls names name) = []) as ->.
  { unfold duplicate_part. destruct (existsb _ _); reflexivity. }
  assert (List.filter naming_error (initial_value_part cls variable name) = []) as ->.
  { unfold initial_value_part. destruct (dict_get _ _) as [v|]; [|reflexivity].
    destruct (is_str v); reflexivity. }
  assert (List.filter naming_error (secure_part cls variable name) = []) as ->.
  { unfold secure_part. destruct (dict_get _ _) as [v|]; [|reflexivity].
    destruct (is_bool v); reflexivity. }
  rewrite app_nil_r. simpl. unfold naming_part.
  destruct (re_match _ _); reflexivity.
Qed.

(** C5.  For a declared variable entry with a name, the variable validator
    emits exactly one naming ERROR when the name does not match the pattern
    [^[A-Za-z][A-Za-z0-9_\-.]*$] and none when it matches: the pattern it
    compiles accepts the names which that pattern accepts. *)
Theorem naming_error_iff_no_match cls names msgs variable name :
  dict_get "name" variable = Some (VStr name) ->
  exists emitted,
    variable_step cls (names, msgs) variable = inr (names ++ [name], msgs ++ emitted)
    /\ (forall rest,
          variables_loop cls (variable :: rest) (names, msgs)
          = variables_loop cls rest (names ++ [name], msgs ++ emitted))
    /\ List.filter naming_error emitted
       = if re_match spec_name_regex name then []
         else [variable_error cls (invalid_name_message name)].
Proof.
  intros Hname. exists (entry_messages cls names variable name).
  pose proof (variable_step_named cls names msgs variable name Hname) as Hstep.
  split; [exact Hstep|]. split.
  - intros rest. cbn [variables_loop]. rewrite Hstep. reflexivity.
  - rewrite naming_error_parts. unfold naming_part.
    rewrite variable_name_regex_refines_spec. reflexivity.
Qed.

(** *** Duplicate names *)

Lemma length_append (a b : string) :
  String.length (a +:+ b) = (String.length a + String.length b)%nat.
Proof.
  induction a as [|c a IH]; [reflexivity|]. rewrite append_cons. simpl. rewrite IH. reflexivity.
Qed.

Lemma append_inj_r (a b q : string) : a +:+ q = b +:+ q -> a = b.
Proof.
  revert b. induction a as [|c a IH]; intros [|d b] Heq.
  - reflexivity.
  - apply (f_equal String.length) in Heq. rewrite append_cons in Heq. simpl in Heq.
    rewrite !length_append in Heq. simpl in Heq. lia.
  - apply (f_equal String.length) in Heq. rewrite append_cons in Heq. simpl in Heq.
    rewrite !length_append in Heq. simpl in Heq. lia.
  - rewrite !append_cons in Heq. injection Heq as -> Heq. f_equal. apply IH, Heq.
Qed.

(** The duplicate-name message tells the name. *)
Lemma duplicate_name_message_inj m n :
  String.eqb (duplicate_name_message m) (duplicate_name_message n) = String.eqb n m.
Proof.
  apply eq_true_iff_eq. rewrite !String.eqb_eq. unfold duplicate_name_message. split.
  - intros Heq. apply String.app_inj, append_inj_r in Heq. congruence.
  - intros ->. reflexivity.
Qed.

Lemma duplicate_error_for_duplicate cls n m :
  duplicate_error_for n (variable_error cls (duplicate_name_message m)) = String.eqb n m.
Proof.
  unfold duplicate_error_for, variable_error. cbn [item_level message].
  rewrite duplicate_name_message_inj, bool_decide_eq_true_2 by reflexivity.
  reflexivity.
Qed.

Lemma duplicate_error_parts cls names variable name n :
  List.filter (duplicate_error_for n) (entry_messages cls names variable name)
  = if String.eqb n name then duplicate_part cls names name else [].
Proof.
  unfold entry_messages. rewrite !List.filter_app.
  assert (List.filter (duplicate_error_for n) (naming_part cls name) = []) as ->.
  { unfold naming_part. destruct (re_match _ _); reflexivity. }
  assert (List.filter (duplicate_error_for n) (initial_value_part cls variable name) = []) as ->.
  { unfold initial_value_part. destruct (dict_get _ _) as [v|]; [|reflexivity].
    destruct (is_str v); reflexivity. }
  assert (List.filter (duplicate_error_for n) (secure_part cls variable name) = []) as ->.
  { unfold secure_part. destruct (dict_get _ _) as [v|]; [|reflexivity].
    destruct (is_bool v); reflexivity. }
  rewrite !app_nil_r. unfold duplicate_part.
  destruct (existsb _ _); [|destruct (String.eqb n name); reflexivity].
  cbn [List.filter]. rewrite duplicate_error_for_duplicate.
  destruct (String.eqb n name); reflexivity.
Qed.

Lemma existsb_snoc n m (names : list string) :
  existsb (String.eqb n) (names ++ [m]) = existsb (String.eqb n) names || String.eqb n m.
Proof. rewrite existsb_app. simpl. rewrite orb_false_r. reflexivity. Qed.

Lemma bind_ret {A B} (a : A) (k : A -> py B) : (inr a ≫= k) = k a.
Proof. reflexivity. Qed.

Lemma declared_names_cons variable variables :
  declared_names (variable :: variables)
  = match declared_name variable with
    | Some n => n :: declared_names variables
    | None => declared_names variables
    end.
Proof. reflexivity. Qed.

Lemma variables_loop_cons cls variable variables state :
  variables_loop cls (variable :: variables) state
  = variable_step cls state variable ≫= variables_loop cls variables.
Proof. reflexivity. Qed.

(** The loop over the entries of one class: the names it has seen, and for
    each name the number of duplicate-name ERRORs it appends. *)
Lemma variables_loop_duplicates cls variables : Forall well_named variables ->
  forall names msgs, exists emitted,
    variables_loop cls variables (names, msgs)
    = inr (names ++ declared_names variables, msgs ++ emitted)
    /\ forall n,
         List.length (List.filter (duplicate_error_for n) emitted)
         = if existsb (String.eqb n) names
           then occurrences n (declared_names variables)
           else Nat.pred (occurrences n (declared_names variables)).
Proof.
  induction 1 as [|variable variables Hwell _ IH]; intros names msgs.
  - exists []. simpl. rewrite !app_nil_r. split; [reflexivity|].
    intros n. destruct (existsb _ _); reflexivity.
  - unfold well_named in Hwell. rewrite variables_loop_cons, declared_names_cons.
    unfold declared_name.
    destruct (dict_get "name" variable) as [[| | |name| |]|] eqn:Hname; try contradiction.
    + rewrite (variable_step_named _ _ _ _ _ Hname), bind_ret.
      destruct (IH (names ++ [name]) (msgs ++ entry_messages cls names variable name))
        as (emitted & -> & Hcount).
      exists (entry_messages cls names variable name ++ emitted).
      rewrite <- !app_assoc. split; [reflexivity|].
      intros n. rewrite List.filter_app, length_app, duplicate_error_parts, Hcount.
      rewrite existsb_snoc. unfold occurrences, duplicate_part. cbn [List.filter].
      destruct (String.eqb n name) eqn:Hn.
      * apply String.eqb_eq in Hn as ->.
        rewrite orb_true_r. destruct (existsb _ names); simpl; lia.
      * rewrite orb_false_r. reflexivity.
    + rewrite (variable_step_unnamed _ _ _ _ Hname), bind_ret.
      destruct (IH names (msgs ++ [variable_error cls mandatory_name_message]))
        as (emitted & -> & Hcount).
      exists (variable_error cls mandatory_name_message :: emitted).
      rewrite <- !app_assoc. split; [reflexivity|].
      intros n. cbn [List.filter]. 
      replace (duplicate_error_for n (variable_error cls mandatory_name_message))
        with false by reflexivity.
      apply Hcount.
Qed.

(** The repeats of the name [n] among the names the classes declare, class
    by class. *)
Lemma variables_of_classes_duplicates classes :
  Forall (fun c => Forall well_named (get_variables (snd c))) classes ->
  forall msgs, exists emitted,
    variables_of_classes classes msgs = inr (msgs ++ emitted)
    /\ forall n,
         List.length (List.filter (duplicate_error_for n) emitted)
         = list_sum (map (fun c => Nat.pred (occurrences n
                                     (declared_names (get_variables (snd c))))) classes).
Proof.
  induction 1 as [|[extension_type cls] classes Hwell _ IH]; intros msgs.
  - exists []. rewrite app_nil_r. split; reflexivity.
  - simpl in *.
    destruct (variables_loop_duplicates cls _ Hwell [] msgs) as (emitted & -> & Hcount).
    simpl. destruct (IH (msgs ++ emitted)) as (emitted' & -> & Hcount').
    exists (emitted ++ emitted'). rewrite <- app_assoc. split; [reflexivity|].
    intros n. rewrite List.filter_app, length_app, Hcount, Hcount'. reflexivity.
Qed.

(** C2, as the code has it.  The variable validator reads the variables of
    a class through [get_variables()] and takes the list it returns as it
    is: it emits exactly one duplicate-name ERROR for each occurrence of a
    name after its first in that list, class by class, and none about a
    name the accessor returns at most once for each class, however often
    the annotations of the class declare it. *)
Theorem duplicate_error_per_repeat ctx classes :
  extension_classes ctx = Some classes ->
  Forall (fun c => Forall well_named (get_variables (snd c))) classes ->
  exists msgs,
    validate_variables ctx = inr (Result msgs false (Some ctx))
    /\ (forall n,
          List.length (List.filter (duplicate_error_for n) msgs)
          = list_sum (map (fun c => Nat.pred (occurrences n
                                      (declared_names (get_variables (snd c))))) classes))
    /\ (forall n,
          (forall c, c ∈ classes ->
             (occurrences n (declared_names (get_variables (snd c))) <= 1)%nat) ->
          List.filter (duplicate_error_for n) msgs = []).
Proof.
  intros Hctx Hwell. unfold validate_variables. rewrite Hctx. simpl.
  destruct (variables_of_classes_duplicates classes Hwell []) as (emitted & -> & Hcount).
  exists emitted. split; [reflexivity|]. split; [exact Hcount|].
  intros n Honce. apply List.length_zero_iff_nil. rewrite Hcount.
  clear -Honce. induction classes as [|c classes IH]; [reflexivity|].
  cbn [map list_sum foldr].
  assert (Hrest : list_sum (map (fun c => Nat.pred (occurrences n
                                   (declared_names (get_variables (snd c))))) classes)
                  = 0%nat)
    by (apply IH; intros c' Hc'; apply Honce; right; exact Hc').
  unfold list_sum in Hrest |- *. cbn [foldr]. rewrite Hrest.
  specialize (Honce c ltac:(left)). lia.
Qed.

End Variables.

(** ** [validate_events] and [validate_schedulables] *)

Section Events.
Context `{Externals}.

Lemma definitions_fold_None (l : list event_definition) (m : gmap string event_definition) k :
  foldl (fun m definition => <[type definition := definition]> m) m l !! k = None
  <-> m !! k = None /\ k ∉ map type l.
Proof.
  revert m. induction l as [|d l IH]; intros m; simpl.
  - rewrite list_elem_of_In. simpl. tauto.
  - rewrite IH, lookup_insert_None, not_elem_of_cons. intuition congruence.
Qed.

(** The keys of the table of definitions are the types of the schema. *)
Lemma definitions_of_None l k :
  definitions_of l !! k = None <-> k ∉ map type l.
Proof.
  unfold definitions_of. rewrite definitions_fold_None, lookup_empty. tauto.
Qed.

Lemma events_loop_cons cls definitions event rest msgs :
  events_loop cls definitions (event :: rest) msgs
  = event_step cls definitions msgs event ≫= events_loop cls definitions rest.
Proof. reflexivity. Qed.

(** C10.  An entry whose event type is no key of the schema adds exactly one
    ERROR, whatever its statuses and whatever the arity of its handler: the
    loop goes on to the next entry without the status check and without the
    signature check. *)
Theorem unknown_event_type_one_error cfg cls event handler rest msgs :
  getattr cls (Event.method event) = inr handler ->
  Event.event_type event ∉ map type (get_event_definitions cfg) ->
  let definitions := definitions_of (get_event_definitions cfg) in
  let item :=
    Item ERROR ("The event type *" +:+ Event.event_type event +:+ "* is not valid.")
      (get_code_context (OfMember cls (Event.method event)) "@event") in
  event_step cls definitions msgs event = inr (msgs ++ [item])
  /\ events_loop cls definitions (event :: rest) msgs
     = events_loop cls definitions rest (msgs ++ [item]).
Proof.
  intros Hhandler Hunknown definitions item.
  assert (Hstep : event_step cls definitions msgs event = inr (msgs ++ [item])).
  { unfold event_step. rewrite Hhandler, bind_ret.
    apply definitions_of_None in Hunknown. fold definitions in Hunknown.
    rewrite Hunknown. reflexivity. }
  split; [exact Hstep|]. rewrite events_loop_cons, Hstep. reflexivity.
Qed.

(** *** The status check and the signature check *)

Lemma invalid_statuses_declared definition declared :
  invalid_statuses_of (object_statuses definition) (Some declared)
  = inr (disallowed definition declared).
Proof.
  unfold invalid_statuses_of, disallowed, restricts.
  destruct (object_statuses definition) as [[|s l]|]; reflexivity.
Qed.

Lemma invalid_statuses_unrestricted definition declared :
  restricts definition = false ->
  invalid_statuses_of (object_statuses definition) declared
  = inr (set_order (default [] declared) []).
Proof.
  unfold invalid_statuses_of, restricts.
  destruct (object_statuses definition) as [[|s l]|]; [reflexivity|discriminate|reflexivity].
Qed.

(** One turn of the loop over the events, for an entry of a recognized type
    whose statuses the status check can read. *)
Lemma event_step_checked cls definitions msgs event definition parameters source invalid :
  getattr cls (Event.method event) = inr (Function parameters source) ->
  definitions !! Event.event_type event = Some definition ->
  invalid_statuses_of (object_statuses definition) (Event.statuses event) = inr invalid ->
  event_step cls definitions msgs event
  = inr (msgs
         ++ status_errors_of cls event invalid
         ++ (if (List.length parameters =? 2)%nat then []
             else [event_signature_error cls event parameters])).
Proof.
  intros Hhandler Hdefinition Hinvalid. unfold event_step.
  rewrite Hhandler, bind_ret, Hdefinition, Hinvalid, bind_ret.
  cbn [signature mret py_ret ret mbind py_bind bind].
  destruct invalid; destruct (List.length parameters =? 2)%nat;
    cbn [status_errors_of]; rewrite ?app_nil_r, <- ?app_assoc; reflexivity.
Qed.

(** The order of a set is empty exactly when the set is. *)
Lemma set_order_empty members excluded :
  set_order members excluded = []
  <-> forall status, status ∈ members -> status ∈ excluded.
Proof.
  split.
  - intros Hempty status Hin.
    destruct (decide (status ∈ excluded)) as [|Hout]; [assumption|].
    exfalso. apply (not_elem_of_nil status). rewrite <- Hempty.
    apply set_order_elem_of. split; assumption.
  - intros Hall. destruct (set_order members excluded) as [|status l] eqn:Horder;
      [reflexivity|].
    exfalso. assert (Hin : status ∈ set_order members excluded)
      by (rewrite Horder; left).
    apply set_order_elem_of in Hin as [Hin Hout]. apply Hout, Hall, Hin.
Qed.

Lemma disallowed_empty definition declared :
  disallowed definition declared = []
  <-> if restricts definition
      then forall status, status ∈ declared ->
             status ∈ default [] (object_statuses definition)
      else declared = [].
Proof.
  unfold disallowed. destruct (restricts definition).
  - apply set_order_empty.
  - rewrite set_order_empty. split.
    + destruct declared as [|status declared]; [reflexivity|]. intros Hall.
      exfalso. apply (not_elem_of_nil status), Hall. left.
    + intros -> status Habs. exfalso. apply (not_elem_of_nil status), Habs.
Qed.

Lemma status_errors_of_nil cls event invalid :
  status_errors_of cls event invalid = [] <-> invalid = [].
Proof. destruct invalid; split; (reflexivity || discriminate). Qed.

(** X1.  The status check and the signature check on an event entry of a
    recognized type that declares its statuses: zero, one or two ERRORs,
    one when a declared status is not allowed (any status at all when the
    type allows none), one when the handler does not take two parameters.
    The status ERROR joins the statuses that are not allowed in the order
    Python goes through the set of them, which is left open. *)
Theorem event_checks_declared cfg cls event definition declared parameters source msgs :
  getattr cls (Event.method event) = inr (Function parameters source) ->
  definitions_of (get_event_definitions cfg) !! Event.event_type event = Some definition ->
  Event.statuses event = Some declared ->
  exists status_errors signature_errors,
    event_step cls (definitions_of (get_event_definitions cfg)) msgs event
    = inr (msgs ++ status_errors ++ signature_errors)
    /\ status_errors
       = match disallowed definition declared with
         | [] => []
         | _ :: _ => [status_error cls event (disallowed definition declared)]
         end
    /\ signature_errors
       = (if (List.length parameters =? 2)%nat then []
          else [event_signature_error cls event parameters])
    /\ (status_errors = []
        <-> if restricts definition
            then forall status, status ∈ declared ->
                   status ∈ default [] (object_statuses definition)
            else declared = [])
    /\ (signature_errors = [] <-> List.length parameters = 2%nat).
Proof.
  intros Hhandler Hdefinition Hdeclared.
  eexists _, _. split; [|split; [reflexivity|split; [reflexivity|split]]].
  - apply (event_step_checked _ _ _ _ _ _ _ _ Hhandler Hdefinition).
    rewrite Hdeclared. apply invalid_statuses_declared.
  - rewrite <- disallowed_empty. apply status_errors_of_nil.
  - destruct (Nat.eqb_spec (List.length parameters) 2); split; try done.
Qed.

(** X2.  The signature check on a schedulable entry: one ERROR with the
    reconstructed signature when the method does not take two parameters,
    nothing otherwise. *)
Theorem schedulable_step_checked cls msgs schedulable parameters source :
  getattr cls (Schedulable.method schedulable) = inr (Function parameters source) ->
  schedulable_step cls msgs schedulable
  = inr (msgs ++ (if (List.length parameters =? 2)%nat then []
                  else [schedulable_signature_error cls schedulable parameters])).
Proof.
  intros Hhandler. unfold schedulable_step. rewrite Hhandler, bind_ret.
  cbn [signature mret py_ret ret mbind py_bind bind].
  destruct (List.length parameters =? 2)%nat; rewrite ?app_nil_r; reflexivity.
Qed.

(** X5.  Without a class of type [extension] both validators pass the
    context through and report nothing. *)
Theorem no_extension_class_pass_through cfg ctx classes :
  extension_classes ctx = Some classes ->
  classes_get "extension" classes = None ->
  validate_events cfg ctx = inr (Result [] false (Some ctx))
  /\ validate_schedulables ctx = inr (Result [] false (Some ctx)).
Proof.
  intros Hctx Hnone. unfold validate_events, validate_schedulables.
  rewrite Hctx. cbn [lookup_key mret py_ret ret mbind py_bind bind].
  rewrite Hnone. split; reflexivity.
Qed.

(** *** Statuses that are not declared *)

Lemma invalid_statuses_undeclared definition :
  restricts definition = true ->
  invalid_statuses_of (object_statuses definition) None = inl TypeError.
Proof.
  unfold invalid_statuses_of, restricts.
  destruct (object_statuses definition) as [[|s l]|]; [discriminate|reflexivity|discriminate].
Qed.

Lemma event_step_undeclared cls definitions msgs event handler definition :
  getattr cls (Event.method event) = inr handler ->
  definitions !! Event.event_type event = Some definition ->
  restricts definition = true ->
  Event.statuses event = None ->
  event_step cls definitions msgs event = inl TypeError.
Proof.
  intros Hhandler Hdefinition Hrestricts Hnone. unfold event_step.
  rewrite Hhandler, bind_ret, Hdefinition, Hnone, (invalid_statuses_undeclared _ Hrestricts).
  reflexivity.
Qed.

(** The other branch of the status check takes an entry without statuses:
    for an event type that does not restrict them, only the signature check
    can report. *)
Lemma event_step_undeclared_unrestricted cls definitions msgs event definition
    parameters source :
  getattr cls (Event.method event) = inr (Function parameters source) ->
  definitions !! Event.event_type event = Some definition ->
  restricts definition = false ->
  Event.statuses event = None ->
  event_step cls definitions msgs event
  = inr (msgs ++ (if (List.length parameters =? 2)%nat then []
                  else [event_signature_error cls event parameters])).
Proof.
  intros Hhandler Hdefinition Hfree Hnone.
  rewrite (event_step_checked _ _ _ _ _ _ _ [] Hhandler Hdefinition); [reflexivity|].
  rewrite Hnone, (invalid_statuses_unrestricted _ None Hfree). do 2 f_equal.
  apply set_order_empty. intros status Habs. exfalso. apply (not_elem_of_nil status), Habs.
Qed.

(** C3, where the code departs from it.  An entry of a recognized event
    type that declares no statuses has no status outside the allowed ones,
    and with a handler of two parameters the claim expects zero messages;
    when the event type restricts the statuses, [set(event['statuses'])]
    raises a TypeError instead and the validator returns nothing. *)
Theorem undeclared_statuses_raise cfg ctx classes cls event rest handler definition :
  extension_classes ctx = Some classes ->
  classes_get "extension" classes = Some cls ->
  get_events cls = event :: rest ->
  getattr cls (Event.method event) = inr handler ->
  definitions_of (get_event_definitions cfg) !! Event.event_type event = Some definition ->
  restricts definition = true ->
  Event.statuses event = None ->
  validate_events cfg ctx = inl TypeError.
Proof.
  intros Hctx Hcls Hevents Hhandler Hdefinition Hrestricts Hnone.
  unfold validate_events. rewrite Hctx. cbn [lookup_key mret py_ret ret mbind py_bind bind].
  rewrite Hcls, Hevents, events_loop_cons.
  rewrite (event_step_undeclared _ _ _ _ _ _ Hhandler Hdefinition Hrestricts Hnone).
  reflexivity.
Qed.

(** C4, where the code departs from it.  For an entry of a recognized event
    type, the signature check is reached only after the status check: when
    the entry declares no statuses and the type restricts them, the turn of
    the loop raises, and a handler of a wrong arity gets no ERROR. *)
Theorem wrong_arity_unreported cfg cls event parameters source definition msgs :
  getattr cls (Event.method event) = inr (Function parameters source) ->
  List.length parameters <> 2%nat ->
  definitions_of (get_event_definitions cfg) !! Event.event_type event = Some definition ->
  restricts definition = true ->
  Event.statuses event = None ->
  forall rest,
    events_loop cls (definitions_of (get_event_definitions cfg)) (event :: rest) msgs
    = inl TypeError.
Proof.
  intros Hhandler _ Hdefinition Hrestricts Hnone rest.
  rewrite events_loop_cons.
  rewrite (event_step_undeclared _ _ _ _ _ _ Hhandler Hdefinition Hrestricts Hnone).
  reflexivity.
Qed.

End Events.

(** *** The claims about events on the sample project *)

Lemma unknown_event_type_one_error_witness :
  let event := Event.Make "process_purchase" "not_a_type" (Some ["bogus"]) in
  let cls := events_class ["self"; "request"; "extra"] event in
  event_step cls (definitions_of purchase_schema) [] event
  = inr [Item ERROR "The event type *not_a_type* is not valid." (Location None None None)]
  /\ events_loop cls (definitions_of purchase_schema) [event; event] []
     = events_loop cls (definitions_of purchase_schema) [event]
         [Item ERROR "The event type *not_a_type* is not valid." (Location None None None)].
Proof.
  intros event cls.
  apply (unknown_event_type_one_error (H := sample_externals) purchase_schema cls event
           (Function ["self"; "request"; "extra"] "def process(self, request):")
           [event] []).
  - reflexivity.
  - intros Hin. apply list_elem_of_In in Hin. simpl in Hin.
    destruct Hin as [Heq|[]]. discriminate Heq.
Defined.

Lemma undeclared_statuses_raise_witness :
  validate_events purchase_schema
    (extension_context (events_class ["self"; "request"] (purchase_event None)))
  = inl TypeError.
Proof.
  apply (undeclared_statuses_raise (H := sample_externals) purchase_schema _
           [("extension", events_class ["self"; "request"] (purchase_event None))]
           (events_class ["self"; "request"] (purchase_event None))
           (purchase_event None) []
           (Function ["self"; "request"] "def process(self, request):")
           (EventDefinition "asset_purchase_request_processing" (Some ["pending"; "inquiring"])));
    reflexivity.
Defined.

Lemma wrong_arity_unreported_witness :
  events_loop (events_class ["self"; "request"; "extra"] (purchase_event None))
    (definitions_of purchase_schema) [purchase_event None] []
  = inl TypeError.
Proof.
  apply (wrong_arity_unreported (H := sample_externals) purchase_schema
           (events_class ["self"; "request"; "extra"] (purchase_event None))
           (purchase_event None) ["self"; "request"; "extra"] "def process(self, request):"
           (EventDefinition "asset_purchase_request_processing" (Some ["pending"; "inquiring"]))
           []); try reflexivity.
  simpl. lia.
Defined.

(** ** [validate_docker_compose_yml] *)

Section Compose.
Context `{Externals}.

Lemma key_eqb_sym a b : key_eqb a b = key_eqb b a.
Proof.
  destruct a, b; simpl; try reflexivity.
  - destruct b, b0; reflexivity.
  - apply Z.eqb_sym.
  - apply String.eqb_sym.
Qed.

Lemma key_eqb_refl a : hashable a = true -> key_eqb a a = true.
Proof.
  destruct a; simpl; try discriminate; intros _.
  - reflexivity.
  - destruct b; reflexivity.
  - apply Z.eqb_refl.
  - apply String.eqb_refl.
Qed.

Lemma items_get_None k d :
  items_get k d = None -> forall kv, In kv d -> key_eqb k (fst kv) = false.
Proof.
  induction d as [|[k' v'] d IH]; simpl; [tauto|].
  destruct (key_eqb k k') eqn:Hk; [discriminate|].
  intros Hd kv [<-|Hin]; [exact Hk | apply IH; assumption].
Qed.

(** Looking a service up by its own key gives its own declaration. *)
Lemma items_get_own pre k v suf :
  unique_keys (pre ++ (k, v) :: suf) -> hashable k = true ->
  items_get k (pre ++ (k, v) :: suf) = Some v.
Proof.
  intros Hunique Hk. induction pre as [|[k0 v0] pre IH]; simpl in *.
  - rewrite key_eqb_refl by assumption. reflexivity.
  - destruct Hunique as [Hfresh Hunique].
    assert (Hne : key_eqb k k0 = false).
    { rewrite key_eqb_sym. apply (items_get_None _ _ Hfresh (k, v)).
      apply in_app_iff. right. left. reflexivity. }
    rewrite Hne. apply IH, Hunique.
Qed.

Lemma services_loop_cons compose_file runner_image data service rest msgs :
  services_loop compose_file runner_image data (service :: rest) msgs
  = (declared ← getitem data (VStr "services");
     entry ← getitem declared service;
     image ← get_method entry "image";
     services_loop compose_file runner_image data rest
       (if image_differs image runner_image then
          msgs ++ [Item ERROR (invalid_image_message service runner_image image)
                     (in_file compose_file)]
        else msgs)).
Proof. reflexivity. Qed.

(** The loop over the services that remain, [pre] being those it has done. *)
Lemma services_loop_errors compose_file runner_image data services :
  getitem data (VStr "services") = inr (VDict services) ->
  unique_keys services -> Forall service_entry services ->
  forall pre suf msgs, services = pre ++ suf ->
    services_loop compose_file runner_image data (map fst suf) msgs
    = inr (msgs ++ image_errors compose_file runner_image suf).
Proof.
  intros Hdata Hunique Hentries pre suf. revert pre.
  induction suf as [|[k v] suf IH]; intros pre msgs Hsplit.
  - simpl. rewrite app_nil_r. reflexivity.
  - cbn [map fst]. rewrite services_loop_cons, Hdata, bind_ret.
    assert (Hentry : service_entry (k, v)).
    { rewrite Forall_forall in Hentries. apply Hentries. rewrite Hsplit.
      apply list_elem_of_In, in_app_iff. right. left. reflexivity. }
    destruct Hentry as [Hk [entry Hv]]. simpl in Hk, Hv. subst v.
    assert (Hown : items_get k services = Some (VDict entry)).
    { clear IH. subst services. apply items_get_own; assumption. }
    unfold getitem at 1. rewrite Hk, Hown, bind_ret.
    cbn [get_method mret py_ret ret mbind py_bind bind].
    rewrite (IH (pre ++ [(k, VDict entry)])) by (rewrite <- app_assoc; exact Hsplit).
    unfold image_errors. cbn [flat_map fst snd image_of].
    destruct (image_differs _ _); rewrite <- ?app_assoc; reflexivity.
Qed.

(** No service is reported when the image of every service is the runner
    image. *)
Lemma image_errors_nil compose_file runner_image services :
  Forall (fun kv => image_of (snd kv) = Some (VStr runner_image)) services ->
  image_errors compose_file runner_image services = [].
Proof.
  induction 1 as [|kv services Hmatch _ IH]; [reflexivity|].
  unfold image_errors in *. cbn [flat_map]. rewrite Hmatch, IH.
  unfold image_differs. rewrite String.eqb_refl. reflexivity.
Qed.

(** The ERROR about a service names the image that was expected and the one
    that was found. *)
Lemma invalid_image_message_names service runner_image actual :
  invalid_image_message service runner_image (Some (VStr actual))
  = "Invalid image for service *" +:+ str service +:+ "*: expected *" +:+ runner_image
    +:+ "* got *" +:+ actual +:+ "*.".
Proof. reflexivity. Qed.

(** C8.  When the composition file exists and holds valid YAML whose value
    is not a mapping with a [services] key, the validator returns no result:
    the lookup of [services] raises (a TypeError on a value that is no
    mapping, an empty file for one; a KeyError on a mapping without the
    key), as the lookup of a missing [runner_version] would before it. *)
Theorem compose_without_services_raises fs project_dir ctx data :
  isfile fs (path_join project_dir ["docker-compose.yml"]) = true ->
  safe_load fs (path_join project_dir ["docker-compose.yml"]) = Some data ->
  (forall d, data = VDict d -> items_get (VStr "services") d = None) ->
  exists e,
    validate_docker_compose_yml fs project_dir ctx = inl e
    /\ (runner_version ctx <> None ->
        e = match data with VDict _ => KeyError | _ => TypeError end).
Proof.
  intros Hfile Hload Hnone. unfold validate_docker_compose_yml.
  rewrite Hfile, Hload. cbn [negb].
  destruct (runner_version ctx) as [version|]; cbn [lookup_key mret py_ret ret mbind py_bind bind raise].
  - destruct data as [| | | | |d]; try (eexists; split; [reflexivity|]; reflexivity).
    cbn [getitem hashable]. rewrite (Hnone d eq_refl).
    eexists; split; reflexivity.
  - eexists; split; [reflexivity|]. intros Hne. contradiction.
Qed.

(** C6, and where the code departs from it.  Without a composition file the
    validator returns one WARNING; with a file that is not valid YAML, one
    ERROR; with a mapping whose [services] are mappings, one ERROR for each
    service whose image differs from the runner image, naming both; none of
    these results halts the chain.  But it does not return a result in every
    case: on an empty file it raises a TypeError. *)
Theorem compose_validator_cases fs project_dir ctx :
  let compose_file := path_join project_dir ["docker-compose.yml"] in
  (isfile fs compose_file = false ->
   validate_docker_compose_yml fs project_dir ctx
   = inr (Result
            [Item WARNING
               ("The directory *" +:+ project_dir
                +:+ "* does not look like an extension project "
                +:+ "directory, the file *docker-compose.yml* is not present.")
               (in_file compose_file)]
            false None))
  /\ (isfile fs compose_file = true -> safe_load fs compose_file = None ->
      validate_docker_compose_yml fs project_dir ctx
      = inr (Result
               [Item ERROR "The file *docker-compose.yml* is not valid." (in_file compose_file)]
               false None))
  /\ (forall data services version,
        isfile fs compose_file = true -> safe_load fs compose_file = Some data ->
        runner_version ctx = Some version ->
        getitem data (VStr "services") = inr (VDict services) ->
        unique_keys services -> Forall service_entry services ->
        validate_docker_compose_yml fs project_dir ctx
        = inr (Result
                 (image_errors compose_file
                    ("cloudblueconnect/connect-extension-runner:" +:+ version) services)
                 false None))
  /\ (forall version,
        isfile fs compose_file = true -> safe_load fs compose_file = Some VNone ->
        runner_version ctx = Some version ->
        validate_docker_compose_yml fs project_dir ctx = inl TypeError).
Proof.
  intros compose_file. unfold validate_docker_compose_yml. fold compose_file.
  repeat split.
  - intros ->. reflexivity.
  - intros -> ->. reflexivity.
  - intros data services version -> -> -> Hdata Hunique Hentries.
    cbn [negb lookup_key mret py_ret ret mbind py_bind bind].
    rewrite Hdata. cbn [iter mret py_ret ret mbind py_bind bind].
    rewrite (services_loop_errors _ _ _ _ Hdata Hunique Hentries [] services []) by reflexivity.
    reflexivity.
  - intros version -> -> ->. reflexivity.
Qed.

End Compose.

(** ** [validate_extension_class] *)

Section ExtensionClass.
Context `{Externals}.

Lemma append_nonempty (a b : string) :
  String.eqb b EmptyString = false -> String.eqb (a +:+ b) EmptyString = false.
Proof. destruct a; [intros Hb; exact Hb | reflexivity]. Qed.

(** The name of the descriptor file is never empty, so the loop takes the
    class it keeps only once. *)
Lemma extension_json_set cls : unset (Some (extension_json_of cls)) = false.
Proof.
  unfold unset, extension_json_of, path_join. cbn [fold_left]. unfold join_step.
  replace (startswith (String sep EmptyString) "extension.json") with false by reflexivity.
  destruct (_ || _); repeat apply append_nonempty; reflexivity.
Qed.

(** Once a class is kept, the rest of the loop only checks the bases. *)
Lemma class_loop_kept classes cls json :
  unset (Some json) = false ->
  class_loop classes (Some cls) (Some json)
  = match List.find (fun c => wrong_base (fst c) (snd c)) classes with
    | Some c =>
        inl (Item ERROR
               ("The extension class *" +:+ class_name (snd c)
                +:+ "* is not a subclass of *" +:+ class_mapping (fst c) +:+ "*.")
               (in_file (getsourcefile (snd c))))
    | None => inr (Some cls, Some json)
    end.
Proof.
  intros Hset. induction classes as [|[extension_type c] classes IH]; [reflexivity|].
  cbn [class_loop List.find fst snd].
  destruct (wrong_base extension_type c); [reflexivity|]. rewrite Hset. exact IH.
Qed.

(** The loop does not tell classes apart by their descriptors. *)
Lemma class_loop_kept_with_descriptors outcomes classes cls json :
  unset (Some json) = false ->
  class_loop (with_descriptors outcomes classes) (Some cls) (Some json)
  = class_loop classes (Some cls) (Some json).
Proof.
  intros Hset. unfold with_descriptors. revert outcomes.
  induction classes as [|[extension_type c] classes IH]; intros outcomes; [reflexivity|].
  cbn [imap class_loop fst snd].
  change (wrong_base extension_type (with_descriptor (outcomes 0%nat) c))
    with (wrong_base extension_type c).
  destruct (wrong_base extension_type c); [reflexivity|]. rewrite Hset. apply IH.
Qed.

(** The result of the validator when every class has the base its type asks
    for: it is computed from the first class alone. *)
Lemma validate_extension_class_first ctx extension_type cls rest :
  extension_classes ctx = Some ((extension_type, cls) :: rest) ->
  List.find (fun c => wrong_base (fst c) (snd c)) ((extension_type, cls) :: rest) = None ->
  validate_extension_class ctx
  = match get_descriptor cls with
    | None =>
        inr (Result
               [Item ERROR "The extension descriptor *extension.json* cannot be loaded."
                  (in_file (extension_json_of cls))]
               true None)
    | Some descriptor_ =>
        messages_ ← descriptor_loop ["variables"; "capabilities"; "schedulables"]
                      descriptor_ (Some (extension_json_of cls)) [];
        mret (Result messages_ false (Some (Context None (Some descriptor_) None)))
    end.
Proof.
  intros Hctx Hfind. unfold validate_extension_class. rewrite Hctx.
  cbn [lookup_key mret py_ret ret mbind py_bind bind class_loop].
  cbn [List.find fst snd] in Hfind.
  destruct (wrong_base extension_type cls); [discriminate|].
  cbn [unset]. fold (extension_json_of cls).
  rewrite class_loop_kept by apply extension_json_set. rewrite Hfind.
  destruct (get_descriptor cls); reflexivity.
Qed.

Lemma contains_dict d k : contains (VDict d) k = inr (has_key k d).
Proof. reflexivity. Qed.

(** The validator on classes of the right bases, the first of which has a
    descriptor that is a mapping. *)
Lemma validate_extension_class_dict ctx extension_type cls rest d :
  extension_classes ctx = Some ((extension_type, cls) :: rest) ->
  first_wrong_base ((extension_type, cls) :: rest) = None ->
  get_descriptor cls = Some (VDict d) ->
  validate_extension_class ctx
  = inr (Result (descriptor_warnings (extension_json_of cls) d) false
           (Some (Context None (Some (VDict d)) None))).
Proof.
  intros Hctx Hbases Hdescriptor.
  rewrite (validate_extension_class_first _ _ _ _ Hctx Hbases), Hdescriptor.
  unfold descriptor_warnings. cbn [descriptor_loop flat_map]. rewrite !contains_dict.
  cbn [mret py_ret ret mbind py_bind bind].
  destruct (has_key "variables" d), (has_key "capabilities" d), (has_key "schedulables" d);
    reflexivity.
Qed.

(** C9.  [validate_extension_class] loads the descriptor of the first class
    of [context['extension_classes']] only.  Whatever [get_descriptor()]
    would return on the other classes, the result is the same; a result
    that does not halt has the WARNINGs of the descriptor of the first
    class, which is also the [descriptor] it patches into the context; and
    when every class has the base its type asks for, the validator does
    return such a result: it halts with the ERROR about the descriptor file
    beside the first class when that class has no descriptor to load, and
    when the descriptor of the first class is a mapping it returns the
    WARNINGs about the keys of that mapping and patches that mapping into
    the context. *)
Theorem descriptor_of_first_class_only ctx extension_type cls rest :
  extension_classes ctx = Some ((extension_type, cls) :: rest) ->
  (forall outcomes,
     validate_extension_class
       (with_classes ((extension_type, cls) :: with_descriptors outcomes rest) ctx)
     = validate_extension_class ctx)
  /\ (forall result,
        validate_extension_class ctx = inr result -> must_halt result = false ->
        exists descriptor_,
          get_descriptor cls = Some descriptor_
          /\ context_patch result = Some (Context None (Some descriptor_) None)
          /\ descriptor_loop ["variables"; "capabilities"; "schedulables"]
               descriptor_ (Some (extension_json_of cls)) []
             = inr (messages result))
  /\ (first_wrong_base ((extension_type, cls) :: rest) = None ->
      (get_descriptor cls = None ->
       validate_extension_class ctx
       = inr (Result
                [Item ERROR "The extension descriptor *extension.json* cannot be loaded."
                   (in_file (extension_json_of cls))]
                true None))
      /\ (forall d,
            get_descriptor cls = Some (VDict d) ->
            validate_extension_class ctx
            = inr (Result (descriptor_warnings (extension_json_of cls) d) false
                     (Some (Context None (Some (VDict d)) None))))).
Proof.
  intros Hctx. split; [|split].
  - intros outcomes. unfold validate_extension_class, with_classes.
    cbn [extension_classes]. rewrite Hctx.
    cbn [lookup_key mret py_ret ret mbind py_bind bind class_loop].
    destruct (wrong_base extension_type cls); [reflexivity|].
    cbn [unset]. fold (extension_json_of cls).
    rewrite class_loop_kept_with_descriptors by apply extension_json_set.
    reflexivity.
  - intros result Hresult Hgo.
    destruct (List.find (fun c => wrong_base (fst c) (snd c)) ((extension_type, cls) :: rest))
      as [c|] eqn:Hfind.
    + exfalso. revert Hresult. unfold validate_extension_class. rewrite Hctx.
      cbn [lookup_key mret py_ret ret mbind py_bind bind class_loop].
      cbn [List.find fst snd] in Hfind.
      destruct (wrong_base extension_type cls).
      * intros [= <-]. discriminate Hgo.
      * cbn [unset]. fold (extension_json_of cls).
        rewrite class_loop_kept by apply extension_json_set. rewrite Hfind.
        intros [= <-]. discriminate Hgo.
    + rewrite (validate_extension_class_first _ _ _ _ Hctx Hfind) in Hresult.
      destruct (get_descriptor cls) as [descriptor_|].
      * exists descriptor_. split; [reflexivity|].
        destruct (descriptor_loop _ _ _ _) as [e|msgs]; [discriminate|].
        injection Hresult as <-. split; reflexivity.
      * injection Hresult as <-. discriminate Hgo.
  - intros Hbases. split.
    + intros Hnone. rewrite (validate_extension_class_first _ _ _ _ Hctx Hbases), Hnone.
      reflexivity.
    + intros d Hdescriptor.
      apply (validate_extension_class_dict _ _ _ _ _ Hctx Hbases Hdescriptor).
Qed.

End ExtensionClass.

(** ** [validate_webapp_extension] *)

Section WebApp.
Context `{Externals}.

Lemma ui_loop_cons fs file json item rest missed :
  ui_loop fs file json (item :: rest) missed
  = match ui_visit fs file json item with
    | inl e => inl e
    | inr (NoUrl it) => inr (inl it)
    | inr (Visited m children) =>
        ui_loop fs file json (rev children ++ rest) (missed ++ option_list m)
    end.
Proof.
  simp ui_loop.
  destruct (inspect (ui_visit fs file json item)) as [[e|[it|m children]] Heq];
    simp ui_loop; rewrite Heq; reflexivity.
Qed.

Lemma walk_unfold label url children :
  walk (UiNode label url children)
  = UiNode label url children :: flat_map walk (rev children).
Proof.
  cbn [walk]. f_equal. induction children as [|c cs IH]; [reflexivity|].
  cbn [rev]. rewrite flat_map_app, IH. cbn [flat_map]. rewrite app_nil_r. reflexivity.
Qed.

Lemma node_count_unfold label url children :
  node_count (UiNode label url children) = S (stack_count children).
Proof.
  cbn [node_count]. f_equal. unfold stack_count.
  induction children as [|c cs IH]; [reflexivity|]. cbn [map list_sum]. rewrite IH. reflexivity.
Qed.

Lemma stack_count_cons n stack :
  stack_count (n :: stack) = (node_count n + stack_count stack)%nat.
Proof. reflexivity. Qed.

Lemma stack_count_rev_app children stack :
  stack_count (rev children ++ stack) = (stack_count children + stack_count stack)%nat.
Proof.
  unfold stack_count. rewrite map_app, list_sum_app, map_rev. f_equal.
  induction (map node_count children) as [|n l IH]; [reflexivity|].
  cbn [rev list_sum]. rewrite list_sum_app, IH. simpl. lia.
Qed.

Lemma all_represent_app nodes1 l1 nodes2 l2 :
  all_represent nodes1 l1 -> all_represent nodes2 l2 ->
  all_represent (nodes1 ++ nodes2) (l1 ++ l2).
Proof.
  induction 1 as [|n v nodes l Hn _ IH]; intros H2; [exact H2|].
  cbn [app]. constructor; [exact Hn | apply IH, H2].
Qed.

Lemma all_represent_rev nodes l :
  all_represent nodes l -> all_represent (rev nodes) (rev l).
Proof.
  induction 1 as [|n v nodes l Hn _ IH]; [constructor|].
  cbn [rev]. apply all_represent_app; [exact IH|]. repeat constructor. exact Hn.
Qed.

(** One visit of an item of the described shape. *)
Lemma ui_visit_represented fs cls label url children d :
  represents (UiNode label url children) (VDict d) ->
  exists kids,
    all_represent children kids
    /\ ui_visit fs (getsourcefile cls) (extension_json_of cls) (VDict d)
       = inr (match url with
              | None => NoUrl (no_url_error cls (UiNode label url children))
              | Some _ => Visited (missing fs cls (UiNode label url children)) kids
              end).
Proof.
  intros Hrep. inversion Hrep as [? ? ? ? Hlabel Hurl Hchildren]; subst.
  unfold ui_visit. cbn [getitem hashable]. rewrite Hurl.
  destruct url as [url|]; cbn [fmap option_fmap option_map].
  - cbn [get_method mret py_ret ret mbind py_bind bind].
    inversion Hchildren as [Hnil Hnone|cs l Hall Hcs Hsome]; subst.
    + exists []. split; [constructor|]. reflexivity.
    + exists l. split; [exact Hall|]. reflexivity.
  - inversion Hchildren as [Hnil Hnone|cs l Hall Hcs Hsome]; subst.
    + exists []. split; [constructor|]. reflexivity.
    + exists l. split; [exact Hall|]. reflexivity.
Qed.

(** The loop on a stack of items of the described shape visits them in the
    order [walk] gives. *)
Lemma ui_loop_represented fs cls n :
  forall stack values missed,
    (stack_count stack <= n)%nat -> all_represent stack values ->
    ui_loop fs (getsourcefile cls) (extension_json_of cls) values missed
    = inr (visit_all fs cls (flat_map walk stack) missed).
Proof.
  induction n as [|n IH]; intros stack values missed Hcount Hall.
  - destruct Hall as [|node v nodes l Hnode Hrest].
    + simp ui_loop. reflexivity.
    + destruct node as [label url children].
      rewrite stack_count_cons, node_count_unfold in Hcount. lia.
  - destruct Hall as [|node v nodes l Hnode Hrest].
    + simp ui_loop. reflexivity.
    + destruct node as [label url children].
      assert (exists d, v = VDict d) as [d ->] by (inversion Hnode; eauto).
      destruct (ui_visit_represented fs cls _ _ _ _ Hnode) as (kids & Hkids & Hvisit).
      rewrite ui_loop_cons, Hvisit.
      cbn [flat_map]. rewrite walk_unfold. cbn [app visit_all url_of].
      destruct url as [url|]; [|reflexivity].
      rewrite (IH (rev children ++ nodes)).
      * rewrite flat_map_app. reflexivity.
      * rewrite stack_count_rev_app.
        rewrite stack_count_cons, node_count_unfold in Hcount. lia.
      * apply all_represent_app; [apply all_represent_rev, Hkids | exact Hrest].
Qed.

(** X6.  A web application class whose source does not start with
    [@web_app(router)], or none of whose functions starts with [@router.],
    gets one ERROR, with which the validator halts. *)
Theorem webapp_wiring_checked fs ctx classes cls :
  extension_classes ctx = Some classes ->
  classes_get "webapp" classes = Some cls ->
  (startswith "@web_app(router)" (strip (getsource cls)) = false ->
   validate_webapp_extension fs ctx
   = inr (Result
            [Item ERROR "The Web app extension class must be wrapped in *@web_app(router)*."
               (in_file (getsourcefile cls))]
            true None))
  /\ (startswith "@web_app(router)" (strip (getsource cls)) = true ->
      existsb is_router_function (getmembers cls) = false ->
      exists text,
        validate_webapp_extension fs ctx
        = inr (Result [Item ERROR text (in_file (getsourcefile cls))] true None)).
Proof.
  intros Hctx Hcls. unfold validate_webapp_extension. rewrite Hctx.
  cbn [lookup_key mret py_ret ret mbind py_bind bind]. rewrite Hcls. split.
  - intros ->. reflexivity.
  - intros -> ->. eexists. reflexivity.
Qed.

Lemma visit_all_no_url fs cls order n :
  List.find without_url order = Some n ->
  forall missed, visit_all fs cls order missed = inl (no_url_error cls n).
Proof.
  induction order as [|m order IH]; [discriminate|].
  cbn [List.find visit_all]. unfold without_url at 1.
  destruct (url_of m) as [url|] eqn:Hurl.
  - intros Hfind missed. apply IH, Hfind.
  - intros [= <-] missed. reflexivity.
Qed.

Lemma visit_all_urls fs cls order :
  List.find without_url order = None ->
  forall missed,
    visit_all fs cls order missed = inr (missed ++ omap (missing fs cls) order).
Proof.
  induction order as [|m order IH]; intros Hfind missed.
  - cbn [visit_all omap list_omap]. rewrite app_nil_r. reflexivity.
  - cbn [List.find] in Hfind. cbn [visit_all omap list_omap].
    unfold without_url in Hfind at 1.
    destruct (url_of m) as [url|] eqn:Hurl; [|discriminate].
    rewrite (IH Hfind).
    destruct (missing fs cls m); cbn [option_list];
      rewrite <- ?app_assoc, ?app_nil_r; reflexivity.
Qed.

Lemma validate_webapp_extension_ui fs ctx classes cls d sections nodes :
  extension_classes ctx = Some classes ->
  classes_get "webapp" classes = Some cls ->
  startswith "@web_app(router)" (strip (getsource cls)) = true ->
  existsb is_router_function (getmembers cls) = true ->
  descriptor ctx = Some (VDict d) ->
  items_get (VStr "ui") d = Some (VDict sections) ->
  all_represent nodes (map snd sections) ->
  validate_webapp_extension fs ctx
  = inr (ui_result fs ctx cls (flat_map walk (rev nodes))).
Proof.
  intros Hctx Hcls Hwrapped Hrouter Hdescriptor Hui Hnodes.
  unfold validate_webapp_extension. rewrite Hctx.
  cbn [lookup_key mret py_ret ret mbind py_bind bind].
  rewrite Hcls, Hwrapped, Hrouter, Hdescriptor.
  cbn [negb lookup_key contains getitem hashable values mret py_ret ret mbind py_bind bind].
  rewrite Hui. cbn [values mret py_ret ret mbind py_bind bind].
  fold (extension_json_of cls).
  rewrite (ui_loop_represented fs cls (stack_count (rev nodes)) (rev nodes))
    by (try apply all_represent_rev; auto).
  cbn [mret py_ret ret mbind py_bind bind]. unfold ui_result.
  destruct (List.find without_url (flat_map walk (rev nodes))) as [n|] eqn:Hfind.
  - rewrite (visit_all_no_url _ _ _ _ Hfind). reflexivity.
  - rewrite (visit_all_urls _ _ _ Hfind). cbn [app].
    destruct (omap (missing fs cls) (flat_map walk (rev nodes))); reflexivity.
Qed.

(** The class of a type among the loaded classes, when their descriptors
    are replaced. *)
Lemma classes_get_with_descriptors extension_type outcomes classes cls :
  classes_get extension_type classes = Some cls ->
  exists outcome,
    classes_get extension_type (with_descriptors outcomes classes)
    = Some (with_descriptor outcome cls).
Proof.
  unfold classes_get, with_descriptors. revert outcomes.
  induction classes as [|[t c] classes IH]; intros outcomes; [discriminate|].
  cbn [imap List.find fst snd]. destruct (String.eqb extension_type t).
  - intros [= <-]. exists (outcomes 0%nat). reflexivity.
  - apply (IH (outcomes ∘ S)).
Qed.

(** C7, as the code has it.  The [ui] section the validator walks is that of
    [context['descriptor']], whatever [get_descriptor()] returns on the
    loaded classes, the web application among them.  For a web application
    that is wrapped and has a route, and a [ui] section of the described
    shape in that descriptor: when an item has no [url], the validator
    returns one ERROR about the first such item it visits and halts; when
    every item has one, it looks for the file named by the last segment of
    each [url] under [static_root] beside the source of the class, and
    gathers the [url]s whose file is missing into one ERROR, with which it
    halts. *)
Theorem ui_section_checked fs ctx classes cls d sections nodes :
  extension_classes ctx = Some classes ->
  classes_get "webapp" classes = Some cls ->
  startswith "@web_app(router)" (strip (getsource cls)) = true ->
  existsb is_router_function (getmembers cls) = true ->
  descriptor ctx = Some (VDict d) ->
  items_get (VStr "ui") d = Some (VDict sections) ->
  all_represent nodes (map snd sections) ->
  let order := flat_map walk (rev nodes) in
  validate_webapp_extension fs ctx
  = inr (match List.find without_url order with
         | Some n => Result [no_url_error cls n] true None
         | None =>
             match omap (missing fs cls) order with
             | [] => Result [] false (Some ctx)
             | missed_files => Result [missing_files_error cls missed_files] true None
             end
         end)
  /\ forall outcomes,
       let loaded := with_classes (with_descriptors outcomes classes) ctx in
       validate_webapp_extension fs loaded = inr (ui_result fs loaded cls order).
Proof.
  intros Hctx Hcls Hwrapped Hrouter Hdescriptor Hui Hnodes order. split.
  - apply (validate_webapp_extension_ui _ _ _ _ _ _ _ Hctx Hcls Hwrapped Hrouter
             Hdescriptor Hui Hnodes).
  - intros outcomes loaded.
    destruct (classes_get_with_descriptors "webapp" outcomes classes cls Hcls)
      as [outcome Hloaded].
    apply (validate_webapp_extension_ui fs loaded (with_descriptors outcomes classes)
             (with_descriptor outcome cls) d sections nodes eq_refl Hloaded Hwrapped Hrouter
             Hdescriptor Hui Hnodes).
Qed.

End WebApp.

(** ** The merge order of the annotations *)

Section MergeOrder.
Import Decorators.

(** What [vars_dict[var['name']] == var] says of the name-keyed view. *)
Lemma same_entry_named l var name :
  same_entry l var = true ->
  entry_name var = Some name ->
  exists got,
    got ∈ l /\ vars_dict l name = Some got /\ py_eqb (of_dict got) (of_dict var) = true.
Proof.
  unfold same_entry. intros Hsame Hname. rewrite Hname in Hsame.
  destruct (vars_dict l name) as [got|] eqn:Hgot; [|discriminate].
  exists got. split; [|split; [reflexivity | exact Hsame]].
  unfold vars_dict in Hgot.
  apply last_Some_elem_of, list_elem_of_filter in Hgot as [_ Hin]. exact Hin.
Qed.

(** C1, as far as the tests of the repository fix it.  The accessor is not
    among the sources; whatever it is, when it passes the two tests that
    stack [anvil_key_variable] and [variables] on a class, the entry of the
    key variable's name that [get_variables()] has last, the one of its
    name-keyed view, is the one of the inner annotation in either order of
    writing: the entry of [variables] where [anvil_key_variable] is written
    above it, the entry of [anvil_key_variable] where [variables] is
    written above it. *)
Theorem inner_entry_in_tested_stacks (variables_under : list annotation -> list dict) vars :
  test_get_anvil_key_variable_with_variables_after variables_under vars = true ->
  test_get_anvil_key_variable_with_variables_before variables_under vars = true ->
  (forall var,
     var ∈ vars -> entry_name var = Some "ANVIL_API_KEY" ->
     exists got,
       got ∈ variables_under [anvil_key_variable "ANVIL_API_KEY"; variables vars]
       /\ vars_dict (variables_under [anvil_key_variable "ANVIL_API_KEY"; variables vars])
            "ANVIL_API_KEY"
          = Some got
       /\ py_eqb (of_dict got) (of_dict var) = true)
  /\ exists got,
       got ∈ variables_under [variables vars; anvil_key_variable "ANVIL_API_KEY"]
       /\ vars_dict (variables_under [variables vars; anvil_key_variable "ANVIL_API_KEY"])
            "ANVIL_API_KEY"
          = Some got
       /\ py_eqb (of_dict got) (of_dict (anvil_entry "ANVIL_API_KEY")) = true.
Proof.
  unfold test_get_anvil_key_variable_with_variables_after,
    test_get_anvil_key_variable_with_variables_before.
  intros Hafter Hbefore. split.
  - intros var Hvar Hname. apply same_entry_named; [|exact Hname].
    rewrite forallb_forall in Hafter. apply Hafter, list_elem_of_In, Hvar.
  - apply andb_true_iff in Hbefore as [_ Hkey].
    apply same_entry_named; [exact Hkey | reflexivity].
Qed.

(** Whatever the accessor is, when it passes the first test on its third
    parameter set, the entry it yields under the outer annotation
    [anvil_key_variable] and the inner annotation [variables] is not the
    one of the outer annotation. *)
Lemma test_after_excludes_outermost (variables_under : list annotation -> list dict) :
  forall vars, nth_error test_vars 2 = Some vars ->
  test_get_anvil_key_variable_with_variables_after variables_under vars = true ->
  vars_dict (variables_under [anvil_key_variable "ANVIL_API_KEY"; variables vars])
    "ANVIL_API_KEY"
  <> Some (anvil_entry "ANVIL_API_KEY").
Proof.
  intros vars [= <-]. unfold test_get_anvil_key_variable_with_variables_after.
  cbn [forallb]. intros Htest Houter.
  apply andb_true_iff in Htest as [_ Htest]. apply andb_true_iff in Htest as [Htest _].
  unfold same_entry in Htest.
  replace (entry_name [("name", VStr "ANVIL_API_KEY"); ("initial_value", VStr "test!");
                       ("secure", VBool false)])
    with (Some "ANVIL_API_KEY") in Htest by reflexivity.
  rewrite Houter in Htest. vm_compute in Htest. discriminate Htest.
Qed.

(** C1 as the spec states it, on the third parameter set of the tests: the
    outer annotation declares [{name: ANVIL_API_KEY, initial_value:
    changeme!, secure: true}], the inner one [{name: ANVIL_API_KEY,
    initial_value: test!, secure: false}].  The merge order of the spec
    yields the entry of the outer annotation, and the first test fails on
    it; no accessor that passes this test yields the entry of the outer
    annotation. *)
Lemma outermost_annotation_does_not_win :
  let inner_entry :=
    [("name", VStr "ANVIL_API_KEY"); ("initial_value", VStr "test!"); ("secure", VBool false)] in
  let stack := [anvil_key_variable "ANVIL_API_KEY"; variables [my_var; inner_entry]] in
  vars_dict (get_variables_outermost_first stack) "ANVIL_API_KEY"
  = Some (anvil_entry "ANVIL_API_KEY")
  /\ test_get_anvil_key_variable_with_variables_after get_variables_outermost_first
       [my_var; inner_entry]
     = false
  /\ ~ (exists variables_under,
          test_get_anvil_key_variable_with_variables_after variables_under
            [my_var; inner_entry]
          = true
          /\ vars_dict (variables_under stack) "ANVIL_API_KEY"
             = Some (anvil_entry "ANVIL_API_KEY")).
Proof.
  intros inner_entry stack.
  split; [vm_compute; reflexivity|]. split; [vm_compute; reflexivity|].
  intros (variables_under & Htest & Houter).
  apply (test_after_excludes_outermost variables_under [my_var; inner_entry] eq_refl Htest).
  exact Houter.
Qed.

(** *** What the tests of the repository say of the spec's merge order *)

(** Going through the annotations from the outermost to the innermost, as
    the spec words the merge order, passes both tests on their first two
    parameter sets and fails both on the third. *)
Lemma outermost_first_fails_tests :
  map (test_get_anvil_key_variable_with_variables_after get_variables_outermost_first) test_vars
  = [true; true; false]
  /\ map (test_get_anvil_key_variable_with_variables_before get_variables_outermost_first)
       test_vars
     = [true; true; false].
Proof. split; vm_compute; reflexivity. Qed.

(** The accessor of the samples passes both tests on each of their
    parameter sets. *)
Lemma listed_accessor_passes :
  forallb (test_get_anvil_key_variable_with_variables_after listed_accessor) test_vars
  && forallb (test_get_anvil_key_variable_with_variables_before listed_accessor) test_vars
  = true.
Proof. vm_compute. reflexivity. Qed.

(** The third parameter set of the tests, under the accessor of the
    samples. *)
Lemma inner_entry_in_tested_stacks_witness :
  let inner_entry :=
    [("name", VStr "ANVIL_API_KEY"); ("initial_value", VStr "test!"); ("secure", VBool false)] in
  let vars := [my_var; inner_entry] in
  (exists got,
     got ∈ listed_accessor [anvil_key_variable "ANVIL_API_KEY"; variables vars]
     /\ vars_dict (listed_accessor [anvil_key_variable "ANVIL_API_KEY"; variables vars])
          "ANVIL_API_KEY"
        = Some got
     /\ py_eqb (of_dict got) (of_dict inner_entry) = true)
  /\ exists got,
       got ∈ listed_accessor [variables vars; anvil_key_variable "ANVIL_API_KEY"]
       /\ vars_dict (listed_accessor [variables vars; anvil_key_variable "ANVIL_API_KEY"])
            "ANVIL_API_KEY"
          = Some got
       /\ py_eqb (of_dict got) (of_dict (anvil_entry "ANVIL_API_KEY")) = true.
Proof.
  intros inner_entry vars.
  destruct (inner_entry_in_tested_stacks listed_accessor vars eq_refl eq_refl)
    as [Hafter Hbefore].
  split; [|exact Hbefore].
  apply (Hafter inner_entry); [|reflexivity].
  apply list_elem_of_In. right. left. reflexivity.
Defined.

End MergeOrder.

(** ** The claims on the sample projects *)

Lemma naming_error_iff_no_match_witness :
  exists emitted,
    variable_step (variables_class []) ([], []) [("name", VStr "1bad")]
    = inr (["1bad"], emitted)
    /\ List.filter naming_error emitted
       = [variable_error (variables_class []) (invalid_name_message "1bad")].
Proof.
  destruct (naming_error_iff_no_match (H := sample_externals) (variables_class []) [] []
              [("name", VStr "1bad")] "1bad" eq_refl) as (emitted & Hstep & _ & Hfilter).
  exists emitted. split; [exact Hstep | exact Hfilter].
Defined.

(** The names the spec gives as examples. *)
Lemma naming_examples :
  map (re_match variable_name_regex) ["1bad"; "has space"; "GOOD_VAR-1.0"]
  = [false; false; true].
Proof. vm_compute. reflexivity. Qed.

Lemma duplicate_error_per_repeat_witness :
  let a := [("name", VStr "A")] in
  let b := [("name", VStr "B"); ("secure", VBool true)] in
  let ctx := extension_context (variables_class [a; b; a; a]) in
  exists msgs,
    validate_variables ctx = inr (Result msgs false (Some ctx))
    /\ List.length (List.filter (duplicate_error_for "A") msgs) = 2%nat
    /\ List.length (List.filter (duplicate_error_for "B") msgs) = 0%nat.
Proof.
  intros a b ctx.
  destruct (duplicate_error_per_repeat (H := sample_externals) ctx
              [("extension", variables_class [a; b; a; a])] eq_refl)
    as (msgs & Hresult & Hcount & _).
  - repeat constructor.
  - exists msgs. split; [exact Hresult|]. split; [apply (Hcount "A") | apply (Hcount "B")].
Defined.

(** C2 as the spec states it, on a name that two annotations declare: the
    declarations repeat the name, the accessor as the spec has it (section
    4.1) returns one entry of that name, and the validator, which reads the
    variables through the accessor, reports no repeat. *)
Lemma merged_repeat_unreported :
  let outer_entry := [("name", VStr "A"); ("initial_value", VStr "outer")] in
  let inner_entry := [("name", VStr "A"); ("initial_value", VStr "inner")] in
  let stack := [Decorators.variables [outer_entry]; Decorators.variables [inner_entry]] in
  let ctx :=
    extension_context (variables_class (Decorators.get_variables_outermost_first stack)) in
  occurrences "A" (declared_names (flat_map Decorators.contributed stack)) = 2%nat
  /\ Decorators.get_variables_outermost_first stack = [outer_entry]
  /\ validate_variables ctx = inr (Result [] false (Some ctx)).
Proof. intros outer_entry inner_entry stack ctx. repeat split; vm_compute; reflexivity. Qed.

Lemma compose_without_services_raises_witness :
  exists e,
    validate_docker_compose_yml (project_with_compose (Some VNone)) "project" (context_of [])
    = inl e
    /\ (Some "24.1" <> None -> e = TypeError).
Proof.
  apply (compose_without_services_raises (H := sample_externals)
           (project_with_compose (Some VNone)) "project" (context_of []) VNone).
  - reflexivity.
  - reflexivity.
  - intros d Hd. discriminate Hd.
Defined.

(** The example of the spec: one service with the image [wrong:1.0] and the
    runner version [24.1]. *)
Lemma wrong_image_example :
  validate_docker_compose_yml
    (project_with_compose
       (Some (compose_of [(VStr "web", VDict [(VStr "image", VStr "wrong:1.0")])])))
    "project" (context_of [])
  = inr (Result
           [Item ERROR
              ("Invalid image for service *web*: expected "
               +:+ "*cloudblueconnect/connect-extension-runner:24.1* got *wrong:1.0*.")
              (in_file "project/docker-compose.yml")]
           false None).
Proof. vm_compute. reflexivity. Qed.

Lemma descriptor_of_first_class_only_witness :
  let d := [(VStr "name", VStr "My extension"); (VStr "schedulables", VList [])] in
  let first := packaged_extension (Some (VDict d)) in
  let second := packaged_webapp sample_descriptor in
  let ctx := context_of [("extension", first); ("webapp", second)] in
  (forall outcomes,
     validate_extension_class
       (with_classes (("extension", first) :: with_descriptors outcomes [("webapp", second)]) ctx)
     = validate_extension_class ctx)
  /\ validate_extension_class ctx
     = inr (Result
              [Item WARNING
                 ("Extension schedulables must be declared using the "
                  +:+ "*connect.eaas.core.decorators.event* decorator.")
                 (in_file "project/events/extension.json")]
              false (Some (Context None (Some (VDict d)) None)))
  /\ validate_extension_class
       (context_of [("extension", packaged_extension None); ("webapp", second)])
     = inr (Result
              [Item ERROR "The extension descriptor *extension.json* cannot be loaded."
                 (in_file "project/events/extension.json")]
              true None).
Proof.
  intros d first second ctx.
  destruct (descriptor_of_first_class_only ctx "extension" first
              [("webapp", second)] eq_refl) as (Hothers & _ & Hreturns).
  destruct (descriptor_of_first_class_only
              (context_of [("extension", packaged_extension None); ("webapp", second)])
              "extension" (packaged_extension None) [("webapp", second)] eq_refl)
    as (_ & _ & Hhalts).
  split; [exact Hothers|]. split.
  - apply (proj2 (Hreturns eq_refl) d). reflexivity.
  - apply (proj1 (Hhalts eq_refl)). reflexivity.
Defined.

Lemma ui_section_checked_witness :
  validate_webapp_extension settings_only webapp_context
  = inr (Result
           [missing_files_error (webapp_class sample_descriptor)
              ["/static/main.html"; "/static/child.html"]]
           true None).
Proof.
  apply (ui_section_checked (H := sample_externals) settings_only webapp_context
           [("webapp", webapp_class sample_descriptor)] (webapp_class sample_descriptor)
           [(VStr "name", VStr "My extension"); (VStr "ui", VDict sample_ui)]
           sample_ui
           [UiNode (Some (VStr "Settings")) (Some "/static/settings.html") [];
            UiNode (Some (VStr "Main")) (Some "/static/main.html")
              [UiNode (Some (VStr "Child")) (Some "/static/child.html") []]]);
    try reflexivity.
  repeat first
    [ apply Represent_nil
    | apply Represent_cons
    | apply Represents; try reflexivity
    | apply No_children
    | apply Some_children ].
Defined.

(** C7 as the spec states it, on a project whose classes have descriptors of
    their own: [validate_extension_class] patches the descriptor of the
    events extension, the first class, into the context; the descriptor of
    the web application declares a [ui] section whose settings page has no
    [url]; and [validate_webapp_extension], which reads the descriptor of
    the context, reports nothing and does not halt. *)
Lemma own_descriptor_not_read :
  let ctx := Context (Some packaged_classes) (Some plain_descriptor) (Some "24.1") in
  validate_extension_class (context_of packaged_classes)
  = inr (Result [] false (Some (Context None (Some plain_descriptor) None)))
  /\ classes_get "webapp" packaged_classes = Some (packaged_webapp urlless_descriptor)
  /\ get_descriptor (packaged_webapp urlless_descriptor)
     = Some (VDict [(VStr "name", VStr "My web application"); (VStr "ui", VDict urlless_ui)])
  /\ all_represent [UiNode (Some (VStr "Settings")) None []] (map snd urlless_ui)
  /\ validate_webapp_extension settings_only ctx = inr (Result [] false (Some ctx)).
Proof.
  intros ctx. repeat split; try reflexivity.
  repeat first
    [ apply Represent_nil
    | apply Represent_cons
    | apply Represents; try reflexivity
    | apply No_children ].
Qed.

(** *** The further properties on the sample projects *)

Lemma event_checks_declared_witness :
  let event := purchase_event (Some ["pending"; "bogus"]) in
  let cls := events_class ["self"; "request"] event in
  let definition :=
    EventDefinition "asset_purchase_request_processing" (Some ["pending"; "inquiring"]) in
  exists status_errors signature_errors,
    event_step cls (definitions_of purchase_schema) [] event
    = inr ([] ++ status_errors ++ signature_errors)
    /\ status_errors
       = match disallowed definition ["pending"; "bogus"] with
         | [] => []
         | _ :: _ => [status_error cls event (disallowed definition ["pending"; "bogus"])]
         end
    /\ signature_errors = []
    /\ (status_errors = []
        <-> forall status, status ∈ ["pending"; "bogus"] -> status ∈ ["pending"; "inquiring"])
    /\ (signature_errors = [] <-> 2%nat = 2%nat).
Proof.
  intros event cls definition.
  apply (event_checks_declared (H := sample_externals) purchase_schema cls event definition
           ["pending"; "bogus"] ["self"; "request"] "def process(self, request):" []);
    reflexivity.
Defined.

(** The order in which the status ERROR lists the statuses is that of the
    set: the same entry under two orders. *)
Lemma status_order_left_open :
  let ctx :=
    extension_context
      (events_class ["self"; "request"] (purchase_event (Some ["zeta"; "pending"; "alpha"]))) in
  validate_events (H := sample_externals) purchase_schema ctx
  = inr (Result
           [Item ERROR
              "The status/es *alpha, zeta* are invalid for the event *asset_purchase_request_processing*."
              (Location None None None)]
           false (Some ctx))
  /\ validate_events (H := reversed_externals) purchase_schema ctx
     = inr (Result
              [Item ERROR
                 "The status/es *zeta, alpha* are invalid for the event *asset_purchase_request_processing*."
                 (Location None None None)]
              false (Some ctx)).
Proof. split; vm_compute; reflexivity. Qed.

(** The examples of the spec: the declared status [bogus] gets one ERROR
    that names it, statuses that are allowed get none. *)
Lemma bogus_status_example :
  map (fun statuses =>
         match validate_events purchase_schema
                 (extension_context (events_class ["self"; "request"]
                                       (purchase_event (Some statuses)))) with
         | inr result => map message (messages result)
         | inl _ => []
         end)
      [["pending"; "inquiring"]; ["bogus"]]
  = [ [];
      ["The status/es *bogus* are invalid for the event *asset_purchase_request_processing*."] ].
Proof. vm_compute. reflexivity. Qed.

Lemma schedulable_step_checked_witness :
  schedulable_step (schedulable_class ["self"]) []
    (Schedulable.Make "refresh" "Refresh" "Refreshes the cache")
  = inr [Item ERROR "The schedulable method *refresh* has an invalid signature: *refresh(self)*"
           (Location None None None)].
Proof.
  apply (schedulable_step_checked (H := sample_externals) (schedulable_class ["self"]) []
           (Schedulable.Make "refresh" "Refresh" "Refreshes the cache")
           ["self"] "def refresh(self, schedule):").
  reflexivity.
Defined.

Lemma named_entry_findings_witness :
  variable_step (variables_class []) (["A"], [])
    [("name", VStr "A"); ("initial_value", VInt 1); ("secure", VStr "yes")]
  = inr (["A"; "A"],
         map (variable_error (variables_class []))
           [duplicate_name_message "A";
            invalid_initial_value_message "A" (VInt 1);
            invalid_secure_message "A" (VStr "yes")]).
Proof.
  apply (named_entry_findings (H := sample_externals) (variables_class []) ["A"] []
           [("name", VStr "A"); ("initial_value", VInt 1); ("secure", VStr "yes")] "A").
  reflexivity.
Defined.

Lemma no_extension_class_pass_through_witness :
  validate_events purchase_schema webapp_context = inr (Result [] false (Some webapp_context))
  /\ validate_schedulables webapp_context = inr (Result [] false (Some webapp_context)).
Proof.
  apply (no_extension_class_pass_through (H := sample_externals) purchase_schema
           webapp_context [("webapp", webapp_class sample_descriptor)]); reflexivity.
Defined.

Lemma webapp_wiring_checked_witness :
  let cls := events_class ["self"; "request"] (purchase_event None) in
  let ctx := context_of [("webapp", cls)] in
  (startswith "@web_app(router)" (strip (getsource cls)) = false ->
   validate_webapp_extension settings_only ctx
   = inr (Result
            [Item ERROR "The Web app extension class must be wrapped in *@web_app(router)*."
               (in_file (getsourcefile cls))]
            true None))
  /\ (startswith "@web_app(router)" (strip (getsource cls)) = true ->
      existsb is_router_function (getmembers cls) = false ->
      exists text,
        validate_webapp_extension settings_only ctx
        = inr (Result [Item ERROR text (in_file (getsourcefile cls))] true None)).
Proof.
  intros cls ctx.
  apply (webapp_wiring_checked (H := sample_externals) settings_only ctx [("webapp", cls)] cls);
    reflexivity.
Defined.

(** * Further properties

    What the validators do on whole runs, at their edges and on input they
    do not expect, read off [connect/eaas/core/validations.py]. *)

(** ** [validate_anvil_extension] *)

Section Anvil.
Context `{Externals}.

Lemma validate_anvil_extension_declared ctx classes cls name :
  extension_classes ctx = Some classes ->
  classes_get "anvil" classes = Some cls ->
  get_anvil_key_variable cls = Some name ->
  validate_anvil_extension ctx
  = inr (AnvilValidationResult
           (if negb (String.eqb name EmptyString) && negb (re_match variable_name_regex name)
            then [AnvilValidationItem ERROR (invalid_anvil_key_message name) cls]
            else [])
           false (Some ctx)).
Proof.
  intros Hctx Hcls Hname. unfold validate_anvil_extension. rewrite Hctx.
  cbn [lookup_key mret py_ret ret mbind py_bind bind]. rewrite Hcls, Hname.
  destruct (String.eqb name EmptyString), (re_match variable_name_regex name); reflexivity.
Qed.

(** X7.  The Anvil validator on a class that declares a key variable with a
    name that is not empty: no finding when the name is a letter followed by
    letters, digits, underscores, hyphens and dots (a newline may end it),
    and otherwise one ERROR that quotes the name and whose file argument is
    the class itself; the chain goes on with the context unchanged. *)
Theorem anvil_key_checked ctx classes cls name :
  extension_classes ctx = Some classes ->
  classes_get "anvil" classes = Some cls ->
  get_anvil_key_variable cls = Some name ->
  name <> EmptyString ->
  exists findings,
    validate_anvil_extension ctx = inr (AnvilValidationResult findings false (Some ctx))
    /\ (valid_name name -> findings = [])
    /\ (~ valid_name name ->
        findings = [AnvilValidationItem ERROR (invalid_anvil_key_message name) cls]).
Proof.
  intros Hctx Hcls Hname Hne.
  rewrite (validate_anvil_extension_declared _ _ _ _ Hctx Hcls Hname).
  apply String.eqb_neq in Hne. rewrite Hne. cbn [negb andb].
  eexists. split; [reflexivity|].
  pose proof (variable_name_regex_valid name) as Hvalid.
  destruct (re_match variable_name_regex name); cbn [negb]; split.
  - reflexivity.
  - intros Hno. exfalso. apply Hno, Hvalid. reflexivity.
  - intros Hyes. apply Hvalid in Hyes. discriminate.
  - reflexivity.
Qed.

Lemma empty_name_no_match : re_match variable_name_regex EmptyString = false.
Proof. reflexivity. Qed.

(** X8.  The Anvil validator reports nothing and passes the context on when
    there is no class of type [anvil], when the class declares no key
    variable, and also when the name it declares is empty: the empty name,
    for which [validate_variables] appends the naming ERROR, is not tested
    against the pattern here. *)
Theorem anvil_key_unchecked ctx classes :
  extension_classes ctx = Some classes ->
  (classes_get "anvil" classes = None
   \/ exists cls, classes_get "anvil" classes = Some cls
        /\ (get_anvil_key_variable cls = None
            \/ get_anvil_key_variable cls = Some EmptyString)) ->
  validate_anvil_extension ctx = inr (AnvilValidationResult [] false (Some ctx))
  /\ forall cls names msgs variable,
       dict_get "name" variable = Some (VStr EmptyString) ->
       exists state,
         variable_step cls (names, msgs) variable = inr state
         /\ In (variable_error cls (invalid_name_message EmptyString)) (snd state).
Proof.
  intros Hctx Hcases. split.
  - destruct Hcases as [Hnone|(cls & Hcls & [Hkey|Hkey])].
    + unfold validate_anvil_extension. rewrite Hctx.
      cbn [lookup_key mret py_ret ret mbind py_bind bind]. rewrite Hnone. reflexivity.
    + unfold validate_anvil_extension. rewrite Hctx.
      cbn [lookup_key mret py_ret ret mbind py_bind bind]. rewrite Hcls, Hkey. reflexivity.
    + rewrite (validate_anvil_extension_declared _ _ _ _ Hctx Hcls Hkey). reflexivity.
  - intros cls names msgs variable Hname.
    rewrite (variable_step_named _ _ _ _ _ Hname). eexists. split; [reflexivity|].
    cbn [snd]. apply in_app_iff. right. unfold entry_messages.
    apply in_app_iff. right. apply in_app_iff. left.
    unfold naming_part. rewrite empty_name_no_match. left. reflexivity.
Qed.

End Anvil.

(** ** Whole runs of [validate_events] and [validate_schedulables] *)

Section Runs.
Context `{Externals}.

Lemma event_step_findings cls definitions msgs event parameters :
  handler_of cls (Event.method event) parameters ->
  readable definitions event ->
  event_step cls definitions msgs event
  = inr (msgs ++ event_findings cls definitions event).
Proof.
  intros [source Hhandler] Hreadable. unfold event_findings.
  destruct (definitions !! Event.event_type event) as [definition|] eqn:Hdefinition.
  - rewrite (event_step_checked _ _ _ _ _ _ _ (disallowed definition (declared_statuses event))
               Hhandler Hdefinition).
    + rewrite Hhandler. reflexivity.
    + unfold declared_statuses.
      destruct (Event.statuses event) as [declared|] eqn:Hdeclared.
      * apply invalid_statuses_declared.
      * destruct (restricts definition) eqn:Hrestricts.
        -- exfalso. apply (Hreadable definition Hdefinition Hrestricts). exact Hdeclared.
        -- rewrite invalid_statuses_unrestricted by assumption.
           unfold disallowed. rewrite Hrestricts. reflexivity.
  - unfold event_step. rewrite Hhandler, bind_ret, Hdefinition. reflexivity.
Qed.

Lemma events_loop_findings cls definitions events :
  Forall (fun e => (exists parameters, handler_of cls (Event.method e) parameters)
                   /\ readable definitions e) events ->
  forall msgs,
    events_loop cls definitions events msgs
    = inr (msgs ++ flat_map (event_findings cls definitions) events).
Proof.
  induction 1 as [|e l [[parameters He] Hr] _ IH]; intros msgs.
  - simpl. rewrite app_nil_r. reflexivity.
  - rewrite events_loop_cons, (event_step_findings _ _ _ _ _ He Hr), bind_ret, IH.
    cbn [flat_map]. rewrite <- app_assoc. reflexivity.
Qed.

Lemma event_findings_nil cls definitions event parameters :
  handler_of cls (Event.method event) parameters ->
  event_findings cls definitions event = [] <-> event_passes cls definitions event.
Proof.
  intros [source Hhandler]. unfold event_findings, event_passes.
  destruct (definitions !! Event.event_type event) as [definition|].
  - rewrite Hhandler. split.
    + intros Hnil. apply app_eq_nil in Hnil as [Hstatus Hsig].
      exists definition. split; [reflexivity|]. split.
      * apply disallowed_empty. apply status_errors_of_nil in Hstatus. exact Hstatus.
      * exists parameters. split; [exists source; exact Hhandler|].
        destruct (Nat.eqb_spec (List.length parameters) 2); [assumption|discriminate].
    + intros (definition' & [= <-] & Hallowed & parameters' & [source' Hhandler'] & Htwo).
      rewrite Hhandler in Hhandler'. injection Hhandler' as <- _.
      apply disallowed_empty in Hallowed. rewrite Hallowed.
      apply Nat.eqb_eq in Htwo. rewrite Htwo. reflexivity.
  - split; [discriminate|]. intros (definition & Habs & _). discriminate.
Qed.

Lemma event_findings_length cls definitions event :
  (List.length (event_findings cls definitions event) <= 2)%nat
  /\ Forall (fun i => item_level i = ERROR) (event_findings cls definitions event).
Proof.
  unfold event_findings.
  destruct (definitions !! Event.event_type event) as [definition|].
  - destruct (disallowed definition (declared_statuses event));
      destruct (getattr cls (Event.method event)) as [e|[parameters source|]];
      try destruct (List.length parameters =? 2)%nat; simpl; split; try lia;
      repeat constructor.
  - simpl. split; [lia | repeat constructor].
Qed.

(** X9.  A whole run of [validate_events] on a class whose handlers are
    functions and whose entries declare their statuses wherever the event
    type restricts them: the result lists the findings entry by entry in the
    order of [get_events()], all of them ERRORs and at most two for an
    entry, it never halts, and it is empty exactly when every entry has an
    event type of the schema, only statuses that type allows, and a handler
    of two parameters.  A status ERROR joins its statuses in the order
    Python goes through the set of them, which is left open. *)
Theorem events_pass_iff cfg ctx classes cls :
  extension_classes ctx = Some classes ->
  classes_get "extension" classes = Some cls ->
  let definitions := definitions_of (get_event_definitions cfg) in
  Forall (fun e => (exists parameters, handler_of cls (Event.method e) parameters)
                   /\ readable definitions e) (get_events cls) ->
  exists msgs,
    validate_events cfg ctx = inr (Result msgs false (Some ctx))
    /\ msgs = flat_map (event_findings cls definitions) (get_events cls)
    /\ Forall (fun i => item_level i = ERROR) msgs
    /\ (List.length msgs <= 2 * List.length (get_events cls))%nat
    /\ (msgs = [] <-> Forall (event_passes cls definitions) (get_events cls)).
Proof.
  intros Hctx Hcls definitions Hevents. unfold validate_events. rewrite Hctx.
  cbn [lookup_key mret py_ret ret mbind py_bind bind]. rewrite Hcls.
  fold definitions. rewrite (events_loop_findings _ _ _ Hevents).
  cbn [app mret py_ret ret mbind py_bind bind].
  eexists. split; [reflexivity|]. split; [reflexivity|].
  induction Hevents as [|e l [[parameters He] Hr] _ (IH1 & IH2 & IH3)];
    [repeat split; auto; constructor|].
  cbn [flat_map].
  destruct (event_findings_length cls definitions e) as [Hlen Herr].
  split; [apply Forall_app; split; assumption|].
  split; [rewrite length_app; simpl; lia|].
  split.
  - intros Hnil. apply app_eq_nil in Hnil as [He' Hl].
    constructor; [apply (event_findings_nil _ _ _ _ He), He' | apply IH3, Hl].
  - intros Hall. inversion Hall as [|? ? Hp Hps]; subst.
    apply (event_findings_nil _ _ _ _ He) in Hp. apply IH3 in Hps.
    rewrite Hp, Hps. reflexivity.
Qed.

Lemma schedulables_loop_findings cls schedulables :
  Forall (fun s => exists parameters, handler_of cls (Schedulable.method s) parameters)
    schedulables ->
  forall msgs,
    schedulables_loop cls schedulables msgs
    = inr (msgs ++ flat_map (schedulable_findings cls) schedulables).
Proof.
  induction 1 as [|s l (parameters & source & Hs) _ IH]; intros msgs.
  - simpl. rewrite app_nil_r. reflexivity.
  - cbn [schedulables_loop flat_map]. unfold schedulable_step, schedulable_findings.
    rewrite Hs. cbn [signature mret py_ret ret mbind py_bind bind].
    destruct (List.length parameters =? 2)%nat;
      cbn [mret py_ret ret mbind py_bind bind]; rewrite IH, <- ?app_assoc; reflexivity.
Qed.

(** X10.  A whole run of [validate_schedulables] on a class whose
    schedulable methods are functions: one ERROR for each method that does
    not take two parameters, in the order of [get_schedulables()], no halt,
    the context passed on; the result is empty exactly when every method
    takes two parameters. *)
Theorem schedulables_pass_iff ctx classes cls :
  extension_classes ctx = Some classes ->
  classes_get "extension" classes = Some cls ->
  Forall (fun s => exists parameters, handler_of cls (Schedulable.method s) parameters)
    (get_schedulables cls) ->
  exists msgs,
    validate_schedulables ctx = inr (Result msgs false (Some ctx))
    /\ msgs = flat_map (schedulable_findings cls) (get_schedulables cls)
    /\ Forall (fun i => item_level i = ERROR) msgs
    /\ (List.length msgs <= List.length (get_schedulables cls))%nat
    /\ (msgs = []
        <-> Forall (fun s => takes_two cls (Schedulable.method s)) (get_schedulables cls)).
Proof.
  intros Hctx Hcls Hhandlers. unfold validate_schedulables. rewrite Hctx.
  cbn [lookup_key mret py_ret ret mbind py_bind bind]. rewrite Hcls.
  rewrite (schedulables_loop_findings _ _ Hhandlers).
  cbn [app mret py_ret ret mbind py_bind bind].
  eexists. split; [reflexivity|]. split; [reflexivity|].
  induction Hhandlers as [|s l (parameters & source & Hs) _ (IH1 & IH2 & IH3)];
    [repeat split; auto; constructor|].
  cbn [flat_map]. unfold schedulable_findings at 1 3 5. rewrite Hs.
  destruct (Nat.eqb_spec (List.length parameters) 2) as [Htwo|Hnot]; cbn [app].
  - split; [exact IH1|]. split; [simpl; lia|].
    rewrite IH3. split.
    + intros Hall. constructor; [|exact Hall].
      exists parameters. split; [exists source; exact Hs | exact Htwo].
    + intros Hall. inversion Hall; assumption.
  - split; [constructor; [reflexivity | exact IH1]|]. split; [simpl; lia|].
    split; [discriminate|].
    intros Hall. inversion Hall as [|? ? (parameters' & (source' & Hs') & Htwo) _]; subst.
    rewrite Hs in Hs'. injection Hs' as <- _. contradiction.
Qed.

Lemma definitions_fold_other (l : list event_definition) (m : gmap string event_definition) k :
  k ∉ map type l ->
  foldl (fun m definition => <[type definition := definition]> m) m l !! k = m !! k.
Proof.
  revert m. induction l as [|d l IH]; intros m Hk; [reflexivity|].
  cbn [map] in Hk. apply not_elem_of_cons in Hk as [Hne Hk].
  simpl. rewrite IH by exact Hk. apply lookup_insert_ne. congruence.
Qed.

(** X11.  When the event schema lists an event type more than once, the
    table [validate_events] builds holds the last record of that type: its
    statuses are the ones the entries are checked against. *)
Theorem last_definition_wins cfg before definition after :
  get_event_definitions cfg = before ++ definition :: after ->
  type definition ∉ map type after ->
  definitions_of (get_event_definitions cfg) !! type definition = Some definition.
Proof.
  intros -> Hlast. unfold definitions_of. rewrite foldl_app. cbn [foldl].
  rewrite definitions_fold_other by exact Hlast. apply lookup_insert_eq.
Qed.

End Runs.

(** ** Whole runs of [validate_variables] *)

Section VariableRuns.
Context `{Externals}.

Lemma variables_loop_findings cls variables : Forall well_named variables ->
  forall names msgs,
    variables_loop cls variables (names, msgs)
    = inr (names ++ declared_names variables, msgs ++ class_findings cls names variables).
Proof.
  induction 1 as [|variable variables Hwell _ IH]; intros names msgs.
  - simpl. rewrite !app_nil_r. reflexivity.
  - unfold well_named in Hwell.
    rewrite variables_loop_cons, declared_names_cons. unfold declared_name.
    cbn [class_findings].
    destruct (dict_get "name" variable) as [[| | |name| |]|] eqn:Hname; try contradiction.
    + rewrite (variable_step_named _ _ _ _ _ Hname), bind_ret, IH, <- !app_assoc.
      reflexivity.
    + rewrite (variable_step_unnamed _ _ _ _ Hname), bind_ret, IH, <- !app_assoc.
      reflexivity.
Qed.

Lemma variables_of_classes_findings classes :
  Forall (fun c => Forall well_named (get_variables (snd c))) classes ->
  forall msgs,
    variables_of_classes classes msgs
    = inr (msgs ++ flat_map (fun c => class_findings (snd c) [] (get_variables (snd c)))
                     classes).
Proof.
  induction 1 as [|[extension_type cls] classes Hwell _ IH]; intros msgs.
  - simpl. rewrite app_nil_r. reflexivity.
  - cbn [variables_of_classes flat_map snd] in *.
    rewrite (variables_loop_findings _ _ Hwell), bind_ret. cbn [snd].
    rewrite IH, <- app_assoc. reflexivity.
Qed.

Lemma existsb_eqb_false n (names : list string) :
  existsb (String.eqb n) names = false <-> n ∉ names.
Proof.
  rewrite <- not_true_iff_false, existsb_exists, list_elem_of_In. split.
  - intros Hno Hin. apply Hno. exists n. split; [exact Hin | apply String.eqb_refl].
  - intros Hno (m & Hin & Heq). apply String.eqb_eq in Heq as <-. contradiction.
Qed.

(** The checks of one entry find nothing exactly when its name is new and
    the entry is clean. *)
Lemma entry_messages_nil cls names variable name :
  dict_get "name" variable = Some (VStr name) ->
  entry_messages cls names variable name = []
  <-> (name ∉ names) /\ clean variable.
Proof.
  intros Hname. unfold entry_messages, duplicate_part, naming_part, initial_value_part,
    secure_part, clean.
  rewrite Hname, <- existsb_eqb_false.
  pose proof (variable_name_regex_valid name) as Hvalid.
  destruct (existsb (String.eqb name) names).
  { split; [discriminate|]. intros [Habs _]. discriminate. }
  destruct (re_match variable_name_regex name).
  2:{ split; [discriminate|]. intros (_ & (n & [= <-] & Hn) & _).
      apply Hvalid in Hn. discriminate. }
  assert (Hnamed : exists n, Some (VStr name) = Some (VStr n) /\ valid_name n).
  { exists name. split; [reflexivity | apply Hvalid; reflexivity]. }
  destruct (dict_get "initial_value" variable) as [iv|];
    [destruct (is_str iv) eqn:Hiv|];
    (destruct (dict_get "secure" variable) as [sec|];
     [destruct (is_bool sec) eqn:Hsec|]);
    cbn [app]; split;
    try discriminate; try reflexivity;
    try (intros _; split; [reflexivity|]; split; [exact Hnamed|];
         split; intros v [= <-]; assumption);
    try (intros _; split; [reflexivity|]; split; [exact Hnamed|];
         split; [intros v [= <-]; assumption | intros v [=]]);
    try (intros _; split; [reflexivity|]; split; [exact Hnamed|];
         split; [intros v [=] | intros v [= <-]; assumption]);
    try (intros _; split; [reflexivity|]; split; [exact Hnamed|];
         split; intros v [=]);
    try (intros (_ & _ & Hi & Hs);
         first [specialize (Hi _ eq_refl); congruence | specialize (Hs _ eq_refl); congruence]).
Qed.

Lemma class_findings_nil cls variables : forall names,
  class_findings cls names variables = []
  <-> Forall clean variables
      /\ NoDup (declared_names variables)
      /\ (forall n, n ∈ declared_names variables -> n ∉ names).
Proof.
  induction variables as [|variable variables IH]; intros names.
  - simpl. split; [intros _|reflexivity].
    split; [constructor|]. split; [constructor|]. intros n Hn. inversion Hn.
  - cbn [class_findings]. rewrite declared_names_cons. unfold declared_name.
    destruct (dict_get "name" variable) as [[| | |name| |]|] eqn:Hname.
    1-3,5-7: split; [discriminate|]; intros [Hall _];
             inversion Hall as [|? ? [(name' & Hname' & _) _] _]; congruence.
    split.
    + intros Hnil. apply app_eq_nil in Hnil as [Hentry Hrest].
      apply (entry_messages_nil _ _ _ _ Hname) in Hentry as [Hfresh Hclean].
      apply IH in Hrest as (Hall & Hnodup & Hnew).
      split; [constructor; assumption|]. split.
      * constructor; [|exact Hnodup]. intros Hin. apply (Hnew _ Hin).
        apply elem_of_app. right. left.
      * intros n Hn. apply elem_of_cons in Hn as [->|Hn]; [exact Hfresh|].
        intros Hin. apply (Hnew _ Hn). apply elem_of_app. left. exact Hin.
    + intros (Hall & Hnodup & Hnew).
      inversion Hall as [|? ? Hclean Hall']; subst.
      inversion Hnodup as [|? ? Hnotin Hnodup']; subst.
      assert (Hentry : entry_messages cls names variable name = []).
      { apply (entry_messages_nil _ _ _ _ Hname). split; [|exact Hclean].
        apply Hnew. left. }
      rewrite Hentry. cbn [app]. apply IH. split; [exact Hall'|]. split; [exact Hnodup'|].
      intros n Hn Hin. apply elem_of_app in Hin as [Hin|Hin].
      * apply (Hnew n); [right; exact Hn | exact Hin].
      * apply list_elem_of_singleton in Hin as ->. contradiction.
Qed.

(** X12.  [validate_variables] returns no message exactly when, in every
    loaded class, every entry has a name of the accepted form, an
    [initial_value] that is a string and a [secure] that is a boolean when
    they are given, and no two entries of the class have the same name; two
    classes may declare the same name. *)
Theorem variables_pass_iff ctx classes :
  extension_classes ctx = Some classes ->
  Forall (fun c => Forall well_named (get_variables (snd c))) classes ->
  validate_variables ctx = inr (Result [] false (Some ctx))
  <-> Forall (fun c => Forall clean (get_variables (snd c))
                       /\ NoDup (declared_names (get_variables (snd c)))) classes.
Proof.
  intros Hctx Hwell. unfold validate_variables. rewrite Hctx.
  cbn [lookup_key mret py_ret ret mbind py_bind bind].
  rewrite (variables_of_classes_findings _ Hwell).
  cbn [app mret py_ret ret mbind py_bind bind].
  clear Hctx Hwell.
  assert (Hnil : flat_map (fun c => class_findings (snd c) [] (get_variables (snd c))) classes
                 = []
                 <-> Forall (fun c => Forall clean (get_variables (snd c))
                                      /\ NoDup (declared_names (get_variables (snd c))))
                       classes).
  { induction classes as [|c classes IH]; [split; [constructor|reflexivity]|].
    cbn [flat_map]. split.
    - intros Hnil. apply app_eq_nil in Hnil as [Hc Hrest].
      apply class_findings_nil in Hc as (Hclean & Hnodup & _).
      constructor; [split; assumption | apply IH, Hrest].
    - intros Hall. inversion Hall as [|? ? [Hclean Hnodup] Hrest]; subst.
      apply IH in Hrest. rewrite Hrest, app_nil_r.
      apply class_findings_nil. split; [exact Hclean|]. split; [exact Hnodup|].
      intros n _ Hin. inversion Hin. }
  rewrite <- Hnil. split.
  - intros [= ->]. reflexivity.
  - intros ->. reflexivity.
Qed.

Lemma variable_step_raises cls state variable e :
  variable_step cls state variable = inl e -> e = TypeError.
Proof.
  destruct state as [names msgs]. unfold variable_step.
  destruct (dict_get "name" variable) as [[| | |name| |]|]; try discriminate;
    intros [= <-]; reflexivity.
Qed.

Lemma variables_loop_raises cls variables :
  Exists (fun v => ~ well_named v) variables ->
  forall state, variables_loop cls variables state = inl TypeError.
Proof.
  induction 1 as [variable variables Hbad|variable variables _ IH]; intros state;
    rewrite variables_loop_cons.
  - destruct state as [names msgs]. unfold variable_step, well_named in *.
    destruct (dict_get "name" variable) as [[| | |name| |]|]; try reflexivity;
      exfalso; apply Hbad; exact I.
  - destruct (variable_step cls state variable) as [e|state'] eqn:Hstep.
    + apply variable_step_raises in Hstep as ->. reflexivity.
    + rewrite bind_ret. apply IH.
Qed.

Lemma variables_loop_raises_only cls variables : forall state e,
  variables_loop cls variables state = inl e -> e = TypeError.
Proof.
  induction variables as [|variable variables IH]; intros state e; [discriminate|].
  rewrite variables_loop_cons.
  destruct (variable_step cls state variable) as [e'|state'] eqn:Hstep.
  - apply variable_step_raises in Hstep as ->. intros [= <-]. reflexivity.
  - rewrite bind_ret. apply IH.
Qed.

(** X13.  An entry whose [name] is there and is no string (a number, [None],
    a list) makes [validate_variables] raise a TypeError when the pattern is
    matched against it, in whichever class and at whichever place the entry
    stands: the findings gathered up to it are lost. *)
Theorem name_not_a_string_raises ctx classes :
  extension_classes ctx = Some classes ->
  Exists (fun c => Exists (fun v => ~ well_named v) (get_variables (snd c))) classes ->
  validate_variables ctx = inl TypeError.
Proof.
  intros Hctx Hbad. unfold validate_variables. rewrite Hctx.
  cbn [lookup_key mret py_ret ret mbind py_bind bind].
  assert (Hraises : forall msgs, variables_of_classes classes msgs = inl TypeError).
  { clear Hctx.
    induction Hbad as [[extension_type cls] classes Hbad|[extension_type cls] classes _ IH];
      intros msgs; cbn [variables_of_classes snd] in *.
    - rewrite (variables_loop_raises _ _ Hbad). reflexivity.
    - destruct (variables_loop cls (get_variables cls) ([], msgs)) as [e|state] eqn:Hloop.
      + apply variables_loop_raises_only in Hloop as ->. reflexivity.
      + rewrite bind_ret. apply IH. }
  rewrite Hraises. reflexivity.
Qed.

End VariableRuns.

(** ** The outcomes of [validate_extension_class] *)

Section ClassOutcomes.
Context `{Externals}.

Lemma class_loop_start classes :
  class_loop classes None None
  = match first_wrong_base classes with
    | Some c => inl (wrong_base_error c)
    | None =>
        inr (match classes with
             | [] => (None, None)
             | c :: _ => (Some (snd c), Some (extension_json_of (snd c)))
             end)
    end.
Proof.
  unfold first_wrong_base. destruct classes as [|[extension_type cls] rest]; [reflexivity|].
  cbn [class_loop List.find fst snd].
  destruct (wrong_base extension_type cls); [reflexivity|].
  cbn [unset]. fold (extension_json_of cls).
  rewrite class_loop_kept by apply extension_json_set.
  destruct (List.find _ rest); reflexivity.
Qed.

Lemma first_wrong_base_with_descriptors outcomes classes :
  match first_wrong_base classes with
  | Some c =>
      exists outcome,
        first_wrong_base (with_descriptors outcomes classes)
        = Some (fst c, with_descriptor outcome (snd c))
  | None => first_wrong_base (with_descriptors outcomes classes) = None
  end.
Proof.
  unfold first_wrong_base, with_descriptors. revert outcomes.
  induction classes as [|[extension_type cls] rest IH]; intros outcomes; [reflexivity|].
  cbn [imap List.find fst snd].
  change (wrong_base extension_type (with_descriptor (outcomes 0%nat) cls))
    with (wrong_base extension_type cls).
  destruct (wrong_base extension_type cls).
  - exists (outcomes 0%nat). reflexivity.
  - apply (IH (outcomes ∘ S)).
Qed.

(** X14.  When a loaded class has not the base its extension type asks for,
    [validate_extension_class] halts with one ERROR about the first such
    class in the order of the dictionary, naming the class and the base it
    should have and pointing at its source file; no descriptor is loaded for
    it, whatever [get_descriptor()] would do on any of the classes. *)
Theorem wrong_base_halts ctx classes c :
  extension_classes ctx = Some classes ->
  first_wrong_base classes = Some c ->
  validate_extension_class ctx = inr (Result [wrong_base_error c] true None)
  /\ forall outcomes,
       validate_extension_class (with_classes (with_descriptors outcomes classes) ctx)
       = validate_extension_class ctx.
Proof.
  intros Hctx Hwrong.
  assert (Hresult : validate_extension_class ctx = inr (Result [wrong_base_error c] true None)).
  { unfold validate_extension_class. rewrite Hctx.
    cbn [lookup_key mret py_ret ret mbind py_bind bind].
    rewrite class_loop_start, Hwrong. reflexivity. }
  split; [exact Hresult|]. intros outcomes. rewrite Hresult.
  unfold validate_extension_class, with_classes. cbn [extension_classes].
  cbn [lookup_key mret py_ret ret mbind py_bind bind]. rewrite class_loop_start.
  pose proof (first_wrong_base_with_descriptors outcomes classes) as Hsame.
  rewrite Hwrong in Hsame. destruct Hsame as [outcome ->]. reflexivity.
Qed.

(** X15.  When every class has the right base and the descriptor of the
    first class is a mapping, [validate_extension_class] returns one WARNING
    for each of the keys [variables], [capabilities] and [schedulables] the
    descriptor has, in this order (the one about [schedulables] names the
    decorator [event]), each pointing at [extension.json] beside the source
    of the class; it does not halt and patches the descriptor into the
    context. *)
Theorem descriptor_keys_warned ctx extension_type cls rest d :
  extension_classes ctx = Some ((extension_type, cls) :: rest) ->
  first_wrong_base ((extension_type, cls) :: rest) = None ->
  get_descriptor cls = Some (VDict d) ->
  validate_extension_class ctx
  = inr (Result
           (flat_map (fun description =>
                        if has_key description d
                        then [descriptor_warning (extension_json_of cls) description]
                        else [])
              ["variables"; "capabilities"; "schedulables"])
           false (Some (Context None (Some (VDict d)) None))).
Proof. apply validate_extension_class_dict. Qed.

(** X16.  Where [validate_extension_class] raises instead of returning a
    result: a KeyError when the context has no [extension_classes], an
    AttributeError when that dictionary is empty (no class is kept, and
    [get_descriptor] is looked up on [None]), and a TypeError when the
    descriptor of the first class is JSON [null], a number or a boolean, on
    which the key test [in] is not defined. *)
Theorem extension_class_raises ctx :
  (extension_classes ctx = None -> validate_extension_class ctx = inl KeyError)
  /\ (extension_classes ctx = Some [] -> validate_extension_class ctx = inl AttributeError)
  /\ (forall extension_type cls rest descriptor_,
        extension_classes ctx = Some ((extension_type, cls) :: rest) ->
        first_wrong_base ((extension_type, cls) :: rest) = None ->
        get_descriptor cls = Some descriptor_ ->
        scalar descriptor_ = true ->
        validate_extension_class ctx = inl TypeError).
Proof.
  split; [|split].
  - intros Hctx. unfold validate_extension_class. rewrite Hctx. reflexivity.
  - intros Hctx. unfold validate_extension_class. rewrite Hctx. reflexivity.
  - intros extension_type cls rest descriptor_ Hctx Hbases Hdescriptor Hscalar.
    rewrite (validate_extension_class_first _ _ _ _ Hctx Hbases), Hdescriptor.
    destruct descriptor_; try discriminate; reflexivity.
Qed.

End ClassOutcomes.

(** ** The outcomes of [validate_webapp_extension] *)

Section WebAppOutcomes.
Context `{Externals}.

Lemma ui_visit_no_url fs file json item finding :
  ui_visit fs file json item = inr (NoUrl finding) ->
  item_level finding = ERROR /\ item_location finding = in_file json.
Proof.
  unfold ui_visit.
  destruct (getitem item (VStr "url")) as [[]|[]]; try discriminate.
  - destruct (get_method item "label") as [e|label]; [discriminate|].
    intros [= <-]. split; reflexivity.
  - destruct (get_method item "children") as [e|children]; [discriminate|].
    cbn [mret py_ret ret mbind py_bind bind].
    destruct (iter (default (VList []) children)); discriminate.
Qed.

(** Whatever the items are, a finding with which the loop stops is an ERROR
    that points at the descriptor. *)
Lemma ui_loop_finding fs file json items missed finding :
  ui_loop fs file json items missed = inr (inl finding) ->
  item_level finding = ERROR /\ item_location finding = in_file json.
Proof.
  funelim (ui_loop fs file json items missed).
  - discriminate.
  - discriminate.
  - intros [= <-]. eapply ui_visit_no_url; eassumption.
  - apply H0.
Qed.

(** X17.  Whatever the context and the files, a result that
    [validate_webapp_extension] returns has one of two shapes: no message,
    no halt and the context passed on; or exactly one ERROR that points at a
    file, with which the chain halts and no context is passed on.  It never
    returns a WARNING, nor a finding without halting. *)
Theorem webapp_result_shape fs ctx result :
  validate_webapp_extension fs ctx = inr result ->
  (messages result = [] /\ must_halt result = false /\ context_patch result = Some ctx)
  \/ (exists finding file,
        messages result = [finding]
        /\ item_level finding = ERROR /\ item_location finding = in_file file
        /\ must_halt result = true /\ context_patch result = None).
Proof.
  unfold validate_webapp_extension.
  destruct (lookup_key (extension_classes ctx)) as [e|classes]; [discriminate|].
  cbn [mret py_ret ret mbind py_bind bind].
  destruct (classes_get "webapp" classes) as [cls|]; [|intros [= <-]; left; auto].
  destruct (negb (startswith _ _)).
  { intros [= <-]. right. eexists _, _. repeat split. }
  destruct (negb (existsb _ _)).
  { intros [= <-]. right. eexists _, _. repeat split. }
  destruct (lookup_key (descriptor ctx)) as [e|descriptor_]; [discriminate|].
  cbn [mret py_ret ret mbind py_bind bind].
  destruct (contains descriptor_ "ui") as [e|[|]]; [discriminate| |intros [= <-]; left; auto].
  cbn [mret py_ret ret mbind py_bind bind].
  destruct (getitem descriptor_ (VStr "ui")) as [e|ui]; [discriminate|].
  cbn [mret py_ret ret mbind py_bind bind].
  destruct (values ui) as [e|ui_values]; [discriminate|].
  cbn [mret py_ret ret mbind py_bind bind].
  destruct (ui_loop _ _ _ _ _) as [e|[finding|[|url missed]]] eqn:Hloop; [discriminate| | |].
  - apply ui_loop_finding in Hloop as [Hlevel Hfile].
    intros [= <-]. right. exists finding. eexists. repeat split; eassumption.
  - intros [= <-]. left. auto.
  - intros [= <-]. right. eexists _, _. repeat split.
Qed.

(** X18.  Without a class of type [webapp] the validator returns no message
    and passes the context on, and it does not look at the descriptor.  For
    a class that is wrapped and has a route, it needs the [descriptor] in
    the context: it raises a KeyError when there is none, and returns no
    message when the descriptor is a mapping without a [ui] section. *)
Theorem webapp_without_ui fs ctx classes :
  extension_classes ctx = Some classes ->
  (classes_get "webapp" classes = None ->
   validate_webapp_extension fs ctx = inr (Result [] false (Some ctx)))
  /\ (forall cls, classes_get "webapp" classes = Some cls -> wired cls ->
        (descriptor ctx = None -> validate_webapp_extension fs ctx = inl KeyError)
        /\ (forall d, descriptor ctx = Some (VDict d) -> items_get (VStr "ui") d = None ->
              validate_webapp_extension fs ctx = inr (Result [] false (Some ctx)))).
Proof.
  intros Hctx. unfold validate_webapp_extension. rewrite Hctx.
  cbn [lookup_key mret py_ret ret mbind py_bind bind]. split.
  - intros ->. reflexivity.
  - intros cls -> [-> ->]. cbn [negb]. split.
    + intros ->. reflexivity.
    + intros d -> Hui. cbn [lookup_key contains mret py_ret ret mbind py_bind bind].
      rewrite Hui. reflexivity.
Qed.

(** The loop on a stack whose top items are of the described shape: it
    visits them and what lies below them, and goes on with the rest. *)
Lemma ui_loop_prefix fs cls n :
  forall stack values rest missed,
    (stack_count stack <= n)%nat -> all_represent stack values ->
    ui_loop fs (getsourcefile cls) (extension_json_of cls) (values ++ rest) missed
    = match visit_all fs cls (flat_map walk stack) missed with
      | inl finding => inr (inl finding)
      | inr missed' =>
          ui_loop fs (getsourcefile cls) (extension_json_of cls) rest missed'
      end.
Proof.
  induction n as [|n IH]; intros stack values rest missed Hcount Hall.
  - destruct Hall as [|node v nodes l Hnode Hrest]; [reflexivity|].
    destruct node as [label url children].
    rewrite stack_count_cons, node_count_unfold in Hcount. lia.
  - destruct Hall as [|node v nodes l Hnode Hrest]; [reflexivity|].
    destruct node as [label url children].
    assert (exists d, v = VDict d) as [d ->] by (inversion Hnode; eauto).
    destruct (ui_visit_represented fs cls _ _ _ _ Hnode) as (kids & Hkids & Hvisit).
    cbn [app]. rewrite ui_loop_cons, Hvisit.
    cbn [flat_map]. rewrite walk_unfold. cbn [app visit_all url_of].
    destruct url as [url|]; [|reflexivity].
    rewrite app_assoc, (IH (rev children ++ nodes)).
    + rewrite flat_map_app. reflexivity.
    + rewrite stack_count_rev_app.
      rewrite stack_count_cons, node_count_unfold in Hcount. lia.
    + apply all_represent_app; [apply all_represent_rev, Hkids | exact Hrest].
Qed.

(** X19.  A section of [ui] whose value is a list (as the administration
    pages are declared) makes the validator raise a TypeError when the loop
    comes to it and asks the list for its [url]: that is, when the sections
    that follow it in the descriptor, which the loop visits before it, are
    items of the described shape that all have a [url]. *)
Theorem list_valued_section_raises fs ctx classes cls d before key pages after nodes :
  extension_classes ctx = Some classes ->
  classes_get "webapp" classes = Some cls ->
  wired cls ->
  descriptor ctx = Some (VDict d) ->
  items_get (VStr "ui") d = Some (VDict (before ++ (key, VList pages) :: after)) ->
  all_represent nodes (map snd after) ->
  List.find without_url (flat_map walk (rev nodes)) = None ->
  validate_webapp_extension fs ctx = inl TypeError.
Proof.
  intros Hctx Hcls [Hwrapped Hrouter] Hdescriptor Hui Hafter Hurls.
  unfold validate_webapp_extension. rewrite Hctx.
  cbn [lookup_key mret py_ret ret mbind py_bind bind].
  rewrite Hcls, Hwrapped, Hrouter, Hdescriptor.
  cbn [negb lookup_key contains getitem hashable values mret py_ret ret mbind py_bind bind].
  rewrite Hui. cbn [values mret py_ret ret mbind py_bind bind].
  fold (extension_json_of cls).
  rewrite map_app. cbn [map snd]. rewrite rev_app_distr. cbn [rev]. rewrite <- !app_assoc.
  rewrite (ui_loop_prefix fs cls (stack_count (rev nodes)) (rev nodes))
    by (try apply all_represent_rev; auto).
  rewrite (visit_all_urls _ _ _ Hurls). cbn [app].
  rewrite ui_loop_cons. reflexivity.
Qed.

End WebAppOutcomes.

(** ** The files the validators name *)

Section Paths.
Context `{Externals}.

Lemma has_sep_cons c s : has_sep (String c s) = Ascii.eqb c sep || has_sep s.
Proof.
  unfold has_sep, substring_of. cbn [String.index String.prefix].
  destruct (ascii_dec sep c) as [<-|Hne].
  - destruct s; reflexivity.
  - assert (Ascii.eqb c sep = false) as -> by (apply Ascii.eqb_neq; congruence).
    cbn [orb]. destruct (String.index 0 (String sep EmptyString) s); reflexivity.
Qed.

Lemma has_sep_app a b : has_sep (a +:+ b) = has_sep a || has_sep b.
Proof.
  induction a as [|c a IH]; [reflexivity|].
  rewrite append_cons, !has_sep_cons, IH, orb_assoc. reflexivity.
Qed.

Lemma last_segment_cons c s :
  last_segment sep (String c s)
  = if Ascii.eqb c sep || has_sep s then last_segment sep s else String c s.
Proof.
  cbn [last_segment]. destruct (Ascii.eqb c sep); [reflexivity|].
  unfold has_sep, substring_of. cbn [orb].
  destruct (String.index 0 (String sep EmptyString) s); reflexivity.
Qed.

Lemma last_segment_whole name : has_sep name = false -> last_segment sep name = name.
Proof.
  destruct name as [|c name]; [reflexivity|].
  rewrite last_segment_cons, has_sep_cons. intros ->. reflexivity.
Qed.

Lemma last_segment_after folder name :
  has_sep name = false ->
  last_segment sep (folder +:+ String sep name) = name.
Proof.
  intros Hname. induction folder as [|c folder IH].
  - change (EmptyString +:+ String sep name) with (String sep name).
    rewrite last_segment_cons, Ascii.eqb_refl. apply last_segment_whole, Hname.
  - rewrite append_cons, last_segment_cons, has_sep_app, has_sep_cons, Ascii.eqb_refl.
    rewrite orb_true_r, orb_true_r. exact IH.
Qed.

Lemma last_segment_no_sep s : has_sep (last_segment sep s) = false.
Proof.
  induction s as [|c s IH]; [reflexivity|].
  rewrite last_segment_cons. destruct (Ascii.eqb c sep || has_sep s) eqn:Hc; [exact IH|].
  rewrite has_sep_cons. exact Hc.
Qed.

(** X20.  The static file of a ui item is named by what follows the last
    slash of its [url], and the rest of the [url] is not looked at: an item
    whose [url] is a file name, or any path ending in that file name, is
    looked for at [static_root/<name>] beside the source of the class, and
    its [url] is recorded as missing exactly when nothing exists there. *)
Theorem static_file_named_by_last_segment fs cls d url name :
  items_get (VStr "url") d = Some (VStr url) ->
  items_get (VStr "children") d = None ->
  has_sep name = false ->
  url = name \/ (exists folder, url = folder +:+ String sep name) ->
  ui_visit fs (getsourcefile cls) (extension_json_of cls) (VDict d)
  = inr (Visited
           (if path_exists fs
                 (path_join (dirname (getsourcefile cls)) ["static_root"; name])
            then None else Some url)
           []).
Proof.
  intros Hurl Hchildren Hname Hshape. unfold ui_visit. cbn [getitem hashable].
  rewrite Hurl. cbn [get_method mret py_ret ret mbind py_bind bind]. rewrite Hchildren.
  assert (last_segment sep url = name) as ->.
  { destruct Hshape as [->|[folder ->]];
      [apply last_segment_whole | apply last_segment_after]; exact Hname. }
  reflexivity.
Qed.

Lemma head_of_path_cons c p :
  head_of_path (String c p)
  = if Ascii.eqb c sep || has_sep p then String c (head_of_path p) else EmptyString.
Proof. reflexivity. Qed.

Lemma head_of_path_no_sep s : has_sep s = false -> head_of_path s = EmptyString.
Proof.
  destruct s as [|c s]; [reflexivity|].
  rewrite has_sep_cons, head_of_path_cons. intros ->. reflexivity.
Qed.

Lemma head_of_path_app a b : has_sep b = false -> head_of_path (a +:+ b) = head_of_path a.
Proof.
  intros Hb. induction a as [|c a IH]; [apply head_of_path_no_sep, Hb|].
  rewrite append_cons, !head_of_path_cons, has_sep_app, Hb, orb_false_r, IH. reflexivity.
Qed.

Lemma head_of_path_sep a :
  head_of_path (a +:+ String sep EmptyString) = a +:+ String sep EmptyString.
Proof.
  induction a as [|c a IH]; [reflexivity|].
  rewrite append_cons, head_of_path_cons, has_sep_app, IH.
  replace (has_sep (String sep EmptyString)) with true by reflexivity.
  rewrite !orb_true_r. reflexivity.
Qed.

Lemma head_of_path_all_sep a : all_sep a = true -> head_of_path a = a.
Proof.
  induction a as [|c a IH]; [reflexivity|]. cbn [all_sep]. intros Ha.
  apply andb_true_iff in Ha as [Hc Ha]. rewrite head_of_path_cons, Hc, (IH Ha). reflexivity.
Qed.

Lemma rstrip_sep_end h : endswith_sep (rstrip_sep h) = false.
Proof.
  induction h as [|c h IH]; [reflexivity|]. cbn [rstrip_sep].
  destruct (rstrip_sep h) as [|d t] eqn:Ht.
  - destruct (Ascii.eqb c sep) eqn:Hc; [reflexivity|]. cbn [endswith_sep]. exact Hc.
  - exact IH.
Qed.

Lemma all_sep_end s : all_sep s = true -> s = EmptyString \/ endswith_sep s = true.
Proof.
  induction s as [|c s IH]; [left; reflexivity|]. cbn [all_sep]. intros Hs.
  apply andb_true_iff in Hs as [Hc Hs]. right.
  destruct s as [|d s]; [exact Hc|].
  destruct (IH Hs) as [Habs|Hend]; [discriminate|exact Hend].
Qed.

Lemma rstrip_sep_app_sep a : rstrip_sep (a +:+ String sep EmptyString) = rstrip_sep a.
Proof.
  induction a as [|c a IH]; [reflexivity|].
  rewrite append_cons. cbn [rstrip_sep]. rewrite IH. reflexivity.
Qed.

Lemma rstrip_sep_id s : endswith_sep s = false -> rstrip_sep s = s.
Proof.
  induction s as [|c s IH]; [reflexivity|]. cbn [rstrip_sep].
  destruct s as [|d s].
  - cbn [endswith_sep rstrip_sep]. intros ->. reflexivity.
  - intros Hend.
    change (endswith_sep (String c (String d s))) with (endswith_sep (String d s)) in Hend.
    rewrite (IH Hend). reflexivity.
Qed.

Lemma all_sep_app a b : all_sep (a +:+ b) = all_sep a && all_sep b.
Proof.
  induction a as [|c a IH]; [reflexivity|].
  rewrite append_cons. cbn [all_sep]. rewrite IH, andb_assoc. reflexivity.
Qed.

Lemma endswith_sep_app a c b :
  endswith_sep (a +:+ String c b) = endswith_sep (String c b).
Proof.
  induction a as [|d a IH]; [reflexivity|].
  rewrite append_cons.
  destruct (a +:+ String c b) as [|e t] eqn:Hrest.
  - destruct a; discriminate.
  - change (endswith_sep (String d (String e t))) with (endswith_sep (String e t)). exact IH.
Qed.

Lemma dirname_directory p : directory (dirname p).
Proof.
  unfold directory, dirname.
  destruct (String.eqb (head_of_path p) EmptyString) eqn:Hnil.
  - apply String.eqb_eq in Hnil. rewrite Hnil. left. reflexivity.
  - destruct (all_sep (head_of_path p)) eqn:Hall; cbn [negb andb].
    + left. exact Hall.
    + right. apply rstrip_sep_end.
Qed.

Lemma startswith_sep name :
  has_sep name = false -> startswith (String sep EmptyString) name = false.
Proof.
  destruct name as [|c name]; [reflexivity|]. rewrite has_sep_cons.
  intros Hc. apply orb_false_iff in Hc as [Hc _].
  unfold startswith. cbn [String.prefix]. destruct (ascii_dec sep c) as [<-|]; [|reflexivity].
  rewrite Ascii.eqb_refl in Hc. discriminate.
Qed.

(** The directory of a name joined to a directory is that directory. *)
Lemma dirname_join_step p name :
  directory p -> has_sep name = false ->
  dirname (join_step p name) = p.
Proof.
  intros Hp Hname. unfold join_step. rewrite (startswith_sep _ Hname).
  destruct (String.eqb p EmptyString) eqn:Hnil.
  { apply String.eqb_eq in Hnil as ->. cbn [orb].
    change (EmptyString +:+ name) with name.
    unfold dirname. rewrite (head_of_path_no_sep _ Hname). reflexivity. }
  cbn [orb]. destruct (endswith_sep p) eqn:Hend.
  - destruct Hp as [Hall|Habs]; [|congruence].
    unfold dirname. rewrite (head_of_path_app _ _ Hname), (head_of_path_all_sep _ Hall), Hall.
    rewrite andb_false_r. reflexivity.
  - assert (Hnot : all_sep p = false).
    { destruct (all_sep p) eqn:Hall; [|reflexivity].
      destruct (all_sep_end _ Hall) as [->|Habs]; [discriminate Hnil | congruence]. }
    unfold dirname.
    replace (p +:+ String sep EmptyString +:+ name)
      with ((p +:+ String sep EmptyString) +:+ name) by apply string_app_assoc.
    rewrite (head_of_path_app _ _ Hname), head_of_path_sep.
    rewrite all_sep_app, Hnot. cbn [andb negb].
    assert (String.eqb (p +:+ String sep EmptyString) EmptyString = false) as ->
      by (destruct p; reflexivity).
    cbn [negb andb]. rewrite rstrip_sep_app_sep. apply rstrip_sep_id, Hend.
Qed.

(** X21.  The files the validators name lie beside the source of the class,
    whatever its path: the directory of the [extension.json] they report is
    the directory of the source file, and every static file is looked for
    directly inside the directory [static_root] of that directory, whatever
    the [url]. *)
Theorem files_beside_the_class cls :
  dirname (extension_json_of cls) = dirname (getsourcefile cls)
  /\ forall url,
       dirname (static_path cls url)
       = path_join (dirname (getsourcefile cls)) ["static_root"].
Proof.
  split.
  - unfold extension_json_of, path_join. cbn [fold_left].
    apply dirname_join_step; [apply dirname_directory | reflexivity].
  - intros url. unfold static_path, path_join. cbn [fold_left].
    apply dirname_join_step; [|apply last_segment_no_sep].
    right. unfold join_step.
    replace (startswith (String sep EmptyString) "static_root") with false by reflexivity.
    destruct (_ || _).
    + apply (endswith_sep_app _ "s" "tatic_root").
    + rewrite <- string_app_assoc. apply (endswith_sep_app _ "s" "tatic_root").
Qed.

End Paths.

(** ** [validate_docker_compose_yml] on a service that is no mapping *)

Section Services.
Context `{Externals}.

(** The loop over the services whose declarations are mappings. *)
Lemma services_loop_prefix compose_file runner_image data services :
  getitem data (VStr "services") = inr (VDict services) ->
  unique_keys services ->
  forall good done rest msgs,
    services = done ++ good ++ rest -> Forall service_entry good ->
    services_loop compose_file runner_image data (map fst (good ++ rest)) msgs
    = services_loop compose_file runner_image data (map fst rest)
        (msgs ++ image_errors compose_file runner_image good).
Proof.
  intros Hdata Hunique good.
  induction good as [|[k v] good IH]; intros done rest msgs Hsplit Hentries.
  - cbn [app image_errors flat_map]. rewrite app_nil_r. reflexivity.
  - apply Forall_cons in Hentries as [[Hk [entry Hv]] Hentries'].
    cbn [fst snd] in Hk, Hv. subst v.
    cbn [app map fst]. rewrite services_loop_cons, Hdata, bind_ret.
    assert (Hown : items_get k services = Some (VDict entry)).
    { rewrite Hsplit in Hunique |- *. apply items_get_own; assumption. }
    unfold getitem at 1. rewrite Hk, Hown, bind_ret.
    cbn [get_method mret py_ret ret mbind py_bind bind].
    rewrite (IH (done ++ [(k, VDict entry)])) by (rewrite <- ?app_assoc; auto).
    unfold image_errors. cbn [flat_map fst snd image_of].
    destruct (image_differs _ _); rewrite <- ?app_assoc; reflexivity.
Qed.

(** X22.  A service whose declaration is no mapping (a service without a
    body, which YAML reads as [None], or a scalar or a list) makes
    [validate_docker_compose_yml] raise an AttributeError when the loop asks
    it for its [image], the services before it being mappings: the findings
    about those are lost. *)
Theorem service_without_mapping_raises fs project_dir ctx data version good key declaration
    rest :
  isfile fs (path_join project_dir ["docker-compose.yml"]) = true ->
  safe_load fs (path_join project_dir ["docker-compose.yml"]) = Some data ->
  runner_version ctx = Some version ->
  getitem data (VStr "services") = inr (VDict (good ++ (key, declaration) :: rest)) ->
  unique_keys (good ++ (key, declaration) :: rest) ->
  Forall service_entry good ->
  hashable key = true ->
  (forall entry, declaration <> VDict entry) ->
  validate_docker_compose_yml fs project_dir ctx = inl AttributeError.
Proof.
  intros Hfile Hload Hversion Hdata Hunique Hgood Hkey Hdeclaration.
  unfold validate_docker_compose_yml. rewrite Hfile, Hload, Hversion.
  cbn [negb lookup_key mret py_ret ret mbind py_bind bind].
  rewrite Hdata. cbn [iter mret py_ret ret mbind py_bind bind].
  rewrite map_app, <- (map_app fst good).
  rewrite (services_loop_prefix _ _ _ _ Hdata Hunique good [] _ []) by auto.
  cbn [app map fst]. rewrite services_loop_cons, Hdata, bind_ret.
  unfold getitem at 1. rewrite Hkey, (items_get_own _ _ _ _ Hunique Hkey), bind_ret.
  destruct declaration; try reflexivity. exfalso. apply (Hdeclaration d). reflexivity.
Qed.

End Services.

(** ** The validators that only report *)

Section Reporting.
Context `{Externals}.

(** X23.  Five of the validators never halt the chain, whatever they are
    given: a result of [validate_events], [validate_schedulables],
    [validate_variables] or [validate_anvil_extension] has [must_halt] false
    and carries the context it was given, unchanged; a result of
    [validate_docker_compose_yml] has [must_halt] false and carries no
    context. *)
Theorem reporting_validators_never_halt cfg fs project_dir ctx :
  (forall r, validate_docker_compose_yml fs project_dir ctx = inr r ->
     must_halt r = false /\ context_patch r = None)
  /\ (forall r, validate_events cfg ctx = inr r ->
        must_halt r = false /\ context_patch r = Some ctx)
  /\ (forall r, validate_schedulables ctx = inr r ->
        must_halt r = false /\ context_patch r = Some ctx)
  /\ (forall r, validate_variables ctx = inr r ->
        must_halt r = false /\ context_patch r = Some ctx)
  /\ (forall r, validate_anvil_extension ctx = inr r ->
        anvil_must_halt r = false /\ anvil_context r = Some ctx).
Proof.
  refine (conj _ (conj _ (conj _ (conj _ _)))); intros r.
  all: unfold validate_docker_compose_yml, validate_events, validate_schedulables,
         validate_variables, validate_anvil_extension.
  all: repeat step_returned.
Qed.

End Reporting.

(** ** The project loader: [validate_pyproject_toml] *)

Section Loader.
Import Project.
Context `{Loader}.

(** [rsplit] splits at the last separator. *)
Lemma rsplit_last sep before after :
  occurs sep after = false ->
  rsplit sep (before +:+ String sep after) = Some (before, after).
Proof.
  intros Hafter.
  assert (Hnone : rsplit sep after = None).
  { induction after as [|c after IH]; [reflexivity|].
    cbn [occurs] in Hafter. apply orb_false_iff in Hafter as [Hc Hafter].
    cbn [rsplit]. rewrite (IH Hafter), Hc. reflexivity. }
  induction before as [|c before IH].
  - change (EmptyString +:+ String sep after) with (String sep after).
    cbn [rsplit]. rewrite Hnone, Ascii.eqb_refl. reflexivity.
  - rewrite append_cons. cbn [rsplit]. rewrite IH. reflexivity.
Qed.

Lemma rsplit_none sep s : occurs sep s = false -> rsplit sep s = None.
Proof.
  induction s as [|c s IH]; [reflexivity|].
  cbn [occurs]. intros Hs. apply orb_false_iff in Hs as [Hc Hs].
  cbn [rsplit]. rewrite (IH Hs), Hc. reflexivity.
Qed.

(** Setting a key that is not there appends it. *)
Lemma setitem_fresh {A} k (v : A) d :
  k ∉ map fst d -> setitem k v d = d ++ [(k, v)].
Proof.
  induction d as [|[k' v'] d IH]; intros Hfresh; [reflexivity|].
  cbn [map fst] in Hfresh. apply not_elem_of_cons in Hfresh as [Hne Hfresh].
  cbn [setitem]. apply String.eqb_neq in Hne. rewrite Hne, IH by exact Hfresh. reflexivity.
Qed.

Lemma deprecated_loop_findings m defined pairs msgs :
  deprecated_loop m defined pairs msgs
  = msgs ++ flat_map (fun pair =>
                        if existsb (is_response (fst pair)) defined
                        then [Item WARNING (deprecated_message (fst pair) (snd pair))
                                (get_module_context m (response_name (fst pair)))]
                        else [])
              pairs.
Proof.
  revert msgs. induction pairs as [|[deprecated_cls cls_name] pairs IH]; intros msgs.
  - simpl. rewrite app_nil_r. reflexivity.
  - cbn [deprecated_loop flat_map fst snd]. rewrite IH.
    destruct (existsb _ _); rewrite <- ?app_assoc; reflexivity.
Qed.

Lemma deprecated_loop_warnings m msgs :
  deprecated_loop m (map snd (class_members m)) deprecated_classes msgs
  = msgs ++ deprecated_warnings m.
Proof. apply deprecated_loop_findings. Qed.

Lemma classes_of_types found : map fst (classes_of found) = map fst found.
Proof. unfold classes_of. rewrite map_map. reflexivity. Qed.

(** The types that load are those the plugin table declares. *)
Lemma loaded_types sys_path d types found :
  loaded sys_path d types found ->
  map fst found = List.filter (fun t => has_key t d) types.
Proof.
  induction 1 as [|t types found Hnone _ IH|t types m cls found Hloads _ IH].
  - reflexivity.
  - cbn [List.filter]. unfold has_key at 1. rewrite Hnone. exact IH.
  - destruct Hloads as (reference & package & name & Href & _).
    cbn [List.filter map fst]. unfold has_key at 1. rewrite Href, IH. reflexivity.
Qed.

(** The loop over types that load. *)
Lemma extensions_loop_loaded sys_path descriptor_file d types found :
  loaded sys_path d types found -> NoDup types ->
  forall rest msgs extensions,
    (forall t, t ∈ types -> t ∉ map fst extensions) ->
    extensions_loop sys_path descriptor_file d (types ++ rest) msgs extensions
    = extensions_loop sys_path descriptor_file d rest
        (msgs ++ warnings_of found) (extensions ++ classes_of found).
Proof.
  induction 1 as [|t types found Hnone _ IH|t types m cls found Hloads Hloaded IH];
    intros Hnodup rest msgs extensions Hfresh.
  - cbn [app]. unfold warnings_of, classes_of. cbn [flat_map map].
    rewrite !app_nil_r. reflexivity.
  - inversion Hnodup; subst. cbn [app extensions_loop]. rewrite Hnone.
    apply IH; [assumption|]. intros t' Ht'. apply Hfresh. right. exact Ht'.
  - inversion Hnodup as [|? ? Hnotin Hnodup']; subst.
    destruct Hloads as (reference & package & name & Href & Hsplit & Himport & Hattr).
    cbn [app extensions_loop]. rewrite Href, Hsplit, Himport, Hattr.
    rewrite setitem_fresh by (apply Hfresh; left).
    rewrite IH; [|assumption|].
    + rewrite deprecated_loop_warnings. unfold warnings_of, classes_of.
      cbn [flat_map map fst snd]. rewrite <- !app_assoc. reflexivity.
    + intros t' Ht'. rewrite map_app. cbn [map fst]. intros Hin.
      apply elem_of_app in Hin as [Hin|Hin].
      * apply (Hfresh t'); [right; exact Ht' | exact Hin].
      * apply list_elem_of_singleton in Hin as ->. contradiction.
Qed.

Lemma extension_types_distinct : NoDup extension_types.
Proof.
  unfold extension_types. repeat constructor; rewrite ?elem_of_cons, ?elem_of_nil;
    intuition discriminate.
Qed.

(** The first part of the validator on a manifest of the expected shape. *)
Lemma read_manifest_of descriptor_file data dependencies extension_dict :
  manifest_of data dependencies extension_dict ->
  read_manifest descriptor_file data
  = inr (dependency_findings descriptor_file dependencies, extension_dict).
Proof.
  intros (tool & poetry & Htool & Hpoetry & Hdeps & Hext).
  unfold read_manifest. rewrite Htool, bind_ret, Hpoetry, bind_ret.
  cbn [getitem hashable]. rewrite Hdeps, bind_ret.
  unfold dependency_check, dependency_findings, has_key.
  cbn [contains get_method ret mret py_ret mbind py_bind bind].
  destruct (items_get (VStr "connect-extension-runner") dependencies);
    [|destruct (items_get (VStr "connect-eaas-core") dependencies)];
    cbn [negb app ret mret py_ret mbind py_bind bind];
    cbn [get_method] in Hext; rewrite Hext; reflexivity.
Qed.

(** The loop that comes to its end has loaded every declared type. *)
Lemma extensions_loop_returns sys_path descriptor_file d types : NoDup types ->
  forall msgs extensions msgs' extensions',
    (forall t, t ∈ types -> t ∉ map fst extensions) ->
    extensions_loop sys_path descriptor_file d types msgs extensions
    = inr (inr (msgs', extensions')) ->
    exists found,
      loaded sys_path d types found
      /\ msgs' = msgs ++ warnings_of found
      /\ extensions' = extensions ++ classes_of found.
Proof.
  induction 1 as [|t types Hnotin Hnodup IH]; intros msgs extensions msgs' extensions' Hfresh.
  - intros [= <- <-]. exists []. split; [constructor|].
    unfold warnings_of, classes_of. cbn [flat_map map]. rewrite !app_nil_r. auto.
  - cbn [extensions_loop].
    destruct (items_get (VStr t) d) as [[| | |reference| |]|] eqn:Href; try discriminate.
    + destruct (rsplit ":" reference) as [[package name]|] eqn:Hsplit; [|discriminate].
      destruct (import_module sys_path package) as [m|err|e] eqn:Himport; try discriminate.
      destruct (attribute m name) as [cls|] eqn:Hattr; [|discriminate].
      rewrite setitem_fresh by (apply Hfresh; left).
      intros Hloop. apply IH in Hloop as (found & Hloaded & -> & ->).
      * exists ((t, (m, cls)) :: found). split.
        -- apply Loaded_take; [|exact Hloaded]. exists reference, package, name. auto.
        -- rewrite deprecated_loop_warnings. unfold warnings_of, classes_of.
           cbn [flat_map map fst snd]. rewrite <- !app_assoc. auto.
      * intros t' Ht'. rewrite map_app. cbn [map fst]. intros Hin.
        apply elem_of_app in Hin as [Hin|Hin].
        -- apply (Hfresh t'); [right; exact Ht' | exact Hin].
        -- apply list_elem_of_singleton in Hin as ->. contradiction.
    + intros Hloop. apply IH in Hloop as (found & Hloaded & -> & ->).
      * exists found. split; [apply Loaded_skip; assumption | auto].
      * intros t' Ht'. apply Hfresh. right. exact Ht'.
Qed.

(** The loop that leaves early leaves with a halting result. *)
Lemma extensions_loop_halts sys_path descriptor_file d types :
  forall msgs extensions result,
    extensions_loop sys_path descriptor_file d types msgs extensions = inr (inl result) ->
    must_halt result = true /\ context_patch result = None.
Proof.
  induction types as [|t types IH]; intros msgs extensions result; [discriminate|].
  cbn [extensions_loop].
  destruct (items_get (VStr t) d) as [[| | |reference| |]|]; try discriminate; [|apply IH].
  destruct (rsplit ":" reference) as [[package name]|]; [|discriminate].
  destruct (import_module sys_path package) as [m|err|e]; try discriminate.
  - destruct (attribute m name) as [cls|]; [apply IH | discriminate].
  - intros [= <-]. split; reflexivity.
Qed.

(** The validator on a manifest whose declared types all load. *)
Lemma validate_pyproject_toml_loaded cwd sys_path project_dir data dependencies
    extension_dict found :
  load_project_toml_file project_dir = inr data ->
  manifest_of data dependencies (Some (VDict extension_dict)) ->
  let descriptor_file := path_join project_dir ["pyproject.toml"] in
  let sys_path' := sys_path ++ [path_join cwd [project_dir]] in
  loaded sys_path' extension_dict extension_types found ->
  validate_pyproject_toml cwd sys_path project_dir
  = (inr (match found with
          | [] =>
              Result
                (dependency_findings descriptor_file dependencies
                 ++ [Item ERROR invalid_declaration_message (in_file descriptor_file)])
                true None
          | _ =>
              Result
                (dependency_findings descriptor_file dependencies ++ warnings_of found)
                false (Some (Context (Some (classes_of found)) None None))
          end),
     sys_path').
Proof.
  intros Hload Hmanifest descriptor_file sys_path' Hloaded.
  unfold validate_pyproject_toml. rewrite Hload.
  fold descriptor_file. rewrite (read_manifest_of _ _ _ _ Hmanifest). fold sys_path'.
  pose proof (extensions_loop_loaded sys_path' descriptor_file _ _ _ Hloaded
                extension_types_distinct []
                (dependency_findings descriptor_file dependencies) []) as Hloop.
  rewrite app_nil_r in Hloop. unfold extension_types in Hloop at 2.
  rewrite Hloop by (intros t _ Hin; inversion Hin).
  cbn [extensions_loop app].
  destruct found as [|x found]; [|reflexivity].
  unfold warnings_of, classes_of. cbn [flat_map map]. rewrite app_nil_r. reflexivity.
Qed.

(** X24.  The loader on a manifest with the table [tool.poetry], its
    dependencies and a plugin table, when every extension type the table
    declares among [extension], [webapp] and [anvil] refers to a class that
    loads: the result holds the finding about the dependencies (a WARNING
    for the deprecated runner, which takes precedence, an ERROR when neither
    it nor the library is there), then the WARNINGs about the deprecated
    response classes of each module; it does not halt and patches
    [extension_classes] with the classes.  When the table declares none of
    the three types, the result is the finding about the dependencies and
    one ERROR, with which it halts.  Either way [sys.path] has grown by the
    project directory. *)
Theorem declared_extensions_loaded cwd sys_path project_dir data dependencies
    extension_dict found :
  load_project_toml_file project_dir = inr data ->
  manifest_of data dependencies (Some (VDict extension_dict)) ->
  let descriptor_file := path_join project_dir ["pyproject.toml"] in
  let sys_path' := sys_path ++ [path_join cwd [project_dir]] in
  loaded sys_path' extension_dict extension_types found ->
  validate_pyproject_toml cwd sys_path project_dir
  = (inr (match found with
          | [] =>
              Result
                (dependency_findings descriptor_file dependencies
                 ++ [Item ERROR invalid_declaration_message (in_file descriptor_file)])
                true None
          | _ =>
              Result
                (dependency_findings descriptor_file dependencies ++ warnings_of found)
                false (Some (Context (Some (classes_of found)) None None))
          end),
     sys_path').
Proof. apply validate_pyproject_toml_loaded. Qed.

(** The loop that reaches a type after those before it have loaded. *)
Lemma extensions_loop_reaches sys_path descriptor_file d before t after found msgs :
  extension_types = before ++ t :: after ->
  loaded sys_path d before found ->
  extensions_loop sys_path descriptor_file d extension_types msgs []
  = extensions_loop sys_path descriptor_file d (t :: after)
      (msgs ++ warnings_of found) (classes_of found).
Proof.
  intros Htypes Hloaded. rewrite Htypes.
  assert (Hnodup : NoDup before).
  { pose proof extension_types_distinct as Hall. rewrite Htypes in Hall.
    apply NoDup_app in Hall. tauto. }
  rewrite (extensions_loop_loaded _ _ _ _ _ Hloaded Hnodup)
    by (intros t' _ Hin; inversion Hin).
  reflexivity.
Qed.

(** X25.  When the import of the module of a declared extension type fails
    with an ImportError, the types before it having loaded, the loader
    halts: its result holds the findings gathered so far and one ERROR that
    quotes the reference and the text of the error, it carries no context,
    so that the classes loaded before are dropped, and the types after it
    are not looked at. *)
Theorem import_failure_halts cwd sys_path project_dir data dependencies extension_dict
    before extension_type after found reference package name err :
  load_project_toml_file project_dir = inr data ->
  manifest_of data dependencies (Some (VDict extension_dict)) ->
  let descriptor_file := path_join project_dir ["pyproject.toml"] in
  let sys_path' := sys_path ++ [path_join cwd [project_dir]] in
  extension_types = before ++ extension_type :: after ->
  loaded sys_path' extension_dict before found ->
  items_get (VStr extension_type) extension_dict = Some (VStr reference) ->
  rsplit ":" reference = Some (package, name) ->
  import_module sys_path' package = ImportError err ->
  validate_pyproject_toml cwd sys_path project_dir
  = (inr (Result
            (dependency_findings descriptor_file dependencies ++ warnings_of found
             ++ [Item ERROR (cannot_load_message reference err) (in_file descriptor_file)])
            true None),
     sys_path').
Proof.
  intros Hload Hmanifest descriptor_file sys_path' Htypes Hloaded Href Hsplit Himport.
  unfold validate_pyproject_toml. rewrite Hload.
  fold descriptor_file. rewrite (read_manifest_of _ _ _ _ Hmanifest). fold sys_path'.
  change ["extension"; "webapp"; "anvil"] with extension_types.
  rewrite (extensions_loop_reaches _ _ _ _ _ _ _ _ Htypes Hloaded).
  cbn [extensions_loop]. rewrite Href, Hsplit, Himport, <- app_assoc. reflexivity.
Qed.

(** X26.  Where the loader raises on a declared extension type, the types
    before it having loaded: a ValueError when the reference holds no colon
    (the split gives one part where two are unpacked), an AttributeError
    when the reference is no string, and an AttributeError when the module
    imports and does not bind the name that follows the last colon.  No
    result is returned, and [sys.path] keeps the entry that was added. *)
Theorem malformed_reference_raises cwd sys_path project_dir data dependencies extension_dict
    before extension_type after found value :
  load_project_toml_file project_dir = inr data ->
  manifest_of data dependencies (Some (VDict extension_dict)) ->
  let sys_path' := sys_path ++ [path_join cwd [project_dir]] in
  extension_types = before ++ extension_type :: after ->
  loaded sys_path' extension_dict before found ->
  items_get (VStr extension_type) extension_dict = Some value ->
  (forall reference, value = VStr reference -> occurs ":" reference = false ->
   validate_pyproject_toml cwd sys_path project_dir = (inl ValueError, sys_path'))
  /\ (is_str value = false ->
      validate_pyproject_toml cwd sys_path project_dir
      = (inl (Builtin AttributeError), sys_path'))
  /\ (forall package name m,
        value = VStr (package +:+ String ":" name) -> occurs ":" name = false ->
        import_module sys_path' package = Imported m -> attribute m name = None ->
        validate_pyproject_toml cwd sys_path project_dir
        = (inl (Builtin AttributeError), sys_path')).
Proof.
  intros Hload Hmanifest sys_path' Htypes Hloaded Hvalue.
  unfold validate_pyproject_toml. rewrite Hload.
  rewrite (read_manifest_of _ _ _ _ Hmanifest). fold sys_path'.
  change ["extension"; "webapp"; "anvil"] with extension_types.
  rewrite (extensions_loop_reaches _ _ _ _ _ _ _ _ Htypes Hloaded).
  cbn [extensions_loop]. rewrite Hvalue. split; [|split].
  - intros reference -> Hnone. rewrite (rsplit_none _ _ Hnone). reflexivity.
  - intros Hnot. destruct value; try discriminate; reflexivity.
  - intros package name m -> Hname Himport Hattr.
    rewrite (rsplit_last _ _ _ Hname), Himport, Hattr. reflexivity.
Qed.

(** X27.  The two early returns of the loader, which leave [sys.path] as it
    was: a result of the manifest reader is returned as it is; and a
    manifest whose plugin table holds no mapping under [connect.eaas.ext]
    (or that has no plugin table) gives the finding about the dependencies
    followed by one ERROR, with which the loader halts. *)
Theorem no_declaration_halts cwd sys_path project_dir :
  (forall result, load_project_toml_file project_dir = inl result ->
   validate_pyproject_toml cwd sys_path project_dir = (inr result, sys_path))
  /\ (forall data dependencies extension_dict,
        load_project_toml_file project_dir = inr data ->
        manifest_of data dependencies extension_dict ->
        (forall d, extension_dict <> Some (VDict d)) ->
        let descriptor_file := path_join project_dir ["pyproject.toml"] in
        validate_pyproject_toml cwd sys_path project_dir
        = (inr (Result
                  (dependency_findings descriptor_file dependencies
                   ++ [Item ERROR no_declaration_message (in_file descriptor_file)])
                  true None),
           sys_path)).
Proof.
  split.
  - intros result Hload. unfold validate_pyproject_toml. rewrite Hload. reflexivity.
  - intros data dependencies extension_dict Hload Hmanifest Hnone descriptor_file.
    unfold validate_pyproject_toml. rewrite Hload.
    fold descriptor_file. rewrite (read_manifest_of _ _ _ _ Hmanifest).
    destruct extension_dict as [[| | | | |d]|]; try reflexivity.
    exfalso. apply (Hnone d). reflexivity.
Qed.

(** X28.  A result of the loader that does not halt patches
    [extension_classes] with at least one class, each the class its
    reference names in the module that was imported for it, and the keys of
    the dictionary are the declared types among [extension], [webapp] and
    [anvil] in this order, whatever the order in which [pyproject.toml]
    lists them. *)
Theorem loaded_classes_in_fixed_order cwd sys_path project_dir data dependencies
    extension_dict result sys_path'' :
  load_project_toml_file project_dir = inr data ->
  manifest_of data dependencies (Some (VDict extension_dict)) ->
  validate_pyproject_toml cwd sys_path project_dir = (inr result, sys_path'') ->
  must_halt result = false ->
  exists found,
    loaded (sys_path ++ [path_join cwd [project_dir]]) extension_dict extension_types found
    /\ found <> []
    /\ context_patch result = Some (Context (Some (classes_of found)) None None)
    /\ map fst (classes_of found) = declared_types extension_dict
    /\ sys_path'' = sys_path ++ [path_join cwd [project_dir]].
Proof.
  intros Hload Hmanifest. unfold validate_pyproject_toml. rewrite Hload.
  rewrite (read_manifest_of _ _ _ _ Hmanifest).
  change ["extension"; "webapp"; "anvil"] with extension_types.
  destruct (extensions_loop _ _ _ _ _ _) as [e|[halted|[msgs extensions]]] eqn:Hloop.
  - discriminate.
  - apply extensions_loop_halts in Hloop as [Hhalt _].
    intros [= <- <-] Hgo. congruence.
  - apply extensions_loop_returns in Hloop as (found & Hloaded & -> & Hclasses);
      [|apply extension_types_distinct|intros t _ Hin; inversion Hin].
    cbn [app] in Hclasses. subst extensions.
    destruct found as [|x found]; [intros [= <- <-]; discriminate|].
    intros [= <- <-] _. exists (x :: found).
    split; [exact Hloaded|]. split; [discriminate|]. split; [reflexivity|].
    split; [|reflexivity].
    rewrite classes_of_types. apply (loaded_types _ _ _ _ Hloaded).
Qed.

(** X29.  The loader and [validate_extension_class] together: of the
    classes a project declares, the one whose descriptor is loaded, checked
    and patched into the context is the class of the first declared type in
    the order [extension], [webapp], [anvil].  With the classes the loader
    returns, all of the right bases, and a descriptor of that class that is
    a mapping, [validate_extension_class] returns the WARNINGs about that
    descriptor and patches it into the context. *)
Theorem first_declared_type_gives_descriptor cwd sys_path project_dir data dependencies
    extension_dict extension_type m cls others d :
  load_project_toml_file project_dir = inr data ->
  manifest_of data dependencies (Some (VDict extension_dict)) ->
  loaded (sys_path ++ [path_join cwd [project_dir]]) extension_dict extension_types
    ((extension_type, (m, cls)) :: others) ->
  first_wrong_base (classes_of ((extension_type, (m, cls)) :: others)) = None ->
  get_descriptor cls = Some (VDict d) ->
  exists result patch,
    fst (validate_pyproject_toml cwd sys_path project_dir) = inr result
    /\ must_halt result = false
    /\ context_patch result = Some patch
    /\ hd_error (declared_types extension_dict) = Some extension_type
    /\ forall ctx, extension_classes ctx = extension_classes patch ->
         validate_extension_class ctx
         = inr (Result (descriptor_warnings (extension_json_of cls) d) false
                  (Some (Context None (Some (VDict d)) None))).
Proof.
  intros Hload Hmanifest Hloaded Hbases Hdescriptor.
  rewrite (validate_pyproject_toml_loaded _ _ _ _ _ _ _ Hload Hmanifest Hloaded).
  eexists _, _. split; [reflexivity|]. split; [reflexivity|]. split; [reflexivity|].
  split.
  - unfold declared_types. rewrite <- (loaded_types _ _ _ _ Hloaded). reflexivity.
  - intros ctx Hctx. cbn [extension_classes] in Hctx.
    apply (validate_extension_class_dict _ _ _ _ _ Hctx Hbases Hdescriptor).
Qed.

End Loader.

(** ** The statuses an event entry is told about *)

Section Statuses.
Context `{Externals}.

Lemma disallowed_elements definition declared status :
  status ∈ disallowed definition declared
  <-> status ∈ declared
      /\ (restricts definition = true ->
          status ∉ default [] (object_statuses definition)).
Proof.
  unfold disallowed. destruct (restricts definition); rewrite set_order_elem_of.
  - intuition.
  - pose proof (not_elem_of_nil status). intuition discriminate.
Qed.

Lemma disallowed_NoDup definition declared : NoDup (disallowed definition declared).
Proof. unfold disallowed. destruct (restricts definition); apply set_order_NoDup. Qed.

(** X30.  The status ERROR of [validate_events] for an entry of a recognized
    type that declares its statuses: the statuses it lists, in whatever
    order the set yields them, are each listed once, however often the entry
    declares them, and they are exactly the declared statuses that are not
    among those the event type allows (all the declared ones when the type
    allows none); the ERROR is appended exactly when there is such a
    status. *)
Theorem reported_statuses cfg cls event definition declared parameters source msgs :
  getattr cls (Event.method event) = inr (Function parameters source) ->
  definitions_of (get_event_definitions cfg) !! Event.event_type event = Some definition ->
  Event.statuses event = Some declared ->
  exists reported,
    NoDup reported
    /\ (forall status,
          status ∈ reported
          <-> status ∈ declared
              /\ (restricts definition = true ->
                  status ∉ default [] (object_statuses definition)))
    /\ event_step cls (definitions_of (get_event_definitions cfg)) msgs event
       = inr (msgs
              ++ match reported with
                 | [] => []
                 | _ =>
                     [Item ERROR
                        ("The status/es *" +:+ join ", " reported
                         +:+ "* are invalid for the event *" +:+ Event.event_type event
                         +:+ "*.")
                        (get_code_context (OfMember cls (Event.method event)) "@event")]
                 end
              ++ (if (List.length parameters =? 2)%nat then []
                  else [event_signature_error cls event parameters])).
Proof.
  intros Hhandler Hdefinition Hdeclared.
  exists (disallowed definition declared).
  split; [apply disallowed_NoDup|]. split; [apply disallowed_elements|].
  rewrite (event_step_checked _ _ _ _ _ _ _ (disallowed definition declared)
             Hhandler Hdefinition)
    by (rewrite Hdeclared; apply invalid_statuses_declared).
  reflexivity.
Qed.

End Statuses.

(** ** The further properties on the sample projects *)

Lemma anvil_key_checked_witness :
  let cls := anvil_class (Some "ANVIL KEY") in
  let ctx := context_of [("anvil", cls)] in
  exists findings,
    validate_anvil_extension ctx = inr (AnvilValidationResult findings false (Some ctx))
    /\ (valid_name "ANVIL KEY" -> findings = [])
    /\ (~ valid_name "ANVIL KEY" ->
        findings = [AnvilValidationItem ERROR (invalid_anvil_key_message "ANVIL KEY") cls]).
Proof.
  intros cls ctx.
  apply (anvil_key_checked ctx [("anvil", cls)] cls "ANVIL KEY");
    [reflexivity | reflexivity | reflexivity | discriminate].
Defined.

(** A key variable named as the tests name it passes; one with a space in
    its name is reported. *)
Lemma anvil_key_examples :
  validate_anvil_extension (context_of [("anvil", anvil_class (Some "ANVIL_API_KEY"))])
  = inr (AnvilValidationResult [] false
           (Some (context_of [("anvil", anvil_class (Some "ANVIL_API_KEY"))])))
  /\ validate_anvil_extension (context_of [("anvil", anvil_class (Some "ANVIL KEY"))])
     = inr (AnvilValidationResult
              [AnvilValidationItem ERROR
                 "Invalid Anvil key variable name: the value *ANVIL KEY* does not match the pattern *^[A-Za-z](?:[A-Za-z0-9_\-.]+)*$*."
                 (anvil_class (Some "ANVIL KEY"))]
              false (Some (context_of [("anvil", anvil_class (Some "ANVIL KEY"))]))).
Proof. split; reflexivity. Qed.

Lemma anvil_key_unchecked_witness :
  let ctx := context_of [("anvil", anvil_class (Some EmptyString))] in
  validate_anvil_extension ctx = inr (AnvilValidationResult [] false (Some ctx))
  /\ forall cls names msgs variable,
       dict_get "name" variable = Some (VStr EmptyString) ->
       exists state,
         variable_step cls (names, msgs) variable = inr state
         /\ In (variable_error cls (invalid_name_message EmptyString)) (snd state).
Proof.
  intros ctx.
  apply (anvil_key_unchecked (H := sample_externals) ctx
           [("anvil", anvil_class (Some EmptyString))]); [reflexivity|].
  right. exists (anvil_class (Some EmptyString)). split; [reflexivity|]. right. reflexivity.
Defined.

Lemma events_pass_iff_witness :
  let approved := purchase_event (Some ["pending"; "approved"]) in
  let change := Event.Make "process_change" "asset_purchase_request_processing"
                  (Some ["pending"]) in
  let cls := two_handlers [approved; change] in
  let ctx := extension_context cls in
  let definitions := definitions_of purchase_schema in
  exists msgs,
    validate_events purchase_schema ctx = inr (Result msgs false (Some ctx))
    /\ msgs = flat_map (event_findings cls definitions) [approved; change]
    /\ Forall (fun i => item_level i = ERROR) msgs
    /\ (List.length msgs <= 2 * 2)%nat
    /\ (msgs = [] <-> Forall (event_passes cls definitions) [approved; change]).
Proof.
  intros approved change cls ctx definitions.
  apply (events_pass_iff (H := sample_externals) purchase_schema ctx [("extension", cls)] cls);
    [reflexivity | reflexivity |].
  repeat constructor.
  - exists ["self"; "request"], "def process_purchase(self, request):". reflexivity.
  - intros definition _ _. discriminate.
  - exists ["self"], "def process_change(self):". reflexivity.
  - intros definition _ _. discriminate.
Defined.

(** The findings of that run: the status that is not allowed, and the
    handler that takes one parameter. *)
Lemma events_run_example :
  let approved := purchase_event (Some ["pending"; "approved"]) in
  let change := Event.Make "process_change" "asset_purchase_request_processing"
                  (Some ["pending"]) in
  map message
    (flat_map (event_findings (two_handlers [approved; change])
                 (definitions_of purchase_schema)) [approved; change])
  = ["The status/es *approved* are invalid for the event *asset_purchase_request_processing*.";
     "The handler for the event *asset_purchase_request_processing* has an invalid signature: *process_change(self)*"].
Proof. vm_compute. reflexivity. Qed.

Lemma schedulables_pass_iff_witness :
  let ctx := extension_context two_schedulables in
  exists msgs,
    validate_schedulables ctx = inr (Result msgs false (Some ctx))
    /\ msgs = flat_map (schedulable_findings two_schedulables)
                (get_schedulables two_schedulables)
    /\ Forall (fun i => item_level i = ERROR) msgs
    /\ (List.length msgs <= List.length (get_schedulables two_schedulables))%nat
    /\ (msgs = []
        <-> Forall (fun s => takes_two two_schedulables (Schedulable.method s))
              (get_schedulables two_schedulables)).
Proof.
  intros ctx.
  apply (schedulables_pass_iff (H := sample_externals) ctx
           [("extension", two_schedulables)] two_schedulables);
    [reflexivity | reflexivity |].
  repeat constructor.
  - exists ["self"; "schedule"], "def refresh(self, schedule):". reflexivity.
  - exists ["self"], "def cleanup(self):". reflexivity.
Defined.

Lemma schedulables_run_example :
  validate_schedulables (extension_context two_schedulables)
  = inr (Result
           [Item ERROR
              "The schedulable method *cleanup* has an invalid signature: *cleanup(self)*"
              (Location None None None)]
           false (Some (extension_context two_schedulables))).
Proof. reflexivity. Qed.

Lemma last_definition_wins_witness :
  let first := EventDefinition "asset_purchase_request_processing" (Some ["pending"]) in
  let last := EventDefinition "asset_purchase_request_processing" None in
  definitions_of [first; last] !! "asset_purchase_request_processing" = Some last.
Proof.
  intros first last.
  apply (last_definition_wins (H := sample_externals) [first; last] [first] last []);
    [reflexivity|].
  apply not_elem_of_nil.
Defined.

Lemma variables_pass_iff_witness :
  let vars := [[("name", VStr "API_KEY"); ("initial_value", VStr "changeme"); ("secure", VBool true)];
               [("name", VStr "region.name")]] in
  let classes := [("extension", variables_class vars); ("webapp", variables_class vars)] in
  validate_variables (context_of classes) = inr (Result [] false (Some (context_of classes)))
  <-> Forall (fun c => Forall clean (get_variables (snd c))
                       /\ NoDup (declared_names (get_variables (snd c)))) classes.
Proof.
  intros vars classes.
  apply (variables_pass_iff (H := sample_externals) (context_of classes) classes);
    [reflexivity|].
  repeat first [exact I | constructor].
Defined.

(** Both classes declare the same two clean entries, and the run reports
    nothing. *)
Lemma variables_run_example :
  let vars := [[("name", VStr "API_KEY"); ("initial_value", VStr "changeme"); ("secure", VBool true)];
               [("name", VStr "region.name")]] in
  let classes := [("extension", variables_class vars); ("webapp", variables_class vars)] in
  validate_variables (context_of classes) = inr (Result [] false (Some (context_of classes))).
Proof. reflexivity. Qed.

Lemma name_not_a_string_raises_witness :
  let vars := [[("name", VStr "1st")]; [("name", VInt 5)]] in
  validate_variables (context_of [("extension", variables_class vars)]) = inl TypeError.
Proof.
  intros vars.
  apply (name_not_a_string_raises (H := sample_externals) _
           [("extension", variables_class vars)]); [reflexivity|].
  apply Exists_cons_hd. apply Exists_cons_tl. apply Exists_cons_hd.
  intros Hwell. exact Hwell.
Defined.

Lemma wrong_base_halts_witness :
  let c := ("webapp", described_class (Some (VDict []))) in
  validate_extension_class (context_of misdeclared)
  = inr (Result [wrong_base_error c] true None)
  /\ forall outcomes,
       validate_extension_class
         (with_classes (with_descriptors outcomes misdeclared) (context_of misdeclared))
       = validate_extension_class (context_of misdeclared).
Proof.
  intros c.
  apply (wrong_base_halts (context_of misdeclared) misdeclared c); reflexivity.
Defined.

Lemma wrong_base_example :
  validate_extension_class (context_of misdeclared)
  = inr (Result
           [Item ERROR
              "The extension class *MyExtension* is not a subclass of *connect.eaas.core.extension.WebAppExtension*."
              (in_file "project/events.py")]
           true None).
Proof. reflexivity. Qed.

Lemma descriptor_keys_warned_witness :
  let d := [(VStr "name", VStr "My extension"); (VStr "schedulables", VList []);
            (VStr "variables", VList [])] in
  let cls := described_class (Some (VDict d)) in
  validate_extension_class (context_of [("extension", cls)])
  = inr (Result
           [Item WARNING
              "Extension variables must be declared using the *connect.eaas.core.decorators.variables* decorator."
              (in_file "project/extension.json");
            Item WARNING
              "Extension schedulables must be declared using the *connect.eaas.core.decorators.event* decorator."
              (in_file "project/extension.json")]
           false (Some (Context None (Some (VDict d)) None))).
Proof.
  intros d cls.
  exact (descriptor_keys_warned (context_of [("extension", cls)]) "extension" cls [] d
           eq_refl eq_refl eq_refl).
Defined.

Lemma extension_class_raises_examples :
  validate_extension_class (Context None None None) = inl KeyError
  /\ validate_extension_class (context_of []) = inl AttributeError
  /\ validate_extension_class (context_of [("extension", described_class (Some VNone))])
     = inl TypeError.
Proof. repeat split. Qed.

Lemma webapp_result_shape_witness :
  let result :=
    Result
      [Item ERROR "The Web app extension class must be wrapped in *@web_app(router)*."
         (in_file "project/events.py")]
      true None in
  let ctx := context_of [("webapp", described_class None)] in
  (messages result = [] /\ must_halt result = false /\ context_patch result = Some ctx)
  \/ (exists finding file,
        messages result = [finding]
        /\ item_level finding = ERROR /\ item_location finding = in_file file
        /\ must_halt result = true /\ context_patch result = None).
Proof.
  intros result ctx.
  apply (webapp_result_shape (H := sample_externals) settings_only ctx result). reflexivity.
Defined.

Lemma webapp_without_ui_witness :
  let cls := webapp_class (VDict []) in
  let ctx := Context (Some [("webapp", cls)]) (Some (VDict [(VStr "name", VStr "My app")]))
               (Some "24.1") in
  (classes_get "webapp" [("webapp", cls)] = None ->
   validate_webapp_extension settings_only ctx = inr (Result [] false (Some ctx)))
  /\ (forall cls', classes_get "webapp" [("webapp", cls)] = Some cls' -> wired cls' ->
        (descriptor ctx = None -> validate_webapp_extension settings_only ctx = inl KeyError)
        /\ (forall d, descriptor ctx = Some (VDict d) -> items_get (VStr "ui") d = None ->
              validate_webapp_extension settings_only ctx = inr (Result [] false (Some ctx)))).
Proof.
  intros cls ctx.
  apply (webapp_without_ui (H := sample_externals) settings_only ctx [("webapp", cls)]).
  reflexivity.
Defined.

Lemma webapp_without_ui_examples :
  validate_webapp_extension settings_only (context_of [("extension", two_schedulables)])
  = inr (Result [] false (Some (context_of [("extension", two_schedulables)])))
  /\ validate_webapp_extension settings_only (context_of [("webapp", webapp_class (VDict []))])
     = inl KeyError.
Proof. split; reflexivity. Qed.

Lemma list_valued_section_raises_witness :
  validate_webapp_extension settings_only admin_context = inl TypeError.
Proof.
  apply (list_valued_section_raises (H := sample_externals) settings_only admin_context
           [("webapp", webapp_class admin_descriptor)] (webapp_class admin_descriptor)
           [(VStr "ui", VDict admin_ui)] []
           (VStr "admins") [page "Admin page" "/static/admin.html" []]
           [(VStr "settings", page "Settings" "/static/settings.html" [])]
           [UiNode (Some (VStr "Settings")) (Some "/static/settings.html") []]).
  - reflexivity.
  - reflexivity.
  - split; reflexivity.
  - reflexivity.
  - reflexivity.
  - repeat constructor.
  - reflexivity.
Defined.

Lemma static_file_named_by_last_segment_witness :
  let cls := webapp_class sample_descriptor in
  ui_visit settings_only (getsourcefile cls) (extension_json_of cls)
    (page "Main" "/static/pages/main.html" [])
  = inr (Visited
           (if path_exists settings_only "project/static_root/main.html"
            then None else Some "/static/pages/main.html")
           []).
Proof.
  intros cls.
  apply (static_file_named_by_last_segment (H := sample_externals) settings_only cls
           [(VStr "label", VStr "Main"); (VStr "url", VStr "/static/pages/main.html")]
           "/static/pages/main.html" "main.html").
  - reflexivity.
  - reflexivity.
  - reflexivity.
  - right. exists "/static/pages". reflexivity.
Defined.

Lemma files_beside_the_class_examples :
  extension_json_of (webapp_class sample_descriptor) = "project/extension.json"
  /\ static_path (webapp_class sample_descriptor) "/static/pages/main.html"
     = "project/static_root/main.html"
  /\ static_path (webapp_class sample_descriptor) "/static/" = "project/static_root/".
Proof. repeat split. Qed.

Lemma service_without_mapping_raises_witness :
  let data := compose_of [(VStr "dev", VDict [(VStr "image", VStr "runner")]);
                          (VStr "db", VNone)] in
  validate_docker_compose_yml (project_with_compose (Some data)) "project" (context_of [])
  = inl AttributeError.
Proof.
  intros data.
  apply (service_without_mapping_raises (H := sample_externals)
           (project_with_compose (Some data)) "project" (context_of []) data "24.1"
           [(VStr "dev", VDict [(VStr "image", VStr "runner")])] (VStr "db") VNone []).
  - reflexivity.
  - reflexivity.
  - reflexivity.
  - reflexivity.
  - simpl. repeat split.
  - repeat constructor. exists [(VStr "image", VStr "runner")]. reflexivity.
  - reflexivity.
  - discriminate.
Defined.

Lemma reported_statuses_witness :
  let event := purchase_event (Some ["bogus"; "pending"; "bogus"]) in
  let cls := events_class ["self"; "request"] event in
  let definition :=
    EventDefinition "asset_purchase_request_processing" (Some ["pending"; "inquiring"]) in
  exists reported,
    NoDup reported
    /\ (forall status,
          status ∈ reported
          <-> status ∈ ["bogus"; "pending"; "bogus"]
              /\ (restricts definition = true ->
                  status ∉ default [] (object_statuses definition)))
    /\ event_step cls (definitions_of purchase_schema) [] event
       = inr ([]
              ++ match reported with
                 | [] => []
                 | _ =>
                     [Item ERROR
                        ("The status/es *" +:+ join ", " reported
                         +:+ "* are invalid for the event *" +:+ Event.event_type event
                         +:+ "*.")
                        (Location None None None)]
                 end
              ++ []).
Proof.
  intros event cls definition.
  apply (reported_statuses (H := sample_externals) purchase_schema cls event definition
           ["bogus"; "pending"; "bogus"] ["self"; "request"] "def process(self, request):" []);
    reflexivity.
Defined.

(** The status that is declared twice is told once. *)
Lemma reported_statuses_example :
  let event := purchase_event (Some ["bogus"; "pending"; "bogus"]) in
  event_step (events_class ["self"; "request"] event) (definitions_of purchase_schema) [] event
  = inr [Item ERROR
           "The status/es *bogus* are invalid for the event *asset_purchase_request_processing*."
           (Location None None None)].
Proof. vm_compute. reflexivity. Qed.

(** *** The loader on the sample projects *)

Import Project.

Lemma project_manifest :
  manifest_of (manifest core_dependency (plugin_table project_plugins)) core_dependency
    (Some (VDict project_plugins)).
Proof.
  eexists _, _. repeat split; reflexivity.
Defined.

Lemma project_loaded :
  loaded ["/usr/lib/python3"; "/work/project"] project_plugins extension_types
    [("extension", (events_module, described_class (Some (VDict []))));
     ("webapp", (webapp_module, webapp_class sample_descriptor))].
Proof.
  apply Loaded_take.
  { exists "my_ext.events:MyExtension", "my_ext.events", "MyExtension". repeat split. }
  apply Loaded_take.
  { exists "my_ext.webapp:MyWebApp", "my_ext.webapp", "MyWebApp". repeat split. }
  apply Loaded_skip; [reflexivity|]. apply Loaded_nil.
Defined.

Lemma declared_extensions_loaded_witness :
  validate_pyproject_toml "/work" ["/usr/lib/python3"] "project"
  = (inr (Result
            [Item WARNING
               "The response class *ProcessingResponse* has been deprecated in favor of *BackgroundResponse*."
               (Location None None None)]
            false
            (Some (Context
                     (Some [("extension", described_class (Some (VDict [])));
                            ("webapp", webapp_class sample_descriptor)])
                     None None))),
     ["/usr/lib/python3"; "/work/project"]).
Proof.
  exact (declared_extensions_loaded (H := sample_loader) "/work" ["/usr/lib/python3"]
           "project" _ core_dependency project_plugins _ eq_refl project_manifest
           project_loaded).
Defined.

Lemma import_failure_halts_witness :
  validate_pyproject_toml "/work" [] "broken"
  = (inr (Result
            [Item WARNING
               "Extensions must depend on *connect-eaas-core* library not *connect-extension-runner*."
               (in_file "broken/pyproject.toml");
             Item WARNING
               "The response class *ProcessingResponse* has been deprecated in favor of *BackgroundResponse*."
               (Location None None None);
             Item ERROR
               "The extension class *my_ext.anvil:MyAnvilApp* cannot be loaded: No module named 'my_ext.anvil'."
               (in_file "broken/pyproject.toml")]
            true None),
     ["/work/broken"]).
Proof.
  apply (import_failure_halts (H := sample_loader) "/work" [] "broken"
           (manifest runner_dependency (plugin_table broken_plugins))
           runner_dependency broken_plugins
           ["extension"; "webapp"] "anvil" []
           [("extension", (events_module, described_class (Some (VDict []))))]
           "my_ext.anvil:MyAnvilApp" "my_ext.anvil" "MyAnvilApp" "No module named 'my_ext.anvil'").
  - reflexivity.
  - eexists _, _. repeat split; reflexivity.
  - reflexivity.
  - apply Loaded_take.
    { exists "my_ext.events:MyExtension", "my_ext.events", "MyExtension". repeat split. }
    apply Loaded_skip; [reflexivity|]. apply Loaded_nil.
  - reflexivity.
  - reflexivity.
  - reflexivity.
Defined.

Lemma malformed_reference_raises_witness :
  validate_pyproject_toml "/work" [] "malformed" = (inl ValueError, ["/work/malformed"]).
Proof.
  refine (proj1 (malformed_reference_raises (H := sample_loader) "/work" [] "malformed"
                   (manifest core_dependency (plugin_table malformed_plugins))
                   core_dependency malformed_plugins [] "extension" ["webapp"; "anvil"] []
                   (VStr "my_ext.events.MyExtension") eq_refl _ eq_refl _ eq_refl)
            "my_ext.events.MyExtension" eq_refl eq_refl).
  - eexists _, _. repeat split; reflexivity.
  - apply Loaded_nil.
Defined.

Lemma no_declaration_halts_witness :
  validate_pyproject_toml "/work" [] "elsewhere" = (inr no_manifest, [])
  /\ validate_pyproject_toml "/work" [] "undeclared"
     = (inr (Result
               [Item ERROR "No dependency on *connect-eaas-core* has been found."
                  (in_file "undeclared/pyproject.toml");
                Item ERROR no_declaration_message (in_file "undeclared/pyproject.toml")]
               true None),
        []).
Proof.
  destruct (no_declaration_halts (H := sample_loader) "/work" [] "elsewhere") as [Hreader _].
  destruct (no_declaration_halts (H := sample_loader) "/work" [] "undeclared") as [_ Hnone].
  split.
  - apply Hreader. reflexivity.
  - apply (Hnone (manifest [] []) [] None).
    + reflexivity.
    + eexists _, _. repeat split; reflexivity.
    + discriminate.
Defined.

Lemma loaded_classes_in_fixed_order_witness :
  let result :=
    Result
      [Item WARNING
         "The response class *ProcessingResponse* has been deprecated in favor of *BackgroundResponse*."
         (Location None None None)]
      false
      (Some (Context
               (Some [("extension", described_class (Some (VDict [])));
                      ("webapp", webapp_class sample_descriptor)])
               None None)) in
  exists found,
    loaded ([] ++ [path_join "/work" ["project"]]) project_plugins extension_types found
    /\ found <> []
    /\ context_patch result = Some (Context (Some (classes_of found)) None None)
    /\ map fst (classes_of found) = declared_types project_plugins
    /\ ["/work/project"] = [] ++ [path_join "/work" ["project"]].
Proof.
  intros result.
  apply (loaded_classes_in_fixed_order (H := sample_loader) "/work" [] "project"
           (manifest core_dependency (plugin_table project_plugins))
           core_dependency project_plugins result ["/work/project"]).
  - reflexivity.
  - exact project_manifest.
  - reflexivity.
  - reflexivity.
Defined.

(** The plugin table of the sample project lists the web application first;
    the loader returns the events extension first. *)
Lemma fixed_order_example :
  map fst project_plugins = [VStr "webapp"; VStr "extension"]
  /\ declared_types project_plugins = ["extension"; "webapp"].
Proof. split; reflexivity. Qed.

Lemma first_declared_type_gives_descriptor_witness :
  let cls := described_class (Some (VDict [])) in
  exists result patch,
    fst (validate_pyproject_toml "/work" ["/usr/lib/python3"] "project") = inr result
    /\ must_halt result = false
    /\ context_patch result = Some patch
    /\ hd_error (declared_types project_plugins) = Some "extension"
    /\ forall ctx, extension_classes ctx = extension_classes patch ->
         validate_extension_class ctx
         = inr (Result (descriptor_warnings (extension_json_of cls) []) false
                  (Some (Context None (Some (VDict [])) None))).
Proof.
  intros cls.
  apply (first_declared_type_gives_descriptor (H := sample_loader) "/work"
           ["/usr/lib/python3"] "project"
           (manifest core_dependency (plugin_table project_plugins))
           core_dependency project_plugins "extension" events_module cls
           [("webapp", (webapp_module, webapp_class sample_descriptor))] []).
  - reflexivity.
  - exact project_manifest.
  - exact project_loaded.
  - reflexivity.
  - reflexivity.
Defined.
